(** * o3-time-master: session lifecycle, idle classifier and persistence gateway

    A shallow embedding of the time tracker (src/src/storageManager.ts, which
    holds both FileStorageManager and TimeTracker), of the activity monitor
    (ActivityMonitor) and of the few helpers of timeUtils.ts they call.  It
    further covers the formatting and calendar helpers of timeUtils.ts, the
    storage directory of a workspace, the aggregation over all workspaces
    (src/src/crossWorkspaceManager.ts), the range totals of the global summary
    view and the totals of the tracker's two quick picks.

    Conventions of the embedding.
    - A [Date] is its [getTime()] value: milliseconds since the epoch, in [Z].
      A [number] that holds a duration or a counter is a [Z] as well; a
      [number] that results from a division is the double it is ([float]).
    - Every handler (a timer callback, an editor event, a command) observes
      one clock reading [now]; what it reads from the host (the current
      project, the random digits of a session id, drawn anew for each id)
      comes in an [Env].
    - A handler that awaits a write is taken to its end before the next
      handler starts, but for two places, which are given as the code runs
      them.  The monitor calls the callbacks for the events of one check one
      after the other without awaiting them, so that the callback for a sleep
      event is suspended at its write while the callback for the wake event
      runs ([dispatch]).  And [stop()] is given whole ([stop]) as well as in
      the parts that its two awaited writes separate ([stop_begin],
      [stop_saved], [stop_end]), between which other handlers can run.
    - TimeSession objects are shared between [ProjectStats.sessions] and
      [TrackingData.currentSession]; the embedding keeps them in a store
      ([heap]) and both places hold addresses, so a mutation through one
      reference is seen through the other.
    - Local calendar days are those of a zone at a fixed offset [tz] from UTC.
    - [storage.save] is taken to succeed; it changes nothing the tracker
      reads.  What it writes passes through [serializeData], [JSON] and
      [deserializeData]. *)

From stdpp Require Import gmap strings list fin_maps pretty.
From Stdlib Require Import ZArith Lia PrimFloat.

Local Open Scope Z_scope.

(** ** Calendar helpers *)

Definition MS_PER_DAY : Z := 86400000.

(** [formatDate]: the date part of [toISOString()], i.e. the UTC day.  The
    string YYYY-MM-DD is determined by, and determines, the UTC day number. *)
Definition formatDate (date : Z) : Z := date / MS_PER_DAY.

(** [toLocaleDateString('de-DE')]: the local calendar day, as a day number. *)
Definition toLocaleDateString (tz : Z) (date : Z) : Z := (date + tz) / MS_PER_DAY.

(** [d.setHours(0, 0, 0, 0)]: local midnight at the start of [date]'s day. *)
Definition setHours0 (tz : Z) (date : Z) : Z := date - (date + tz) mod MS_PER_DAY.

(** 23:59:59.999 of the local day that contains [date]. *)
Definition endOfLocalDay (tz : Z) (date : Z) : Z := setHours0 tz date + MS_PER_DAY - 1.

(** ** Configuration (loadConfiguration) *)

Record ExtensionConfig := mkConfig {
  idleThreshold : Z;
  autoStart : bool;
  showInStatusBar : bool;
  saveInterval : Z;
  trackBackground : bool;
  autoEndSessionAfterIdle : bool;
  autoEndIdleThreshold : Z;
  autoEndSessionOnProjectChange : bool
}.

Definition defaultConfig : ExtensionConfig :=
  mkConfig 5 true true 30 true true 30 true.

(** ** Activity monitor *)

Inductive ActivityState :=
  | ACTIVE_FOREGROUND
  | ACTIVE_BACKGROUND
  | IDLE_FOREGROUND
  | INACTIVE.

Inductive ActivityType :=
  | text_change
  | cursor_change
  | window_focus
  | window_blur
  | sleep
  | wake.

Record ActivityEvent := mkEvent {
  ev_type : ActivityType;
  timestamp : Z
}.

Record ActivityMonitor := mkMonitor {
  mon_lastActivity : Z;
  isWindowFocused : bool;
  lastHeartbeat : Z
}.

Definition HEARTBEAT_INTERVAL : Z := 10000.
Definition SLEEP_THRESHOLD : Z := 30000.

Definition getCurrentState (cfg : ExtensionConfig) (m : ActivityMonitor) (now : Z)
  : ActivityState :=
  let idleThresholdMs := idleThreshold cfg * 60 * 1000 in
  let timeSinceLastActivity := now - mon_lastActivity m in
  let timeSinceLastHeartbeat := now - lastHeartbeat m in
  let hasSleepGap := SLEEP_THRESHOLD <? timeSinceLastHeartbeat in
  let isIdle := (idleThresholdMs <? timeSinceLastActivity) || hasSleepGap in
  if isWindowFocused m then
    (if isIdle then IDLE_FOREGROUND else ACTIVE_FOREGROUND)
  else if trackBackground cfg && negb isIdle && negb hasSleepGap then
    ACTIVE_BACKGROUND
  else INACTIVE.

Definition monitorIsActive (cfg : ExtensionConfig) (m : ActivityMonitor) (now : Z) : bool :=
  match getCurrentState cfg m now with
  | ACTIVE_FOREGROUND | ACTIVE_BACKGROUND => true
  | _ => false
  end.

(** [recordActivity] stores the event's timestamp; the callbacks then run
    against the monitor so updated. *)
Definition recordActivity (e : ActivityEvent) (m : ActivityMonitor) : ActivityMonitor :=
  mkMonitor (timestamp e) (isWindowFocused m) (lastHeartbeat m).

(** [checkSleepWake]: the events it hands to [recordActivity], in order. *)
Definition checkSleepWake_events (m : ActivityMonitor) (now : Z) : list ActivityEvent :=
  let timeSinceLastHeartbeat := now - lastHeartbeat m in
  if SLEEP_THRESHOLD <? timeSinceLastHeartbeat then
    [ mkEvent sleep (lastHeartbeat m + HEARTBEAT_INTERVAL); mkEvent wake now ]
  else [].

(** [onWindowStateChangeEnhanced]: the events it records, in order. *)
Definition onWindowStateChange_events (m : ActivityMonitor) (focused : bool) (now : Z)
  : list ActivityEvent :=
  let wasFocused := isWindowFocused m in
  if Bool.eqb wasFocused focused then []
  else
    (if focused && negb wasFocused then
       let timeSinceLastActivity := now - mon_lastActivity m in
       let timeSinceLastHeartbeat := now - lastHeartbeat m in
       if (SLEEP_THRESHOLD <? timeSinceLastActivity)
          || (SLEEP_THRESHOLD <? timeSinceLastHeartbeat)
       then [ mkEvent wake now ] else []
     else [])
    ++ [ mkEvent (if focused then window_focus else window_blur) now ].


(** ** Data model (types.ts) *)

(** A session id is [`${Date.now()}-${Math.random().toString(36).substr(2, 9)}`]:
    the clock reading and the random digits, kept apart. *)
Definition SessionId : Type := Z * string.

Definition generateSessionId (now : Z) (rnd : string) : SessionId := (now, rnd).

(** [session_id] is the field [id]. *)
Record TimeSession := mkSession {
  session_id : SessionId;
  projectName : string;
  projectPath : string;
  startTime : Z;
  endTime : option Z;
  totalTime : Z;
  isActive : bool;
  lastActivity : Z;
  lastActiveTime : Z;
  textChanges : Z;
  cursorMovements : Z
}.

Definition set_endTime (v : option Z) (s : TimeSession) : TimeSession :=
  mkSession (session_id s) (projectName s) (projectPath s) (startTime s) v
    (totalTime s) (isActive s) (lastActivity s) (lastActiveTime s)
    (textChanges s) (cursorMovements s).

Definition set_totalTime (v : Z) (s : TimeSession) : TimeSession :=
  mkSession (session_id s) (projectName s) (projectPath s) (startTime s) (endTime s)
    v (isActive s) (lastActivity s) (lastActiveTime s)
    (textChanges s) (cursorMovements s).

Definition set_isActive (v : bool) (s : TimeSession) : TimeSession :=
  mkSession (session_id s) (projectName s) (projectPath s) (startTime s) (endTime s)
    (totalTime s) v (lastActivity s) (lastActiveTime s)
    (textChanges s) (cursorMovements s).

Definition set_lastActivity (v : Z) (s : TimeSession) : TimeSession :=
  mkSession (session_id s) (projectName s) (projectPath s) (startTime s) (endTime s)
    (totalTime s) (isActive s) v (lastActiveTime s)
    (textChanges s) (cursorMovements s).

Definition set_lastActiveTime (v : Z) (s : TimeSession) : TimeSession :=
  mkSession (session_id s) (projectName s) (projectPath s) (startTime s) (endTime s)
    (totalTime s) (isActive s) (lastActivity s) v
    (textChanges s) (cursorMovements s).

Definition set_textChanges (v : Z) (s : TimeSession) : TimeSession :=
  mkSession (session_id s) (projectName s) (projectPath s) (startTime s) (endTime s)
    (totalTime s) (isActive s) (lastActivity s) (lastActiveTime s)
    v (cursorMovements s).

Definition set_cursorMovements (v : Z) (s : TimeSession) : TimeSession :=
  mkSession (session_id s) (projectName s) (projectPath s) (startTime s) (endTime s)
    (totalTime s) (isActive s) (lastActivity s) (lastActiveTime s)
    (textChanges s) v.

(** [sessions] holds addresses into the store of session objects.
    [averageSessionDuration] is the double a division yields.  [activeDays]
    is a [Set]'s size. *)
Record ProjectStats := mkStats {
  stats_projectName : string;
  stats_projectPath : string;
  stats_totalTime : Z;
  sessions : list nat;
  stats_lastActivity : Z;
  firstSession : Z;
  averageSessionDuration : float;
  activeDays : nat
}.

(** The tracker: the fields of its [trackingData] (with the store the session
    references point into), its configuration and its private flags. *)
Record TimeTracker := mkTracker {
  heap : list TimeSession;
  projects : gmap string ProjectStats;
  currentSession : option nat;
  data_lastActivity : Z;
  totalTimeTracked : Z;
  version : string;
  lastSaved : Z;
  workspacePath : option string;
  workspaceName : option string;
  config : ExtensionConfig;
  isRunning : bool;
  isPaused : bool;
  lastSessionDay : option Z
}.

Definition set_heap (v : list TimeSession) (t : TimeTracker) : TimeTracker :=
  mkTracker v (projects t) (currentSession t) (data_lastActivity t)
    (totalTimeTracked t) (version t) (lastSaved t) (workspacePath t) (workspaceName t)
    (config t) (isRunning t) (isPaused t) (lastSessionDay t).

Definition set_projects (v : gmap string ProjectStats) (t : TimeTracker) : TimeTracker :=
  mkTracker (heap t) v (currentSession t) (data_lastActivity t)
    (totalTimeTracked t) (version t) (lastSaved t) (workspacePath t) (workspaceName t)
    (config t) (isRunning t) (isPaused t) (lastSessionDay t).

Definition set_currentSession (v : option nat) (t : TimeTracker) : TimeTracker :=
  mkTracker (heap t) (projects t) v (data_lastActivity t)
    (totalTimeTracked t) (version t) (lastSaved t) (workspacePath t) (workspaceName t)
    (config t) (isRunning t) (isPaused t) (lastSessionDay t).

Definition set_data_lastActivity (v : Z) (t : TimeTracker) : TimeTracker :=
  mkTracker (heap t) (projects t) (currentSession t) v
    (totalTimeTracked t) (version t) (lastSaved t) (workspacePath t) (workspaceName t)
    (config t) (isRunning t) (isPaused t) (lastSessionDay t).

Definition set_config (v : ExtensionConfig) (t : TimeTracker) : TimeTracker :=
  mkTracker (heap t) (projects t) (currentSession t) (data_lastActivity t)
    (totalTimeTracked t) (version t) (lastSaved t) (workspacePath t) (workspaceName t)
    v (isRunning t) (isPaused t) (lastSessionDay t).

Definition set_isRunning (v : bool) (t : TimeTracker) : TimeTracker :=
  mkTracker (heap t) (projects t) (currentSession t) (data_lastActivity t)
    (totalTimeTracked t) (version t) (lastSaved t) (workspacePath t) (workspaceName t)
    (config t) v (isPaused t) (lastSessionDay t).

Definition set_isPaused (v : bool) (t : TimeTracker) : TimeTracker :=
  mkTracker (heap t) (projects t) (currentSession t) (data_lastActivity t)
    (totalTimeTracked t) (version t) (lastSaved t) (workspacePath t) (workspaceName t)
    (config t) (isRunning t) v (lastSessionDay t).

Definition set_lastSessionDay (v : option Z) (t : TimeTracker) : TimeTracker :=
  mkTracker (heap t) (projects t) (currentSession t) (data_lastActivity t)
    (totalTimeTracked t) (version t) (lastSaved t) (workspacePath t) (workspaceName t)
    (config t) (isRunning t) (isPaused t) v.

(** Mutation of the session object at address [a]. *)
Definition modifySession (a : nat) (f : TimeSession → TimeSession) (t : TimeTracker)
  : TimeTracker :=
  set_heap (alter f a (heap t)) t.

(** What a handler reads from its host: the clock, the result of
    [getCurrentProject()] as (name, path), and what [Math.random()] yields:
    [rnd n] is the digits [Math.random().toString(36).substr(2, 9)] drawn
    when a session is created while the store holds [n] session objects, so
    that two sessions created by one handler have draws of their own. *)
Record Env := mkEnv {
  now : Z;
  currentProject : option (string * string);
  rnd : nat → string
}.

(** ** Numbers *)

(** The double that holds a whole number: built by doubling, which is exact
    as long as the number is below 2^53 in size. *)
Fixpoint numberOfPositive (p : positive) : float :=
  match p with
  | xH => 1%float
  | xO p => PrimFloat.mul 2%float (numberOfPositive p)
  | xI p => PrimFloat.add (PrimFloat.mul 2%float (numberOfPositive p)) 1%float
  end.

Definition toNumber (z : Z) : float :=
  match z with
  | Z0 => 0%float
  | Zpos p => numberOfPositive p
  | Zneg p => PrimFloat.opp (numberOfPositive p)
  end.

(** ** Array helpers *)

(** [Array.prototype.sort] is stable; with the comparator
    [(a, b) => key(b) - key(a)] it orders by decreasing key. *)
Fixpoint insertDesc {A : Type} (key : A → Z) (x : A) (l : list A) : list A :=
  match l with
  | [] => [x]
  | y :: l' => if key y <=? key x then x :: l else y :: insertDesc key x l'
  end.

Definition sortDesc {A : Type} (key : A → Z) (l : list A) : list A :=
  foldr (insertDesc key) [] l.

(** The session objects behind a list of references, each with its address. *)
Definition resolve (h : list TimeSession) (l : list nat) : list (nat * TimeSession) :=
  omap (λ a, (λ s, (a, s)) <$> h !! a) l.

(** [sessions.filter(s => s.endTime)] *)
Definition completedSessions (h : list TimeSession) (l : list nat) : list (nat * TimeSession) :=
  filter (λ p, is_Some (endTime p.2)) (resolve h l).

(** [sessions.filter(session => !session.endTime)] *)
Definition openSessions (h : list TimeSession) (l : list nat) : list (nat * TimeSession) :=
  filter (λ p, endTime p.2 = None) (resolve h l).

(** ** Project aggregate maintainer *)

Definition recalculateProjectStats (h : list TimeSession) (ps : ProjectStats) : ProjectStats :=
  let done := completedSessions h (sessions ps) in
  let total := foldl (λ total p, total + totalTime p.2) 0 done in
  let average :=
    if decide (0 < length done)%nat
    then PrimFloat.div (toNumber total) (toNumber (Z.of_nat (length done)))
    else 0%float in
  let uniqueDays : gset Z := list_to_set ((λ p, formatDate (startTime p.2)) <$> done) in
  let lastSession := head (sortDesc (λ p, lastActivity p.2) done) in
  mkStats (stats_projectName ps) (stats_projectPath ps) total (sessions ps)
    (match lastSession with
     | Some p => lastActivity p.2
     | None => stats_lastActivity ps
     end)
    (firstSession ps) average (size uniqueDays).

Definition addSessionToProject (a : nat) (t : TimeTracker) : TimeTracker :=
  match heap t !! a with
  | None => t
  | Some session =>
    let projectStats :=
      match projects t !! projectPath session with
      | Some ps => ps
      | None =>
        mkStats (projectName session) (projectPath session) 0 []
          (startTime session) (startTime session) 0%float 1
      end in
    let pushed :=
      mkStats (stats_projectName projectStats) (stats_projectPath projectStats)
        (stats_totalTime projectStats) (sessions projectStats ++ [a])
        (stats_lastActivity projectStats) (firstSession projectStats)
        (averageSessionDuration projectStats) (activeDays projectStats) in
    set_projects
      (<[projectPath session := recalculateProjectStats (heap t) pushed]> (projects t)) t
  end.

(** [recalculateProjectStats] on the entry of [path], if there is one. *)
Definition recalculateAt (path : string) (t : TimeTracker) : TimeTracker :=
  match projects t !! path with
  | Some ps => set_projects (<[path := recalculateProjectStats (heap t) ps]> (projects t)) t
  | None => t
  end.

(** ** Persistence gateway (FileStorageManager) *)

(** A session as [serializeData] writes it and [JSON.parse] returns it: a
    date is the ISO string of an instant and is held as that instant; a
    property that is undefined is not in the file. *)
Record RawSession := mkRawSession {
  raw_id : SessionId;
  raw_projectName : string;
  raw_projectPath : string;
  raw_startTime : Z;
  raw_endTime : option Z;
  raw_totalTime : Z;
  raw_isActive : bool;
  raw_lastActivity : Z;
  raw_lastActiveTime : option Z;
  raw_textChanges : Z;
  raw_cursorMovements : Z
}.

Definition serializeSession (session : TimeSession) : RawSession :=
  mkRawSession (session_id session) (projectName session) (projectPath session)
    (startTime session) (endTime session) (totalTime session) (isActive session)
    (lastActivity session) (Some (lastActiveTime session))
    (textChanges session) (cursorMovements session).

Definition deserializeSession (session : RawSession) : TimeSession :=
  mkSession (raw_id session) (raw_projectName session) (raw_projectPath session)
    (raw_startTime session) (raw_endTime session) (raw_totalTime session)
    (raw_isActive session) (raw_lastActivity session)
    (default (raw_lastActivity session) (raw_lastActiveTime session))
    (raw_textChanges session) (raw_cursorMovements session).

Module Storage.

(** [TrackingData] as [deserializeData] builds it: a tree of fresh objects,
    nothing shared.  The Map is kept without its insertion order. *)
Record ProjectStats := mkProjectStats {
  projectName : string;
  projectPath : string;
  totalTime : Z;
  sessions : list TimeSession;
  lastActivity : Z;
  firstSession : Z;
  averageSessionDuration : float;
  activeDays : nat
}.

Record TrackingData := mkTrackingData {
  projects : gmap string ProjectStats;
  currentSession : option TimeSession;
  data_lastActivity : Z;
  totalTimeTracked : Z;
  version : string;
  lastSaved : Z;
  workspacePath : option string;
  workspaceName : option string
}.

Definition DATA_VERSION : string := "1.0.0".

(** What [readFile], [JSON.parse] and [deserializeData] make of a file:
    no file at all, a file one of the three throws on, or tracking data. *)
Inductive File :=
  | Missing
  | Corrupt
  | Holds (data : TrackingData).

Record Disk := mkDisk {
  directoryAvailable : bool;
  dataFile : File;
  backupFile : File
}.

(** [vscode.workspace.workspaceFolders?.[0]] as (fsPath, name). *)
Definition Workspace : Type := option (string * string).

(** JavaScript truthiness of an optional string. *)
Definition truthy (o : option string) : bool :=
  match o with
  | Some s => negb (bool_decide (s = ""))
  | None => false
  end.

Definition createDefaultData (ws : Workspace) (now : Z) : TrackingData :=
  mkTrackingData ∅ None now 0 DATA_VERSION now (fst <$> ws) (snd <$> ws).

(** [fs.access] succeeds on any file that is there. *)
Definition exists_ (disk : Disk) : bool :=
  match dataFile disk with
  | Missing => false
  | _ => true
  end.

(** The [catch] branch of [load]. *)
Definition loadBackup (ws : Workspace) (now : Z) (disk : Disk) : TrackingData :=
  match backupFile disk with
  | Holds backupData => backupData
  | _ => createDefaultData ws now
  end.

Definition load (ws : Workspace) (now : Z) (disk : Disk) : TrackingData :=
  if negb (directoryAvailable disk) then loadBackup ws now disk
  else if negb (exists_ disk) then createDefaultData ws now
  else
    match dataFile disk with
    | Holds trackingData =>
      match ws with
      | Some (fsPath, name) =>
        if truthy (workspacePath trackingData)
           && negb (bool_decide (workspacePath trackingData = Some fsPath))
        then createDefaultData ws now
        else if negb (truthy (workspacePath trackingData))
        then
          mkTrackingData (projects trackingData) (currentSession trackingData)
            (data_lastActivity trackingData) (totalTimeTracked trackingData)
            (version trackingData) (lastSaved trackingData) (Some fsPath) (Some name)
        else trackingData
      | None => trackingData
      end
    | _ => loadBackup ws now disk
    end.

(** ** What is written and what is read back *)

(** The object [serializeData] builds, as it is after [JSON.stringify] and
    [JSON.parse]; a number that is not finite is [null]. *)
Record RawProjectStats := mkRawProjectStats {
  raw_stats_projectName : string;
  raw_stats_projectPath : string;
  raw_stats_totalTime : Z;
  raw_sessions : option (list RawSession);
  raw_stats_lastActivity : Z;
  raw_firstSession : Z;
  raw_averageSessionDuration : option float;
  raw_activeDays : nat
}.

Record RawData := mkRawData {
  raw_projects : option (list (string * RawProjectStats));
  raw_currentSession : option RawSession;
  raw_data_lastActivity : option Z;
  raw_totalTimeTracked : option Z;
  raw_version : option string;
  raw_lastSaved : option Z;
  raw_workspacePath : option string;
  raw_workspaceName : option string
}.

(** A double through [JSON.stringify] and [JSON.parse]: [NaN] and the
    infinities are written [null], negative zero is written [0], every other
    double is read back as it was. *)
Definition jsonNumber (x : float) : option float :=
  if PrimFloat.is_finite x
  then Some (if PrimFloat.is_zero x then PrimFloat.zero else x)
  else None.

(** A [null] in a field that holds a number.  The average of a project is
    read by [JSON.stringify] alone, which writes [null] for it as for
    [NaN]. *)
Definition nullNumber : float := PrimFloat.nan.

Definition serializeProject (value : ProjectStats) : RawProjectStats :=
  mkRawProjectStats (projectName value) (projectPath value) (totalTime value)
    (Some (serializeSession <$> sessions value))
    (lastActivity value) (firstSession value)
    (jsonNumber (averageSessionDuration value)) (activeDays value).

Definition serializeData (data : TrackingData) : RawData :=
  mkRawData
    (Some ((λ entry, (entry.1, serializeProject entry.2)) <$> map_to_list (projects data)))
    (serializeSession <$> currentSession data)
    (Some (data_lastActivity data))
    (Some (totalTimeTracked data))
    (Some (version data))
    (Some (lastSaved data))
    (workspacePath data)
    (workspaceName data).

Definition deserializeProject (value : RawProjectStats) : ProjectStats :=
  mkProjectStats (raw_stats_projectName value) (raw_stats_projectPath value)
    (raw_stats_totalTime value)
    (deserializeSession <$> default [] (raw_sessions value))
    (raw_stats_lastActivity value) (raw_firstSession value)
    (default nullNumber (raw_averageSessionDuration value)) (raw_activeDays value).

(** [deserializeData] at the moment [now]. *)
Definition deserializeData (now : Z) (rawData : RawData) : TrackingData :=
  mkTrackingData
    (foldl (λ projects entry, <[entry.1 := deserializeProject entry.2]> projects) ∅
       (default [] (raw_projects rawData)))
    (deserializeSession <$> raw_currentSession rawData)
    (default now (raw_data_lastActivity rawData))
    (default 0 (raw_totalTimeTracked rawData))
    (match raw_version rawData with
     | Some v => if bool_decide (v = "") then DATA_VERSION else v
     | None => DATA_VERSION
     end)
    (default now (raw_lastSaved rawData))
    (if truthy (raw_workspacePath rawData) then raw_workspacePath rawData else None)
    (if truthy (raw_workspaceName rawData) then raw_workspaceName rawData else None).

(** The average of every project is a number that [JSON.stringify] and
    [JSON.parse] hand back as it is: finite, and not negative zero. *)
Definition plainAverages (data : TrackingData) : Prop :=
  map_Forall
    (λ _ value, jsonNumber (averageSessionDuration value)
                = Some (averageSessionDuration value))
    (projects data).

(** [save], when the directory can be made and the writes succeed: the prior
    file becomes the backup and the data file receives the serialized data,
    stamped with the time of the save.  A file is held as what
    [deserializeData] makes of it; what [serializeData] writes has every date,
    so that the moment of reading does not enter. *)
Definition save (data : TrackingData) (now : Z) (disk : Disk) : Disk :=
  mkDisk (directoryAvailable disk)
    (Holds (deserializeData now
              (serializeData
                 (mkTrackingData (projects data) (currentSession data)
                    (data_lastActivity data) (totalTimeTracked data) (version data)
                    now (workspacePath data) (workspaceName data)))))
    (if exists_ disk then dataFile disk else backupFile disk).

(** [backup]: the data file, when there is one, is copied over the backup. *)
Definition backup (disk : Disk) : Disk :=
  if exists_ disk
  then mkDisk (directoryAvailable disk) (dataFile disk) (dataFile disk)
  else disk.

(** [clear], when its file operations succeed: the data file is backed up
    and unlinked. *)
Definition clear (disk : Disk) : Disk :=
  let disk := backup disk in
  if exists_ disk
  then mkDisk (directoryAvailable disk) Missing (backupFile disk)
  else disk.

End Storage.

(** ** Time formatting (timeUtils.ts) *)

(** [TimeFormatOptions]: every field may be left out. *)
Record TimeFormatOptions := mkFormatOptions {
  showSeconds : option bool;
  shortFormat : option bool;
  alwaysShowHours : option bool
}.

(** The array [parts] of [formatTime] when it is joined.  [Math.floor(a / b)]
    is [a / b], [a % b] is the truncated remainder [Z.rem a b], and a number
    in a template literal is its decimal numeral ([pretty]). *)
Definition formatTimeParts (milliseconds : Z) (options : option TimeFormatOptions)
  : list string :=
  let opts_showSeconds := default true (options ≫= showSeconds) in
  let opts_shortFormat := default true (options ≫= shortFormat) in
  let opts_alwaysShowHours := default false (options ≫= alwaysShowHours) in
  let totalSeconds := milliseconds / 1000 in
  let hours := totalSeconds / 3600 in
  let minutes := Z.rem totalSeconds 3600 / 60 in
  let seconds := Z.rem totalSeconds 60 in
  let parts : list string := [] in
  let parts :=
    if (0 <? hours) || opts_alwaysShowHours then
      parts ++ [ if opts_shortFormat then pretty hours +:+ "h"
                 else pretty hours +:+ " " +:+ (if hours =? 1 then "hour" else "hours") ]
    else parts in
  let parts :=
    if (0 <? minutes) || (bool_decide (length parts = 0%nat) && negb opts_showSeconds) then
      parts ++ [ if opts_shortFormat then pretty minutes +:+ "m"
                 else pretty minutes +:+ " "
                      +:+ (if minutes =? 1 then "minute" else "minutes") ]
    else parts in
  if opts_showSeconds && ((0 <? seconds) || bool_decide (length parts = 0%nat)) then
    parts ++ [ if opts_shortFormat then pretty seconds +:+ "s"
               else pretty seconds +:+ " "
                    +:+ (if seconds =? 1 then "second" else "seconds") ]
  else parts.

(** [parts.join(' ') || '0s'] *)
Definition formatTime (milliseconds : Z) (options : option TimeFormatOptions) : string :=
  let joined := String.concat " " (formatTimeParts milliseconds options) in
  if bool_decide (joined = "") then "0s" else joined.

Definition formatDetailedTime (milliseconds : Z) : string :=
  formatTime milliseconds (Some (mkFormatOptions (Some false) (Some false) (Some false))).

(** ** Calendar ranges (timeUtils.ts) *)

(** [d.getDay()]: 0 is Sunday; day 0 of the epoch was a Thursday. *)
Definition getDay (tz : Z) (date : Z) : Z := (toLocaleDateString tz date + 4) mod 7.

(** [d.setDate(d.getDate() + diff)]: the same time of day, [diff] days on. *)
Definition addDays (date diff : Z) : Z := date + diff * MS_PER_DAY.

Definition getCurrentWeekStart (tz : Z) (now : Z) : Z :=
  let day := getDay tz now in
  let diff := if day =? 0 then -6 else 1 - day in
  let weekStart := addDays now diff in
  setHours0 tz weekStart.

Definition getCurrentWeekEnd (tz : Z) (now : Z) : Z :=
  let weekStart := getCurrentWeekStart tz now in
  let weekEnd := addDays weekStart 6 in
  endOfLocalDay tz weekEnd.

Definition getTodayStart (tz : Z) (now : Z) : Z := setHours0 tz now.

Definition getTodayEnd (tz : Z) (now : Z) : Z := endOfLocalDay tz now.

(** [new Date(d.getFullYear(), d.getMonth(), d.getDate())] is local midnight
    of [d]'s day. *)
Definition calculateSessionTimeInRange (tz : Z) (sessionStart sessionTotalTime : Z)
    (rangeStart rangeEnd : Z) : Z :=
  let sessionDate := setHours0 tz sessionStart in
  let rangeStartDate := setHours0 tz rangeStart in
  let rangeEndDate := setHours0 tz rangeEnd in
  if (rangeStartDate <=? sessionDate) && (sessionDate <=? rangeEndDate)
  then sessionTotalTime
  else 0.

(** ** The monitor without sleep detection

    The second ActivityMonitor of the sources (it follows timeUtils.ts in
    src/src/timeUtils.ts): the same class before the heartbeat was added. *)
Module BasicMonitor.

Record ActivityMonitor := mkMonitor {
  lastActivity : Z;
  isWindowFocused : bool
}.

Definition getCurrentState (cfg : ExtensionConfig) (m : ActivityMonitor) (now : Z)
  : ActivityState :=
  let idleThresholdMs := idleThreshold cfg * 60 * 1000 in
  let timeSinceLastActivity := now - lastActivity m in
  let isIdle := idleThresholdMs <? timeSinceLastActivity in
  if isWindowFocused m then
    (if isIdle then IDLE_FOREGROUND else ACTIVE_FOREGROUND)
  else if trackBackground cfg && negb isIdle then ACTIVE_BACKGROUND
  else INACTIVE.

Definition isActive (cfg : ExtensionConfig) (m : ActivityMonitor) (now : Z) : bool :=
  match getCurrentState cfg m now with
  | ACTIVE_FOREGROUND | ACTIVE_BACKGROUND => true
  | _ => false
  end.

End BasicMonitor.

(** ** Storage directory of a workspace (FileStorageManager) *)

(** [ToInt32]: the signed 32-bit integer congruent to [x]. *)
Definition toInt32 (x : Z) : Z := (x + 2 ^ 31) mod 2 ^ 32 - 2 ^ 31.

(** [x << n] and [x & y] on numbers. *)
Definition shiftLeft32 (x n : Z) : Z := toInt32 (Z.shiftl (toInt32 x) (Z.land n 31)).

Definition bitAnd32 (x y : Z) : Z := toInt32 (Z.land (toInt32 x) (toInt32 y)).

(** [s.charCodeAt(i)], for a string whose code units are below 256. *)
Definition charCode (c : Ascii.ascii) : Z := Z.of_nat (Ascii.nat_of_ascii c).

(** The body of the loop of [generateWorkspaceHash]. *)
Definition hashStep (hash : Z) (c : Ascii.ascii) : Z :=
  let char := charCode c in
  let hash := (shiftLeft32 hash 5 - hash) + char in
  bitAnd32 hash hash.

(** A digit of [Number.prototype.toString(36)]. *)
Definition digit36 (d : Z) : Ascii.ascii :=
  if d <? 10 then Ascii.ascii_of_nat (48 + Z.to_nat d) else Ascii.ascii_of_nat (87 + Z.to_nat d).

Fixpoint toString36_go (fuel : nat) (n : Z) (acc : string) : string :=
  match fuel with
  | O => acc
  | S fuel =>
    let acc := String (digit36 (n mod 36)) acc in
    if n / 36 =? 0 then acc else toString36_go fuel (n / 36) acc
  end.

(** [n.toString(36)] for a natural number [n]. *)
Definition toString36 (n : Z) : string :=
  toString36_go (S (Z.to_nat (Z.log2 n))) n "".

Definition workspaceHashCode (workspacePath : string) : Z :=
  foldl hashStep 0 (String.list_ascii_of_string workspacePath).

Definition generateWorkspaceHash (workspacePath : string) : string :=
  toString36 (Z.abs (workspaceHashCode workspacePath)).

(** The directory the constructor of FileStorageManager stores into, as the
    path below the extension's global storage. *)
Definition storageDir (workspaceFolder : option (string * string)) : list string :=
  match workspaceFolder with
  | Some (fsPath, _) => [ "workspaces"; generateWorkspaceHash fsPath ]
  | None => [ "global" ]
  end.

(** The polynomial [c_1 * 31^(n-1) + ... + c_n] in the code units of a
    string, by Horner's rule. *)
Definition polynomial31 (l : list Ascii.ascii) : Z :=
  foldl (λ acc c, 31 * acc + charCode c) 0 l.

(** ** Aggregation over all workspaces (crossWorkspaceManager.ts) *)

Module CrossWorkspace.

Record WorkspaceData := mkWorkspaceData {
  name : string;
  path : string;
  data : Storage.TrackingData
}.

Record AggregatedData := mkAggregatedData {
  allProjects : gmap string Storage.ProjectStats;
  totalTime : Z;
  workspaceCount : nat;
  lastUpdated : Z;
  workspaces : list WorkspaceData
}.

(** The fields [cachedData] and [lastCacheUpdate] of the manager. *)
Record CrossWorkspaceManager := mkManager {
  cachedData : option AggregatedData;
  lastCacheUpdate : Z
}.

Definition CACHE_DURATION : Z := 30000.

(** [a || b] on an optional string. *)
Definition orElse (a : option string) (b : string) : string :=
  match a with
  | Some s => if Storage.truthy a then s else b
  | None => b
  end.

(** The directory [workspaces] below the global storage: [None] when
    [fs.access] or [fs.readdir] throws, otherwise its entries in the order of
    [readdir], each with what reading its data file gives. *)
Definition WorkspacesDir : Type := option (list (string * Storage.File)).

(** The callback of [trackingData.projects.forEach] in
    [loadAllWorkspaceData], on the pair ([allProjects], [totalTime]). *)
Definition mergeProject (trackingData : Storage.TrackingData) (workspaceHash : string)
    (acc : gmap string Storage.ProjectStats * Z) (entry : string * Storage.ProjectStats)
  : gmap string Storage.ProjectStats * Z :=
  let projectPath := entry.1 in
  let project := entry.2 in
  let uniqueKey :=
    orElse (Storage.workspaceName trackingData) workspaceHash +:+ ":" +:+ projectPath in
  (<[uniqueKey :=
       Storage.mkProjectStats
         (Storage.projectName project +:+ " ("
          +:+ orElse (Storage.workspaceName trackingData) "Unknown" +:+ ")")
         (Storage.projectPath project) (Storage.totalTime project)
         (Storage.sessions project) (Storage.lastActivity project)
         (Storage.firstSession project) (Storage.averageSessionDuration project)
         (Storage.activeDays project)]> acc.1,
   acc.2 + Storage.totalTime project).

(** One turn of the loop over the workspace directories, on the triple
    ([allProjects], [totalTime], [workspaces]). *)
Definition loadWorkspace
    (acc : gmap string Storage.ProjectStats * Z * list WorkspaceData)
    (entry : string * Storage.File)
  : gmap string Storage.ProjectStats * Z * list WorkspaceData :=
  let workspaceHash := entry.1 in
  match entry.2 with
  | Storage.Holds trackingData =>
    let pushed :=
      acc.2 ++ [ mkWorkspaceData
                   (orElse (Storage.workspaceName trackingData)
                      ("Workspace " +:+ workspaceHash))
                   (orElse (Storage.workspacePath trackingData) "Unknown")
                   trackingData ] in
    let merged :=
      foldl (mergeProject trackingData workspaceHash) acc.1
        (map_to_list (Storage.projects trackingData)) in
    (merged, pushed)
  | _ => acc
  end.

Definition loadAllWorkspaceData (workspacesDir : WorkspacesDir) (now : Z) : AggregatedData :=
  let loaded :=
    match workspacesDir with
    | Some workspaceDirs => foldl loadWorkspace (∅, 0, []) workspaceDirs
    | None => (∅, 0, [])
    end in
  mkAggregatedData loaded.1.1 loaded.1.2 (length loaded.2) now loaded.2.

(** [getAggregatedData]: the data returned and the manager afterwards. *)
Definition getAggregatedData (workspacesDir : WorkspacesDir) (now : Z)
    (mgr : CrossWorkspaceManager) : AggregatedData * CrossWorkspaceManager :=
  match cachedData mgr with
  | Some cached =>
    if now - lastCacheUpdate mgr <? CACHE_DURATION then (cached, mgr)
    else
      let aggregatedData := loadAllWorkspaceData workspacesDir now in
      (aggregatedData, mkManager (Some aggregatedData) now)
  | None =>
    let aggregatedData := loadAllWorkspaceData workspacesDir now in
    (aggregatedData, mkManager (Some aggregatedData) now)
  end.

Definition refreshCache (workspacesDir : WorkspacesDir) (now : Z)
    (mgr : CrossWorkspaceManager) : CrossWorkspaceManager :=
  (getAggregatedData workspacesDir now (mkManager None 0)).2.

End CrossWorkspace.

(** ** Totals of the global summary view (GlobalSummaryViewProvider) *)

Module GlobalSummary.

(** The statement [totalTime += calculateSessionTimeInRange(...)] for one
    session. *)
Definition addSession (tz : Z) (rangeStart rangeEnd : Z) (totalTime_ : Z)
    (session : TimeSession) : Z :=
  totalTime_
  + calculateSessionTimeInRange tz (startTime session) (totalTime session) rangeStart rangeEnd.

(** The body of [data.workspaces.forEach] in [getTimeInDateRange]. *)
Definition addWorkspace (tz : Z) (rangeStart rangeEnd : Z) (totalTime_ : Z)
    (workspace : CrossWorkspace.WorkspaceData) : Z :=
  let listed :=
    foldl
      (λ total (entry : string * Storage.ProjectStats),
         foldl
           (λ total session,
              if bool_decide (is_Some (endTime session))
              then addSession tz rangeStart rangeEnd total session
              else total)
           total (Storage.sessions entry.2))
      totalTime_ (map_to_list (Storage.projects (CrossWorkspace.data workspace))) in
  match Storage.currentSession (CrossWorkspace.data workspace) with
  | Some currentSession => addSession tz rangeStart rangeEnd listed currentSession
  | None => listed
  end.

Definition getTimeInDateRange (tz : Z) (data : CrossWorkspace.AggregatedData)
    (rangeStart rangeEnd : Z) : Z :=
  foldl (addWorkspace tz rangeStart rangeEnd) 0 (CrossWorkspace.workspaces data).

Definition getTodayTotalTime (tz : Z) (now : Z) (data : CrossWorkspace.AggregatedData) : Z :=
  let todayStart := getTodayStart tz now in
  let todayEnd := getTodayEnd tz now in
  getTimeInDateRange tz data todayStart todayEnd.

Definition getWeekTotalTime (tz : Z) (now : Z) (data : CrossWorkspace.AggregatedData) : Z :=
  let weekStart := getCurrentWeekStart tz now in
  let weekEnd := getCurrentWeekEnd tz now in
  getTimeInDateRange tz data weekStart weekEnd.

(** [getWeekDays]: the seven days of the current week, each at local
    midnight. *)
Definition getWeekDays (tz : Z) (now : Z) : list Z :=
  let weekStart := getCurrentWeekStart tz now in
  (λ i, addDays weekStart i) <$> [0; 1; 2; 3; 4; 5; 6].

End GlobalSummary.

(** ** Vocabulary for the aggregates *)

(** A data file that can be read and parsed. *)
Definition readable (file : Storage.File) : bool :=
  match file with
  | Storage.Holds _ => true
  | _ => false
  end.

(** The tracking data of the readable entries of a directory listing. *)
Definition readableData (workspaceDirs : list (string * Storage.File))
  : list Storage.TrackingData :=
  omap (λ entry, match entry.2 with Storage.Holds d => Some d | _ => None end) workspaceDirs.

(** The sessions a range total looks at: of every workspace, the listed
    sessions that have an end time, then its current session. *)
Definition countedSessions (data : CrossWorkspace.AggregatedData) : list TimeSession :=
  workspace ← CrossWorkspace.workspaces data;
  (entry ← map_to_list (Storage.projects (CrossWorkspace.data workspace));
   filter (λ s, is_Some (endTime s)) (Storage.sessions entry.2))
  ++ option_list (Storage.currentSession (CrossWorkspace.data workspace)).

(** The range of one calendar day as [getProjectTimeForDay] computes it:
    [setHours(0, 0, 0, 0)] and [setHours(23, 59, 59, 999)] of the date. *)
Definition dayRange (tz : Z) (date : Z) : Z * Z := (setHours0 tz date, endOfLocalDay tz date).

(** The sum of the total times of the projects of one workspace. *)
Definition projectTotals (trackingData : Storage.TrackingData) : Z :=
  foldr Z.add 0 ((λ entry, Storage.totalTime entry.2)
                 <$> map_to_list (Storage.projects trackingData)).

(** Modelled from the spec: [safeTimeDifference] of timeUtils.ts, which the
    tracker imports but whose definition is not part of the sources at hand.
    The specification says of it that accumulation deltas are clamped to
    non-negative; nothing is said about its third argument, so none of the
    results below depends on this definition except where it instantiates
    the helper the tracker is parameterised by. *)
Definition safeTimeDifference_clamped (later earlier maxMinutes : Z) : Z :=
  Z.max 0 (later - earlier).

Section Tracker.

(** The offset of local time from UTC, in milliseconds. *)
Variable tz : Z.

(** The imported helper [safeTimeDifference(later, earlier, minutes)]. *)
Variable safeTimeDifference : Z → Z → Z → Z.

(** ** Session lookup *)

Definition findRecentSession (path : string) (t : TimeTracker) : option (nat * TimeSession) :=
  match projects t !! path with
  | None => None
  | Some projectStats =>
    head (sortDesc (λ p, lastActivity p.2) (openSessions (heap t) (sessions projectStats)))
  end.

Definition shouldResumeSession (now : Z) (session : TimeSession) : bool :=
  let timeSinceLastActivity := now - lastActivity session in
  let resumeThreshold := 30 * 60 * 1000 in
  timeSinceLastActivity <? resumeThreshold.

Definition newSessionFor (name path : string) (env : Env) (n : nat) : TimeSession :=
  mkSession (generateSessionId (now env) (rnd env n)) name path (now env) None 0 true
    (now env) (now env) 0 0.

(** The last statement of [startOrResumeSession] and of nothing else: record
    the local day on which the current session started. *)
Definition trackSessionDay (t : TimeTracker) : TimeTracker :=
  match currentSession t with
  | Some a =>
    match heap t !! a with
    | Some s => set_lastSessionDay (Some (toLocaleDateString tz (startTime s))) t
    | None => t
    end
  | None => t
  end.

Definition resumeSession (a : nat) (env : Env) (t : TimeTracker) : TimeTracker :=
  set_currentSession (Some a)
    (modifySession a
       (λ s, set_lastActiveTime (now env) (set_lastActivity (now env) (set_isActive true s)))
       t).

Definition startNewSession (newSession : TimeSession) (t : TimeTracker) : TimeTracker :=
  let a := length (heap t) in
  addSessionToProject a (set_currentSession (Some a) (set_heap (heap t ++ [newSession]) t)).

Definition startOrResumeSession (env : Env) (t : TimeTracker) : TimeTracker :=
  match currentProject env with
  | None => t
  | Some (name, path) =>
    trackSessionDay
      match findRecentSession path t with
      | Some (a, existingSession) =>
        if shouldResumeSession (now env) existingSession
        then resumeSession a env t
        else startNewSession (newSessionFor name path env (length (heap t))) t
      | None => startNewSession (newSessionFor name path env (length (heap t))) t
      end
  end.

(** ** End *)

Definition endCurrentSession (endTimeArg : option Z) (m : ActivityMonitor) (env : Env)
    (t : TimeTracker) : TimeTracker :=
  match currentSession t with
  | None => t
  | Some a =>
    match heap t !! a with
    | None => t
    | Some session =>
      let finalEndTime := default (default (now env) (endTime session)) endTimeArg in
      let t1 := modifySession a (λ s, set_isActive false (set_endTime (Some finalEndTime) s)) t in
      let t2 :=
        if monitorIsActive (config t) m (now env) then
          let remainingActiveTime :=
            safeTimeDifference finalEndTime (lastActiveTime session) (idleThreshold (config t)) in
          if 0 <? remainingActiveTime
          then modifySession a (λ s, set_totalTime (totalTime s + remainingActiveTime) s) t1
          else t1
        else t1 in
      let t3 := recalculateAt (projectPath session) t2 in
      set_lastSessionDay None (set_currentSession None t3)
    end
  end.

(** ** Split at midnight *)

Definition splitSessionAtMidnight (m : ActivityMonitor) (env : Env) (t : TimeTracker)
  : TimeTracker :=
  match currentSession t with
  | None => t
  | Some a =>
    match heap t !! a with
    | None => t
    | Some current =>
      let endOfYesterday := setHours0 tz (now env) - 1 in
      let t1 := modifySession a (λ s, set_isActive false (set_endTime (Some endOfYesterday) s)) t in
      let t2 :=
        if monitorIsActive (config t) m (now env)
           && (lastActiveTime current <? endOfYesterday)
        then
          let remainingActiveTime := endOfYesterday - lastActiveTime current in
          modifySession a (λ s, set_totalTime (totalTime s + remainingActiveTime) s) t1
        else t1 in
      let t3 := recalculateAt (projectPath current) t2 in
      startNewSession
        (newSessionFor (projectName current) (projectPath current) env (length (heap t))) t3
    end
  end.

Definition checkAndHandleMidnightCrossing (m : ActivityMonitor) (env : Env) (t : TimeTracker)
  : TimeTracker :=
  match currentSession t with
  | None => t
  | Some _ =>
    let currentDay := toLocaleDateString tz (now env) in
    match lastSessionDay t with
    | Some day =>
      if decide (day ≠ currentDay)
      then set_lastSessionDay (Some currentDay) (splitSessionAtMidnight m env t)
      else t
    | None => t
    end
  end.

(** ** Idle end and project change *)

Definition checkAndHandleIdleSessionEnd (m : ActivityMonitor) (env : Env) (t : TimeTracker)
  : TimeTracker :=
  match currentSession t with
  | None => t
  | Some a =>
    match heap t !! a with
    | None => t
    | Some session =>
      let idleThresholdMs := autoEndIdleThreshold (config t) * 60 * 1000 in
      let timeSinceLastActivity := now env - lastActiveTime session in
      if idleThresholdMs <? timeSinceLastActivity
      then endCurrentSession None m env t
      else t
    end
  end.

Definition checkAndHandleProjectChange (m : ActivityMonitor) (env : Env) (t : TimeTracker)
  : TimeTracker :=
  match currentSession t with
  | None => t
  | Some a =>
    match heap t !! a with
    | None => t
    | Some session =>
      match currentProject env with
      | None => endCurrentSession None m env t
      | Some (name, path) =>
        if decide (projectPath session ≠ path)
        then startOrResumeSession env (endCurrentSession None m env t)
        else t
      end
    end
  end.

(** ** Tick *)

(** [this.trackingData.currentSession && !this.isPaused] *)
Definition tracking (t : TimeTracker) : bool :=
  bool_decide (is_Some (currentSession t)) && negb (isPaused t).

(** The block "Update current session time if active" of [tick]. *)
Definition updateCurrentSessionTime (m : ActivityMonitor) (env : Env) (t : TimeTracker)
  : TimeTracker :=
  match currentSession t with
  | None => t
  | Some a =>
    match heap t !! a with
    | None => t
    | Some session =>
      if monitorIsActive (config t) m (now env) then
        let timeSinceLastActive := safeTimeDifference (now env) (lastActiveTime session) 1 in
        let t1 :=
          if 0 <? timeSinceLastActive
          then modifySession a (λ s, set_totalTime (totalTime s + timeSinceLastActive) s) t
          else t in
        set_data_lastActivity (now env)
          (modifySession a (λ s, set_lastActivity (now env) (set_lastActiveTime (now env) s)) t1)
      else t
    end
  end.

Definition tick (m : ActivityMonitor) (env : Env) (t : TimeTracker) : TimeTracker :=
  let t1 := if tracking t then checkAndHandleMidnightCrossing m env t else t in
  let t2 :=
    if autoEndSessionOnProjectChange (config t1) && tracking t1
    then checkAndHandleProjectChange m env t1 else t1 in
  let t3 :=
    if autoEndSessionAfterIdle (config t2) && tracking t2
    then checkAndHandleIdleSessionEnd m env t2 else t2 in
  let t4 := if tracking t3 then updateCurrentSessionTime m env t3 else t3 in
  if autoStart (config t4) && bool_decide (currentSession t4 = None) && negb (isPaused t4)
  then (if monitorIsActive (config t4) m (now env) then startOrResumeSession env t4 else t4)
  else t4.

(** ** Activity events *)

Definition onActivity (event : ActivityEvent) (m : ActivityMonitor) (env : Env)
    (t : TimeTracker) : TimeTracker :=
  if negb (isRunning t) then t
  else
    match ev_type event with
    | sleep =>
      match currentSession t with
      | Some a =>
        if negb (isPaused t) then
          if autoEndSessionAfterIdle (config t)
          then endCurrentSession (Some (timestamp event)) m env t
          else
            set_isPaused true
              (modifySession a
                 (λ s, set_lastActivity (timestamp event) (set_isActive false s)) t)
        else t
      | None => t
      end
    | wake =>
      match currentSession t with
      | Some a =>
        if isPaused t then
          modifySession a
            (λ s, set_lastActiveTime (timestamp event)
                    (set_lastActivity (timestamp event) (set_isActive true s)))
            (set_isPaused false t)
        else t
      | None => if autoStart (config t) then startOrResumeSession env t else t
      end
    | kind =>
      if isPaused t then t
      else
        let t1 :=
          match currentSession t with
          | Some a =>
            modifySession a
              (λ s,
                 set_lastActivity (now env)
                   (set_lastActiveTime (now env)
                      match kind with
                      | text_change => set_textChanges (textChanges s + 1) s
                      | cursor_change => set_cursorMovements (cursorMovements s + 1) s
                      | _ => s
                      end)) t
          | None => t
          end in
        if autoStart (config t1) && bool_decide (currentSession t1 = None)
        then startOrResumeSession env t1
        else t1
    end.

(** ** Commands *)

Definition pause (t : TimeTracker) : TimeTracker :=
  if negb (isRunning t) then t
  else
    let t1 := set_isPaused true t in
    match currentSession t1 with
    | Some a => modifySession a (set_isActive false) t1
    | None => t1
    end.

Definition resume (env : Env) (t : TimeTracker) : TimeTracker :=
  if negb (isRunning t) then t
  else
    let t1 := set_isPaused false t in
    match currentSession t1 with
    | Some a => modifySession a (λ s, set_lastActivity (now env) (set_isActive true s)) t1
    | None => t1
    end.

(** [stop()] when no other handler runs before it returns.  It awaits two
    writes, that of [endCurrentSession] and its own; the three parts they
    separate follow. *)
Definition stop (m : ActivityMonitor) (env : Env) (t : TimeTracker) : TimeTracker :=
  if negb (isRunning t) then t
  else set_isPaused false (set_isRunning false (endCurrentSession None m env t)).

(** [endCurrentSession] has a session to end, and so a write to await. *)
Definition ending (t : TimeTracker) : bool :=
  match currentSession t with
  | Some a => bool_decide (is_Some (heap t !! a))
  | None => false
  end.

(** [stop()] of a running tracker up to the first awaited write:
    [endCurrentSession] as far as its call of [storage.save]. *)
Definition stop_begin (m : ActivityMonitor) (env : Env) (t : TimeTracker) : TimeTracker :=
  set_lastSessionDay (lastSessionDay t) (endCurrentSession None m env t).

(** From there to the second awaited write: the last statement of
    [endCurrentSession], which is reached when there was a session to end;
    then the timers are cleared, so that no tick follows. *)
Definition stop_saved (ended : bool) (t : TimeTracker) : TimeTracker :=
  if ended then set_lastSessionDay None t else t.

(** The rest of [stop()]: the two flags. *)
Definition stop_end (t : TimeTracker) : TimeTracker :=
  set_isPaused false (set_isRunning false t).

Definition reset (t : TimeTracker) : TimeTracker :=
  match currentSession t with
  | None => t
  | Some a =>
    match heap t !! a with
    | None => t
    | Some current =>
      let t1 :=
        match projects t !! projectPath current with
        | Some projectStats =>
          let kept :=
            filter (λ b, session_id <$> heap t !! b ≠ Some (session_id current))
              (sessions projectStats) in
          let filtered :=
            mkStats (stats_projectName projectStats) (stats_projectPath projectStats)
              (stats_totalTime projectStats) kept
              (stats_lastActivity projectStats) (firstSession projectStats)
              (averageSessionDuration projectStats) (activeDays projectStats) in
          set_projects
            (<[projectPath current := recalculateProjectStats (heap t) filtered]> (projects t)) t
        | None => t
        end in
      set_lastSessionDay None (set_currentSession None t1)
    end
  end.

(** ** Export *)

Record ExportedData := mkExport {
  exportDate : Z;
  export_version : string;
  export_projects : list ProjectStats;
  export_totalTimeTracked : Z
}.

(** The object [exportData] serialises once a file has been chosen.  The
    projects come in the order of their paths here and in the order of their
    insertion in the Map; nothing below depends on their order. *)
Definition exportData (env : Env) (t : TimeTracker) : ExportedData :=
  mkExport (now env) (version t) (snd <$> map_to_list (projects t)) (totalTimeTracked t).

(** ** The monitor and the tracker together *)

Record System := mkSystem {
  monitor : ActivityMonitor;
  tracker : TimeTracker
}.

Inductive Signal :=
  | Tick
  | TextChange
  | CursorChange
  | WindowState (focused : bool)
  | Heartbeat
  | Pause
  | Resume
  | Stop
  | Reset
  | ConfigurationChanged (cfg : ExtensionConfig).

(** [recordActivity] followed by the tracker's callback, taken to its end. *)
Definition deliver (env : Env) (s : System) (e : ActivityEvent) : System :=
  let m := recordActivity e (monitor s) in
  mkSystem m (onActivity e m env (tracker s)).

(** [endCurrentSession] awaits [storage.save] before its last statement,
    [this.lastSessionDay = undefined].  The callback for an activity event
    reaches that write only for a sleep event, on a running, unpaused tracker
    with a current session and auto-end enabled. *)
Definition awaitsSave (e : ActivityEvent) (t : TimeTracker) : bool :=
  match ev_type e with
  | sleep => isRunning t && tracking t && autoEndSessionAfterIdle (config t)
  | _ => false
  end.

(** The callback for [e] up to where it is suspended.  When it awaits the
    write, all of it but the last statement of [endCurrentSession] has run:
    the day recorded is still the one from before. *)
Definition deliver_begin (env : Env) (s : System) (e : ActivityEvent) : System :=
  let s1 := deliver env s e in
  if awaitsSave e (tracker s)
  then mkSystem (monitor s1) (set_lastSessionDay (lastSessionDay (tracker s)) (tracker s1))
  else s1.

(** The callbacks for the events that one call of the monitor records one
    after the other ([recordActivity] does not await them; [checkSleepWake]
    records a sleep and then a wake event): each runs up to its suspension,
    and the callback suspended at the write runs its last statement when the
    callbacks for the later events have run. *)
Fixpoint dispatch (env : Env) (s : System) (events : list ActivityEvent) : System :=
  match events with
  | [] => s
  | e :: rest =>
    let s1 := dispatch env (deliver_begin env s e) rest in
    if awaitsSave e (tracker s)
    then mkSystem (monitor s1) (set_lastSessionDay None (tracker s1))
    else s1
  end.

(** What a signal makes the monitor and the tracker do.  [Stop] is
    [stop()] with no other handler between its writes. *)
Definition handle (sig : Signal) (env : Env) (s : System) : System :=
  match sig with
  | Tick =>
    if isRunning (tracker s)
    then mkSystem (monitor s) (tick (monitor s) env (tracker s))
    else s
  | TextChange => deliver env s (mkEvent text_change (now env))
  | CursorChange => deliver env s (mkEvent cursor_change (now env))
  | WindowState focused =>
    let events := onWindowStateChange_events (monitor s) focused (now env) in
    let m := mkMonitor (mon_lastActivity (monitor s)) focused (lastHeartbeat (monitor s)) in
    dispatch env (mkSystem m (tracker s)) events
  | Heartbeat =>
    let s1 := dispatch env s (checkSleepWake_events (monitor s) (now env)) in
    mkSystem
      (mkMonitor (mon_lastActivity (monitor s1)) (isWindowFocused (monitor s1)) (now env))
      (tracker s1)
  | Pause => mkSystem (monitor s) (pause (tracker s))
  | Resume => mkSystem (monitor s) (resume env (tracker s))
  | Stop => mkSystem (monitor s) (stop (monitor s) env (tracker s))
  | Reset => mkSystem (monitor s) (reset (tracker s))
  | ConfigurationChanged cfg => mkSystem (monitor s) (set_config cfg (tracker s))
  end.

(** A run: signals with the environment each handler observed, oldest first. *)
Definition run (trace : list (Signal * Env)) (s : System) : System :=
  foldl (λ s step, handle step.1 step.2 s) s trace.

(** ** Start-up: what is loaded becomes the tracking data *)

(** The tracking data as [serializeData] walks it: every reference is
    followed, so a session that is both listed and current is written
    twice. *)
Definition snapshotProject (h : list TimeSession) (ps : ProjectStats) : Storage.ProjectStats :=
  Storage.mkProjectStats (stats_projectName ps) (stats_projectPath ps) (stats_totalTime ps)
    (snd <$> resolve h (sessions ps)) (stats_lastActivity ps) (firstSession ps)
    (averageSessionDuration ps) (activeDays ps).

Definition snapshot (t : TimeTracker) : Storage.TrackingData :=
  Storage.mkTrackingData (snapshotProject (heap t) <$> projects t)
    (currentSession t ≫= λ a, heap t !! a)
    (data_lastActivity t) (totalTimeTracked t) (version t) (lastSaved t)
    (workspacePath t) (workspaceName t).

Definition autoSave (env : Env) (t : TimeTracker) (disk : Storage.Disk) : Storage.Disk :=
  Storage.save (snapshot t) (now env) disk.

(** Loaded data enters the store: each deserialised session is an object of
    its own, the current session included. *)
Definition adoptProject (acc : list TimeSession * gmap string ProjectStats)
    (entry : string * Storage.ProjectStats) : list TimeSession * gmap string ProjectStats :=
  let h := acc.1 in
  let value := entry.2 in
  (h ++ Storage.sessions value,
   <[entry.1 :=
       mkStats (Storage.projectName value) (Storage.projectPath value)
         (Storage.totalTime value)
         (seq (length h) (length (Storage.sessions value)))
         (Storage.lastActivity value) (Storage.firstSession value)
         (Storage.averageSessionDuration value) (Storage.activeDays value)]> acc.2).

Definition adopt (data : Storage.TrackingData) (t : TimeTracker) : TimeTracker :=
  let listed := foldl adoptProject ([], ∅) (map_to_list (Storage.projects data)) in
  let h := listed.1 in
  mkTracker
    (match Storage.currentSession data with Some s => h ++ [s] | None => h end)
    listed.2
    (match Storage.currentSession data with Some _ => Some (length h) | None => None end)
    (Storage.data_lastActivity data) (Storage.totalTimeTracked data)
    (Storage.version data) (Storage.lastSaved data)
    (Storage.workspacePath data) (Storage.workspaceName data)
    (config t) (isRunning t) (isPaused t) (lastSessionDay t).

(** The tracker as its constructor leaves it. *)
Definition newTracker (cfg : ExtensionConfig) (now : Z) : TimeTracker :=
  mkTracker [] ∅ None now 0 "1.0.0" now None None cfg false false None.

Definition start (ws : Storage.Workspace) (disk : Storage.Disk) (env : Env)
    (t : TimeTracker) : TimeTracker :=
  if isRunning t then t
  else
    let t1 := adopt (Storage.load ws (now env) disk) t in
    let t2 := if autoStart (config t1) then startOrResumeSession env t1 else t1 in
    set_isPaused false (set_isRunning true t2).

(** ** Today's totals (status bar and quick picks) *)

(** The session object [trackingData.currentSession] refers to. *)
Definition currentSessionObject (t : TimeTracker) : option TimeSession :=
  currentSession t ≫= λ a, heap t !! a.

Definition getTodayProjectTime (path : string) (env : Env) (t : TimeTracker) : Z :=
  let todayDateString := toLocaleDateString tz (now env) in
  let totalTodayTime :=
    match projects t !! path with
    | Some projectStats =>
      foldl
        (λ total (p : nat * TimeSession),
           let sessionDate := toLocaleDateString tz (startTime p.2) in
           if bool_decide (sessionDate = todayDateString ∧ is_Some (endTime p.2))
           then total + totalTime p.2
           else total)
        0 (resolve (heap t) (sessions projectStats))
    | None => 0
    end in
  match currentSessionObject t with
  | Some current =>
    if bool_decide (projectPath current = path) then
      let sessionDate := toLocaleDateString tz (startTime current) in
      if bool_decide (sessionDate = todayDateString)
      then totalTodayTime + totalTime current
      else totalTodayTime
    else totalTodayTime
  | None => totalTodayTime
  end.

(** [totalTodayTime] of [showStatistics], the total in the title of its
    quick pick. *)
Definition showStatistics_total (env : Env) (t : TimeTracker) : Z :=
  let todayDateString := toLocaleDateString tz (now env) in
  let collected :=
    foldl
      (λ (acc : list (ProjectStats * Z) * Z) (entry : string * ProjectStats),
         let project := entry.2 in
         let todayTime := getTodayProjectTime (stats_projectPath project) env t in
         if 0 <? todayTime
         then (acc.1 ++ [(project, todayTime)], acc.2 + todayTime)
         else acc)
      ([], 0) (map_to_list (projects t)) in
  let projectsWithTodayTime := collected.1 in
  let totalTodayTime := collected.2 in
  match currentSessionObject t with
  | Some current =>
    let currentSessionDate := toLocaleDateString tz (startTime current) in
    if bool_decide (currentSessionDate = todayDateString) then
      let currentProjectPath := projectPath current in
      let existingProject :=
        List.find (λ p, bool_decide (stats_projectPath p.1 = currentProjectPath))
          projectsWithTodayTime in
      match existingProject with
      | Some _ => totalTodayTime
      | None =>
        let todayTime := getTodayProjectTime currentProjectPath env t in
        if 0 <? todayTime then
          match projects t !! currentProjectPath with
          | Some projectStats => totalTodayTime + todayTime
          | None => totalTodayTime
          end
        else totalTodayTime
      end
    else totalTodayTime
  | None => totalTodayTime
  end.

(** [totalTodayTime] of [showTodaysSessions], the total in the title of its
    quick pick. *)
Definition showTodaysSessions_total (env : Env) (t : TimeTracker) : Z :=
  let todayDateString := toLocaleDateString tz (now env) in
  let totalTodayTime :=
    match currentSessionObject t with
    | Some current =>
      let sessionDate := toLocaleDateString tz (startTime current) in
      if bool_decide (sessionDate = todayDateString) then totalTime current else 0
    | None => 0
    end in
  foldl
    (λ total (entry : string * ProjectStats),
       foldl
         (λ total (p : nat * TimeSession),
            let sessionDate := toLocaleDateString tz (startTime p.2) in
            if bool_decide (sessionDate = todayDateString)
            then total + totalTime p.2
            else total)
         total (resolve (heap t) (sessions entry.2)))
    totalTodayTime (map_to_list (projects t)).

(** ** Vocabulary of the properties *)

Definition sumZ (l : list Z) : Z := foldr Z.add 0 l.

(** *** The aggregate as the specification words it *)

(** The session objects a project lists. *)
Definition listedSessions (h : list TimeSession) (ps : ProjectStats) : list TimeSession :=
  omap (λ a, h !! a) (sessions ps).

(** A completed session is one that has ended. *)
Definition hasEnded (s : TimeSession) : bool :=
  match endTime s with
  | Some _ => true
  | None => false
  end.

(** The completed sessions of a project. *)
Definition completedOf (h : list TimeSession) (ps : ProjectStats) : list TimeSession :=
  filter (λ s, hasEnded s = true) (listedSessions h ps).

(** The calendar date on which a session started: the date YYYY-MM-DD of
    its start in UTC, held as the number of that day. *)
Definition startDate (s : TimeSession) : Z := startTime s `div` 86400000.

(** The number of distinct values of a list. *)
Definition distinct (l : list Z) : nat := length (remove_dups l).

(** The aggregate of [ps] is the full recomputation over its completed
    sessions in the store [h]: the total is the sum of their total times,
    the average that total divided by their number (0 when there is none),
    the active days the number of their distinct start dates, and the last
    activity that of the most recently active of them. *)
Definition aggregate_recomputed (h : list TimeSession) (ps : ProjectStats) : Prop :=
  let done := completedOf h ps in
  stats_totalTime ps = sumZ (totalTime <$> done)
  ∧ averageSessionDuration ps
    = match done with
      | [] => 0%float
      | _ => PrimFloat.div (toNumber (stats_totalTime ps))
               (toNumber (Z.of_nat (length done)))
      end
  ∧ activeDays ps = distinct (startDate <$> done)
  ∧ (done ≠ [] →
     (∃ s, s ∈ done ∧ stats_lastActivity ps = lastActivity s)
     ∧ ∀ s, s ∈ done → lastActivity s ≤ stats_lastActivity ps).


(** [s], stored at [a], is a session listed for the project at [path] that
    has no end time and whose last activity lies within the resume window. *)
Definition resumable (now : Z) (path : string) (t : TimeTracker) (a : nat) (s : TimeSession)
  : Prop :=
  ∃ ps, projects t !! path = Some ps
        ∧ a ∈ sessions ps
        ∧ heap t !! a = Some s
        ∧ endTime s = None
        ∧ now - lastActivity s < 30 * 60 * 1000.

(** The references listed for the project at [path]. *)
Definition listedAt (path : string) (t : TimeTracker) : list nat :=
  match projects t !! path with
  | Some ps => sessions ps
  | None => []
  end.

(** The claim about the split as it was written: the session the midnight
    check closes ends at 23:59:59.999 of the day it started on. *)
Definition split_ends_on_start_day (m : ActivityMonitor) (env : Env) (t : TimeTracker) : Prop :=
  ∀ a session,
    currentSession t = Some a →
    heap t !! a = Some session →
    lastSessionDay t = Some (toLocaleDateString tz (startTime session)) →
    toLocaleDateString tz (startTime session) ≠ toLocaleDateString tz (now env) →
    endTime <$> heap (checkAndHandleMidnightCrossing m env t) !! a
    = Some (Some (endOfLocalDay tz (startTime session))).

(** The operations that modify a session. *)
Inductive SessionOperation :=
  | OpTick
  | OpActivity (event : ActivityEvent)
  | OpEndCurrentSession (endTimeArg : option Z)
  | OpSplitSessionAtMidnight.

Definition perform (op : SessionOperation) (m : ActivityMonitor) (env : Env)
    (t : TimeTracker) : TimeTracker :=
  match op with
  | OpTick => tick m env t
  | OpActivity event => onActivity event m env t
  | OpEndCurrentSession endTimeArg => endCurrentSession endTimeArg m env t
  | OpSplitSessionAtMidnight => splitSessionAtMidnight m env t
  end.

(** From store [h] to store [h']: every session is still there with a total
    time at least as large, and a session that is new has a total that is not
    negative. *)
Definition totals_grow (h h' : list TimeSession) : Prop :=
  (∀ a s, h !! a = Some s → ∃ s', h' !! a = Some s' ∧ totalTime s ≤ totalTime s')
  ∧ (∀ a s', h !! a = None → h' !! a = Some s' → 0 ≤ totalTime s').

Definition totals_nonnegative (h : list TimeSession) : Prop :=
  ∀ a s, h !! a = Some s → 0 ≤ totalTime s.

(** ** Invariants of a run *)

(** How the sessions are listed: no reference is listed twice, every listed
    reference points to a session, which is of that project if it has no end
    time, a listed session without end time is the current one, and the
    current session has no end time. *)
Record structure (t : TimeTracker) : Prop := mkStructure {
  listed_nodup : ∀ path, NoDup (listedAt path t);
  listed_valid :
    ∀ path b, b ∈ listedAt path t →
              ∃ s, heap t !! b = Some s ∧ (endTime s = None → projectPath s = path);
  open_is_current :
    ∀ path b s, b ∈ listedAt path t → heap t !! b = Some s → endTime s = None →
                currentSession t = Some b;
  current_open :
    ∀ a, currentSession t = Some a → ∃ s, heap t !! a = Some s ∧ endTime s = None
}.

(** The bound of the wall-clock span: an ended session's total time is at
    most [endTime - startTime], an open one's at most [clock - startTime]. *)
Definition within_wall_clock (clock : Z) (s : TimeSession) : Prop :=
  match endTime s with
  | Some e => totalTime s ≤ e - startTime s
  | None => totalTime s ≤ clock - startTime s
  end.

(** A trace whose clock readings never go back, from [T] on. *)
Fixpoint clock_ordered (T : Z) (trace : list (Signal * Env)) : Prop :=
  match trace with
  | [] => True
  | step :: rest => T ≤ now step.2 ∧ clock_ordered (now step.2) rest
  end.

(** The last clock reading of a trace that began at [T]. *)
Definition clock_after (T : Z) (trace : list (Signal * Env)) : Z :=
  foldl (λ _ step, now step.2) T trace.

(** Storage that holds neither a data file nor a backup. *)
Definition empty_storage (disk : Storage.Disk) : Prop :=
  Storage.dataFile disk = Storage.Missing ∧ Storage.backupFile disk = Storage.Missing.

(** The monitor and a newly constructed tracker after [start()]. *)
Definition started (cfg : ExtensionConfig) (m : ActivityMonitor) (ws : Storage.Workspace)
    (disk : Storage.Disk) (env : Env) : System :=
  mkSystem m (start ws disk env (newTracker cfg (now env))).

(** At most one listed session of each project has no end time. *)
Definition one_open_session_per_project (t : TimeTracker) : Prop :=
  ∀ path ps, projects t !! path = Some ps →
             (length (openSessions (heap t) (sessions ps)) ≤ 1)%nat.

(** The first two clauses of [structure]. *)
Definition listing (t : TimeTracker) : Prop :=
  (∀ path, NoDup (listedAt path t))
  ∧ ∀ path b, b ∈ listedAt path t →
              ∃ s, heap t !! b = Some s ∧ (endTime s = None → projectPath s = path).

(** Every listed session has an end time. *)
Definition all_closed (t : TimeTracker) : Prop :=
  ∀ path b s, b ∈ listedAt path t → heap t !! b = Some s → is_Some (endTime s).

(** ** Vocabulary of the further properties *)

(** The configuration and the two flags of the tracker. *)
Definition settings (t : TimeTracker) : ExtensionConfig * bool * bool :=
  (config t, isRunning t, isPaused t).

(** The fields of the tracking data that describe the file rather than the
    sessions. *)
Definition metadata (t : TimeTracker) : Z * string * option string * option string :=
  (totalTimeTracked t, version t, workspacePath t, workspaceName t).

(** From [t] to [t']: neither the settings nor the metadata have changed. *)
Definition kept (t t' : TimeTracker) : Prop :=
  settings t' = settings t ∧ metadata t' = metadata t.

(** The current session is listed for the project it belongs to. *)
Definition current_listed (t : TimeTracker) : Prop :=
  ∀ a, currentSession t = Some a →
       ∃ s, heap t !! a = Some s ∧ a ∈ listedAt (projectPath s) t.

(** The sessions are listed as [structure] says, the current one among
    them. *)
Definition listed (t : TimeTracker) : Prop := structure t ∧ current_listed t.

(** Every project is filed under its own path. *)
Definition keyed_by_path (t : TimeTracker) : Prop :=
  ∀ path ps, projects t !! path = Some ps → stats_projectPath ps = path.

(** A tracker that is not running has no current session. *)
Definition idle_when_stopped (t : TimeTracker) : Prop :=
  isRunning t = false → currentSession t = None.

(** The current session, if any, satisfies [P]. *)
Definition current_satisfies (P : TimeSession → Prop) (t : TimeTracker) : Prop :=
  ∀ a s, currentSession t = Some a → heap t !! a = Some s → P s.

(** A tick, an edit, a cursor movement or the window losing focus. *)
Definition ordinary (sig : Signal) : Prop :=
  sig = Tick ∨ sig = TextChange ∨ sig = CursorChange ∨ sig = WindowState false.

(** A signal that makes the monitor record a wake event: a heartbeat check
    after a gap of more than 30 s, or the window regaining focus more than
    30 s after the last activity or the last heartbeat. *)
Definition wakes (sig : Signal) (env : Env) (m : ActivityMonitor) : Prop :=
  (sig = Heartbeat ∧ SLEEP_THRESHOLD < now env - lastHeartbeat m)
  ∨ (sig = WindowState true
     ∧ isWindowFocused m = false
     ∧ (SLEEP_THRESHOLD < now env - mon_lastActivity m
        ∨ SLEEP_THRESHOLD < now env - lastHeartbeat m)).

(** From store [h] to store [h']: every session is still there with the
    total time it had, and a session that is new has total time 0. *)
Definition totals_same (h h' : list TimeSession) : Prop :=
  (∀ a s, h !! a = Some s → ∃ s', h' !! a = Some s' ∧ totalTime s' = totalTime s)
  ∧ (∀ a s', h !! a = None → h' !! a = Some s' → totalTime s' = 0).

(** What an activity event of kind [kind] adds to the two counters. *)
Definition counted (kind : ActivityType) : Z * Z :=
  match kind with
  | text_change => (1, 0)
  | cursor_change => (0, 1)
  | _ => (0, 0)
  end.

(** The sessions listed for the project at [path] that started on the local
    day of [now]. *)
Definition listedToday (path : string) (now : Z) (t : TimeTracker) : list TimeSession :=
  snd <$> filter (λ p, toLocaleDateString tz (startTime p.2) = toLocaleDateString tz now)
            (resolve (heap t) (listedAt path t)).

(** The total time of the current session if it started on the local day of
    [now], otherwise 0. *)
Definition currentToday (now : Z) (t : TimeTracker) : Z :=
  match currentSessionObject t with
  | Some current =>
    if bool_decide (toLocaleDateString tz (startTime current) = toLocaleDateString tz now)
    then totalTime current else 0
  | None => 0
  end.

(** The books of a tracker: how the sessions are listed, the current session
    among them, every project under its own path, no negative total. *)
Definition bookkeeping (t : TimeTracker) : Prop :=
  listed t ∧ keyed_by_path t ∧ totals_nonnegative (heap t).

(** ** The life of a tracker *)

(** Tracking data in which no session is open: there is no current session
    and every listed session has an end time. *)
Definition closed_data (data : Storage.TrackingData) : Prop :=
  Storage.currentSession data = None
  ∧ map_Forall (λ _ ps, Forall (λ s, is_Some (endTime s)) (Storage.sessions ps))
      (Storage.projects data).

(** What is done with a tracker: a signal is handled, [start()] is called
    with the workspace and the storage as they then are, or a [stop()] during
    whose writes other handlers run goes through one of its three parts
    ([ended] tells whether its [endCurrentSession] had a session to end). *)
Inductive Operation :=
  | Handled (sig : Signal)
  | Started (ws : Storage.Workspace) (disk : Storage.Disk)
  | StopBegins
  | StopContinues (ended : bool)
  | StopEnds.

Definition operate (op : Operation) (env : Env) (s : System) : System :=
  match op with
  | Handled sig => handle sig env s
  | Started ws disk => mkSystem (monitor s) (start ws disk env (tracker s))
  | StopBegins =>
    if isRunning (tracker s)
    then mkSystem (monitor s) (stop_begin (monitor s) env (tracker s))
    else s
  | StopContinues ended => mkSystem (monitor s) (stop_saved ended (tracker s))
  | StopEnds => mkSystem (monitor s) (stop_end (tracker s))
  end.

(** A life: operations with the environment each one observed, oldest
    first. *)
Definition life (ops : list (Operation * Env)) (s : System) : System :=
  foldl (λ s step, operate step.1 step.2 s) s ops.

(** Every [start()] of [ops] finds storage from which [load] returns closed
    data. *)
Fixpoint loads_closed_data (ops : list (Operation * Env)) : Prop :=
  match ops with
  | [] => True
  | (Started ws disk, env) :: rest =>
    closed_data (Storage.load ws (now env) disk) ∧ loads_closed_data rest
  | _ :: rest => loads_closed_data rest
  end.


(** The claim about the id of a new session as it was written: when
    [startOrResumeSession] puts a new session into the store, no session
    that was there has its id. *)
Definition new_id_is_fresh (env : Env) (t : TimeTracker) : Prop :=
  ∀ created, heap (startOrResumeSession env t) = heap t ++ [created] →
             ∀ b s, heap t !! b = Some s → session_id s ≠ session_id created.

(** What is known of the time credited to a session when the clock has
    reached [T]: its total time is not negative, its [lastActiveTime] lies
    between its start and the clock, and while it has no end time its total
    is at most [lastActiveTime - startTime]. *)
Definition session_credit (T : Z) (s : TimeSession) : Prop :=
  0 ≤ totalTime s
  ∧ startTime s ≤ lastActiveTime s ≤ T
  ∧ (endTime s = None → totalTime s ≤ lastActiveTime s - startTime s).

Definition credited (T : Z) (t : TimeTracker) : Prop :=
  ∀ a s, heap t !! a = Some s → session_credit T s.

(** The monitor stamps a wake event with the present moment. *)
Definition stamped_now (env : Env) (e : ActivityEvent) : Prop :=
  ev_type e = wake → timestamp e = now env.

(** Two systems that differ at most in the day recorded. *)
Definition same_but_day (s s' : System) : Prop :=
  monitor s = monitor s' ∧ ∃ d, tracker s = set_lastSessionDay d (tracker s').

(** A tracker that is not running and still has a current session without
    end time. *)
Definition stopped_with_open_session (t : TimeTracker) : Prop :=
  isRunning t = false
  ∧ ∃ a session, currentSession t = Some a ∧ heap t !! a = Some session
                 ∧ endTime session = None.

(** The references of a tracker lead to sessions, and a session without end
    time is listed under the path of its own project: the current reference
    and every listed reference point into the store, and a listed session
    that has no end time carries the path it is listed under. *)
Definition filed (t : TimeTracker) : Prop :=
  (∀ a, currentSession t = Some a → is_Some (heap t !! a))
  ∧ ∀ path b, b ∈ listedAt path t →
              ∃ s, heap t !! b = Some s ∧ (endTime s = None → projectPath s = path).

(** Tracking data in which every listed session without end time is listed
    under the path of its own project. *)
Definition filed_data (data : Storage.TrackingData) : Prop :=
  map_Forall
    (λ path ps, Forall (λ s, endTime s = None → projectPath s = path) (Storage.sessions ps))
    (Storage.projects data).

(** ** Concrete inputs *)

Definition demoWorkspace : Storage.Workspace := Some ("/work/demo", "demo").

(** A handler environment at clock reading [n] with the demo project open. *)
Definition at_time (n : Z) : Env :=
  mkEnv n (Some ("demo", "/work/demo")) (λ _, "k3x9q2m1z").

(** A focused window; last activity and last heartbeat at [n]. *)
Definition monitorAt (n : Z) : ActivityMonitor := mkMonitor n true n.

Definition emptyDisk : Storage.Disk := Storage.mkDisk true Storage.Missing Storage.Missing.

(** Tracking data of another workspace, found in the backup file while the
    data file cannot be parsed. *)
Definition foreignData : Storage.TrackingData :=
  Storage.mkTrackingData ∅ None 500 0 "1.0.0" 500 (Some "/work/other") (Some "other").

Definition diskWithForeignBackup : Storage.Disk :=
  Storage.mkDisk true Storage.Corrupt (Storage.Holds foreignData).

Definition diskWithForeignData : Storage.Disk :=
  Storage.mkDisk true (Storage.Holds foreignData) Storage.Missing.

(** Twenty seconds of work, then stop. *)
Definition workThenStop : list (Signal * Env) :=
  [ (Heartbeat, at_time 10000); (Tick, at_time 20000); (Stop, at_time 21000) ].

(** A laptop closed at 23:00 with a session open and opened at 08:00: the
    overdue tick runs, then the overdue heartbeat check. *)
Definition overnightSleep : list (Signal * Env) :=
  [ (Tick, at_time 115200000); (Heartbeat, at_time 115200000) ].

(** Tracking paused on one day and resumed two days later. *)
Definition pausedOverTwoMidnights : list (Signal * Env) :=
  [ (Pause, at_time 2000); (Resume, at_time 172801000) ].

(** Twelve seconds of work, then a sleep that the heartbeat check detects. *)
Definition workThenSleep : list (Signal * Env) :=
  [ (Heartbeat, at_time 10000); (Tick, at_time 12000); (Heartbeat, at_time 60000) ].

(** * Properties *)

(** ** Store and record bookkeeping *)

Lemma heap_modifySession a f t :
  heap (modifySession a f t) = alter f a (heap t).
Proof. reflexivity. Qed.

Lemma lookup_modifySession a f t :
  heap (modifySession a f t) !! a = f <$> heap t !! a.
Proof. apply list_lookup_alter_eq. Qed.

Lemma lookup_modifySession_ne a b f t :
  a ≠ b → heap (modifySession a f t) !! b = heap t !! b.
Proof. intros. by apply list_lookup_alter_ne. Qed.

Lemma length_modifySession a f t :
  length (heap (modifySession a f t)) = length (heap t).
Proof. apply length_alter. Qed.

Lemma heap_recalculateAt path t : heap (recalculateAt path t) = heap t.
Proof. unfold recalculateAt. by destruct (projects t !! path). Qed.

Lemma currentSession_recalculateAt path t :
  currentSession (recalculateAt path t) = currentSession t.
Proof. unfold recalculateAt. by destruct (projects t !! path). Qed.

Lemma heap_addSessionToProject a t : heap (addSessionToProject a t) = heap t.
Proof. unfold addSessionToProject. by destruct (heap t !! a). Qed.

Lemma currentSession_addSessionToProject a t :
  currentSession (addSessionToProject a t) = currentSession t.
Proof. unfold addSessionToProject. by destruct (heap t !! a). Qed.

Lemma flags_recalculateAt path t :
  config (recalculateAt path t) = config t
  ∧ isRunning (recalculateAt path t) = isRunning t
  ∧ isPaused (recalculateAt path t) = isPaused t
  ∧ lastSessionDay (recalculateAt path t) = lastSessionDay t.
Proof. unfold recalculateAt. by destruct (projects t !! path). Qed.

Lemma lookup_recalculateAt path t :
  projects (recalculateAt path t) !! path
  = recalculateProjectStats (heap t) <$> projects t !! path.
Proof.
  unfold recalculateAt. destruct (projects t !! path) as [ps|] eqn:Hps; cbn.
  - by rewrite lookup_insert_eq.
  - done.
Qed.

Lemma lookup_recalculateAt_ne path path' t :
  path ≠ path' → projects (recalculateAt path t) !! path' = projects t !! path'.
Proof.
  intros Hne. unfold recalculateAt. destruct (projects t !! path) as [ps|]; cbn; [|done].
  by rewrite lookup_insert_ne.
Qed.

Lemma flags_addSessionToProject a t :
  config (addSessionToProject a t) = config t
  ∧ isRunning (addSessionToProject a t) = isRunning t
  ∧ isPaused (addSessionToProject a t) = isPaused t
  ∧ lastSessionDay (addSessionToProject a t) = lastSessionDay t.
Proof. unfold addSessionToProject. by destruct (heap t !! a). Qed.

Lemma flags_startNewSession newSession t :
  config (startNewSession newSession t) = config t
  ∧ isRunning (startNewSession newSession t) = isRunning t
  ∧ isPaused (startNewSession newSession t) = isPaused t
  ∧ lastSessionDay (startNewSession newSession t) = lastSessionDay t.
Proof. unfold startNewSession. by rewrite !(proj1 (flags_addSessionToProject _ _)),
  !(proj1 (proj2 (flags_addSessionToProject _ _))),
  !(proj1 (proj2 (proj2 (flags_addSessionToProject _ _)))),
  !(proj2 (proj2 (proj2 (flags_addSessionToProject _ _)))). Qed.

(** ** The idle/focus classifier *)


(** ** The day of the session is read by the midnight check alone *)

Lemma set_lastSessionDay_same t : set_lastSessionDay (lastSessionDay t) t = t.
Proof. by destruct t. Qed.

Lemma set_lastSessionDay_twice d d' t :
  set_lastSessionDay d (set_lastSessionDay d' t) = set_lastSessionDay d t.
Proof. reflexivity. Qed.

Lemma recalculateAt_day path d t :
  recalculateAt path (set_lastSessionDay d t) = set_lastSessionDay d (recalculateAt path t).
Proof. unfold recalculateAt. cbn. by destruct (projects t !! path). Qed.

Lemma addSessionToProject_day a d t :
  addSessionToProject a (set_lastSessionDay d t)
  = set_lastSessionDay d (addSessionToProject a t).
Proof. unfold addSessionToProject. cbn. by destruct (heap t !! a). Qed.

Lemma startNewSession_day newSession d t :
  startNewSession newSession (set_lastSessionDay d t)
  = set_lastSessionDay d (startNewSession newSession t).
Proof. unfold startNewSession. cbn. unfold addSessionToProject. cbn. by case_match. Qed.

Lemma trackSessionDay_day d t :
  ∃ d', trackSessionDay (set_lastSessionDay d t) = set_lastSessionDay d' (trackSessionDay t).
Proof.
  unfold trackSessionDay. cbn. destruct (currentSession t) as [a|]; [|by exists d].
  destruct (heap t !! a) as [s|]; [|by exists d]. by eexists.
Qed.

Lemma endCurrentSession_day endTimeArg m env d t :
  ∃ d', endCurrentSession endTimeArg m env (set_lastSessionDay d t)
        = set_lastSessionDay d' (endCurrentSession endTimeArg m env t).
Proof.
  unfold endCurrentSession. cbn. destruct (currentSession t) as [a|]; [|by exists d].
  destruct (heap t !! a) as [session|]; [|by exists d].
  exists None. cbv zeta.
  destruct (monitorIsActive _ _ _); [destruct (0 <? _)|];
    unfold modifySession, recalculateAt; cbn;
    destruct (projects t !! projectPath session); reflexivity.
Qed.

Lemma startOrResumeSession_day env d t :
  ∃ d', startOrResumeSession env (set_lastSessionDay d t)
        = set_lastSessionDay d' (startOrResumeSession env t).
Proof.
  unfold startOrResumeSession. destruct (currentProject env) as [[name path]|]; [|by exists d].
  assert (Hfind : findRecentSession path (set_lastSessionDay d t) = findRecentSession path t)
    by reflexivity.
  rewrite Hfind. cbn [heap set_lastSessionDay].
  destruct (findRecentSession path t) as [[a existingSession]|].
  - destruct (shouldResumeSession _ _).
    + change (resumeSession a env (set_lastSessionDay d t))
        with (set_lastSessionDay d (resumeSession a env t)).
      apply trackSessionDay_day.
    + rewrite startNewSession_day. apply trackSessionDay_day.
  - rewrite startNewSession_day. apply trackSessionDay_day.
Qed.

(** A callback never reads the day: with another day recorded it does the
    same, up to the day. *)
Lemma onActivity_day event m env d t :
  ∃ d', onActivity event m env (set_lastSessionDay d t)
        = set_lastSessionDay d' (onActivity event m env t).
Proof.
  unfold onActivity. cbn [isRunning set_lastSessionDay].
  destruct (negb (isRunning t)); [by exists d|].
  destruct (ev_type event) eqn:Hkind; cbn [currentSession isPaused config set_lastSessionDay].
  1-4: destruct (isPaused t); [by exists d|];
       destruct (currentSession t) as [a|] eqn:Hcur; cbv zeta;
       [unfold modifySession; cbn [currentSession config set_heap set_lastSessionDay];
        rewrite Hcur, !bool_decide_eq_false_2, !andb_false_r by done; by exists d|];
       cbn [currentSession config set_lastSessionDay];
       rewrite Hcur, !bool_decide_eq_true_2, !andb_true_r by done;
       (destruct (autoStart (config t)); [|by exists d]);
       apply startOrResumeSession_day.
  - destruct (currentSession t) as [a|]; [|by exists d].
    destruct (negb (isPaused t)); [|by exists d].
    destruct (autoEndSessionAfterIdle (config t)); [apply endCurrentSession_day|by exists d].
  - destruct (currentSession t) as [a|].
    + destruct (isPaused t); by exists d.
    + destruct (autoStart (config t)); [apply startOrResumeSession_day|by exists d].
Qed.

Lemma same_but_day_refl s : same_but_day s s.
Proof. split; [done|]. exists (lastSessionDay (tracker s)). by rewrite set_lastSessionDay_same. Qed.

Lemma same_but_day_deliver env s s' e :
  same_but_day s s' → same_but_day (deliver env s e) (deliver env s' e).
Proof.
  intros [Hm [d Ht]]. unfold deliver. rewrite Hm, Ht. split; [done|].
  apply onActivity_day.
Qed.

Lemma awaitsSave_day e d t : awaitsSave e (set_lastSessionDay d t) = awaitsSave e t.
Proof. reflexivity. Qed.

Lemma same_but_day_deliver_begin env s s' e :
  same_but_day s s' → same_but_day (deliver_begin env s e) (deliver env s' e).
Proof.
  intros Hsame. destruct (same_but_day_deliver env s s' e Hsame) as [Hm [d Ht]].
  unfold deliver_begin. destruct (awaitsSave e (tracker s)); [|by split; [|exists d]].
  split; [done|]. cbn [tracker]. rewrite Ht. by eexists.
Qed.

(** The callbacks recorded by one call leave what they would leave if each
    ran to its end before the next, up to the day. *)
Lemma same_but_day_dispatch env events s s' :
  same_but_day s s' → same_but_day (dispatch env s events) (foldl (deliver env) s' events).
Proof.
  revert s s'. induction events as [|e rest IH]; intros s s' Hsame; [done|].
  cbn [dispatch foldl].
  destruct (IH (deliver_begin env s e) (deliver env s' e)
              (same_but_day_deliver_begin env s s' e Hsame)) as [Hm [d Ht]].
  destruct (awaitsSave e (tracker s)); [|by split; [|exists d]].
  split; [done|]. cbn [tracker]. rewrite Ht. by eexists.
Qed.

Lemma dispatch_deliver env s events :
  monitor (dispatch env s events) = monitor (foldl (deliver env) s events)
  ∧ ∃ d, tracker (dispatch env s events)
         = set_lastSessionDay d (tracker (foldl (deliver env) s events)).
Proof. apply same_but_day_dispatch, same_but_day_refl. Qed.

(** When no callback awaits the write, each runs to its end in turn. *)
Lemma dispatch_no_write env s events :
  (∀ e t, e ∈ events → awaitsSave e t = false) →
  dispatch env s events = foldl (deliver env) s events.
Proof.
  revert s. induction events as [|e rest IH]; intros s Hno; [done|].
  cbn [dispatch foldl]. unfold deliver_begin.
  rewrite (Hno e (tracker s)) by (by left).
  apply IH. intros e' t' He'. apply Hno. by right.
Qed.

(** What every callback keeps, and the day does not bear on, the callbacks
    recorded by one call keep. *)
Lemma dispatch_preserves (P : TimeTracker → Prop) env events s :
  (∀ d t, P t → P (set_lastSessionDay d t)) →
  (∀ e s', P (tracker s') → P (tracker (deliver env s' e))) →
  P (tracker s) → P (tracker (dispatch env s events)).
Proof.
  intros Hday Hdeliver HP. destruct (dispatch_deliver env s events) as [_ [d ->]].
  apply Hday. clear d. revert s HP.
  induction events as [|e rest IH]; intros s HP; [done|].
  cbn [foldl]. by apply IH, Hdeliver.
Qed.

(** A sleep event and then a wake event: what the two callbacks leave one
    after the other, the day unset when the first awaited the write. *)
Lemma dispatch_sleep_wake env s n1 n2 :
  let sleepEvent := mkEvent sleep n1 in
  let wakeEvent := mkEvent wake n2 in
  let s2 := deliver env (deliver env s sleepEvent) wakeEvent in
  dispatch env s [sleepEvent; wakeEvent]
  = if awaitsSave sleepEvent (tracker s)
    then mkSystem (monitor s2) (set_lastSessionDay None (tracker s2))
    else s2.
Proof.
  intros sleepEvent wakeEvent s2. subst s2.
  assert (Hwake : ∀ t, awaitsSave wakeEvent t = false) by done.
  cbn [dispatch]. unfold deliver_begin. rewrite !Hwake.
  destruct (awaitsSave sleepEvent (tracker s)) eqn:Hwrite; [|done].
  cbn [monitor tracker deliver]. f_equal.
  destruct (onActivity_day wakeEvent
              (recordActivity wakeEvent (recordActivity sleepEvent (monitor s))) env
              (lastSessionDay (tracker s))
              (onActivity sleepEvent (recordActivity sleepEvent (monitor s)) env (tracker s)))
    as [d ->].
  reflexivity.
Qed.

(** The events of a change of window focus: none of their callbacks awaits
    a write. *)
Lemma dispatch_window env s m focused n :
  dispatch env s (onWindowStateChange_events m focused n)
  = foldl (deliver env) s (onWindowStateChange_events m focused n).
Proof.
  apply dispatch_no_write. intros e t He. unfold onWindowStateChange_events in He.
  destruct (Bool.eqb _ _); [by apply elem_of_nil in He|].
  apply elem_of_app in He as [He|He].
  - destruct (focused && _); [|by apply elem_of_nil in He].
    destruct (_ || _); [|by apply elem_of_nil in He].
    apply list_elem_of_singleton in He as ->. done.
  - apply list_elem_of_singleton in He as ->. by destruct focused.
Qed.

(** The same for events of one kind. *)
Lemma dispatch_preserves_on (P : TimeTracker → Prop) (Q : ActivityEvent → Prop)
    env events s :
  Forall Q events →
  (∀ d t, P t → P (set_lastSessionDay d t)) →
  (∀ e s', Q e → P (tracker s') → P (tracker (deliver env s' e))) →
  P (tracker s) → P (tracker (dispatch env s events)).
Proof.
  intros HQ Hday Hdeliver HP. destruct (dispatch_deliver env s events) as [_ [d ->]].
  apply Hday. clear d. revert s HP.
  induction HQ as [|e rest He HQ IH]; intros s HP; [done|].
  cbn [foldl]. by apply IH, Hdeliver.
Qed.

(** ** Sleep and wake *)

Lemma heap_endCurrentSession_at endTimeArg m env t a session :
  currentSession t = Some a →
  heap t !! a = Some session →
  ∃ credit,
    0 ≤ credit
    ∧ (credit = 0 ∨ (monitorIsActive (config t) m (now env) = true
                     ∧ credit = safeTimeDifference
                                  (default (default (now env) (endTime session)) endTimeArg)
                                  (lastActiveTime session) (idleThreshold (config t))))
    ∧ heap (endCurrentSession endTimeArg m env t)
      = <[a := set_totalTime (totalTime session + credit)
                 (set_isActive false
                    (set_endTime
                       (Some (default (default (now env) (endTime session)) endTimeArg))
                       session))]> (heap t).
Proof.
  intros Hcur Hs. unfold endCurrentSession. rewrite Hcur, Hs. cbn.
  rewrite heap_recalculateAt.
  assert (Hlen : (a < length (heap t))%nat) by (by eapply lookup_lt_Some).
  assert (Hplain :
    alter (λ s, set_isActive false
                  (set_endTime (Some (default (default (now env) (endTime session)) endTimeArg)) s))
          a (heap t)
    = <[a := set_isActive false
               (set_endTime (Some (default (default (now env) (endTime session)) endTimeArg))
                  session)]> (heap t)).
  { apply list_eq; intros i. destruct (decide (a = i)) as [<-|Hne].
    - rewrite list_lookup_alter_eq, Hs, list_lookup_insert_eq by done. done.
    - by rewrite list_lookup_alter_ne, list_lookup_insert_ne by done. }
  destruct (monitorIsActive (config t) m (now env)) eqn:Hact.
  - set (d := safeTimeDifference (default (default (now env) (endTime session)) endTimeArg)
                (lastActiveTime session) (idleThreshold (config t))).
    destruct (Z.ltb_spec 0 d) as [Hpos|Hneg].
    + exists d. split; [lia|]. split; [by right|].
      cbn. rewrite Hplain.
      apply list_eq; intros i. destruct (decide (a = i)) as [<-|Hne].
      * rewrite list_lookup_alter_eq, !list_lookup_insert_eq
          by (rewrite ?length_insert; done). done.
      * by rewrite list_lookup_alter_ne, !list_lookup_insert_ne by done.
    + exists 0; split; [lia|split; [by left|]].
      cbn. rewrite Hplain. rewrite Z.add_0_r. by destruct session.
  - exists 0; split; [lia|split; [by left|]].
    cbn. rewrite Hplain. rewrite Z.add_0_r. by destruct session.
Qed.

Lemma currentSession_endCurrentSession endTimeArg m env t a :
  currentSession t = Some a → is_Some (heap t !! a) →
  currentSession (endCurrentSession endTimeArg m env t) = None
  ∧ lastSessionDay (endCurrentSession endTimeArg m env t) = None.
Proof.
  intros Hcur [s Hs]. unfold endCurrentSession. by rewrite Hcur, Hs.
Qed.


(** ** The project aggregate *)

Lemma foldl_totalTime (l : list (nat * TimeSession)) (acc : Z) :
  foldl (λ total p, total + totalTime p.2) acc l = acc + sumZ (totalTime <$> (snd <$> l)).
Proof.
  unfold sumZ. revert acc. induction l as [|p l IH]; intros acc; simpl.
  - lia.
  - rewrite IH, <- Z.add_assoc. reflexivity.
Qed.

Lemma size_list_to_set_remove_dups (l : list Z) :
  size (list_to_set l : gset Z) = length (remove_dups l).
Proof.
  rewrite <- (size_list_to_set (C := gset Z) (remove_dups l)) by apply NoDup_remove_dups.
  f_equal. apply set_eq. intros x.
  by rewrite !elem_of_list_to_set, elem_of_remove_dups.
Qed.

Lemma head_insertDesc {A} (key : A → Z) (x : A) (l : list A) :
  head (insertDesc key x l)
  = Some match head l with
         | Some y => if key y <=? key x then x else y
         | None => x
         end.
Proof. destruct l as [|y l]; cbn; [done|]. by destruct (key y <=? key x). Qed.

Lemma head_sortDesc_nil {A} (key : A → Z) (l : list A) :
  head (sortDesc key l) = None ↔ l = [].
Proof.
  destruct l as [|x l]; [done|].
  change (sortDesc key (x :: l)) with (insertDesc key x (sortDesc key l)).
  rewrite head_insertDesc. split; discriminate.
Qed.

Lemma head_sortDesc_max {A} (key : A → Z) (l : list A) (p : A) :
  head (sortDesc key l) = Some p →
  p ∈ l ∧ ∀ q, q ∈ l → key q ≤ key p.
Proof.
  revert p. induction l as [|x l IH]; intros p; [discriminate|].
  change (sortDesc key (x :: l)) with (insertDesc key x (sortDesc key l)).
  rewrite head_insertDesc.
  destruct (head (sortDesc key l)) as [y|] eqn:Hy.
  - destruct (IH y eq_refl) as [Hin Hmax].
    destruct (Z.leb_spec (key y) (key x)); intros [= <-].
    + split; [apply elem_of_cons; by left|].
      intros q [->|Hq]%elem_of_cons; [lia|].
      specialize (Hmax q Hq). lia.
    + split; [apply elem_of_cons; by right|].
      intros q [->|Hq]%elem_of_cons; [lia|].
      by apply Hmax.
  - apply head_sortDesc_nil in Hy as ->. intros [= <-].
    split; [apply elem_of_cons; by left|].
    intros q [->|Hq]%elem_of_cons; [lia|]. by apply elem_of_nil in Hq.
Qed.

Lemma recalculateProjectStats_sessions h ps :
  sessions (recalculateProjectStats h ps) = sessions ps.
Proof. reflexivity. Qed.

(** The sessions the code filters out are the completed ones. *)
Lemma completedOf_completedSessions h ps :
  completedOf h ps = snd <$> completedSessions h (sessions ps).
Proof using Type.
  clear tz safeTimeDifference.
  unfold completedOf, listedSessions, completedSessions, resolve.
  induction (sessions ps) as [|a l IH]; [done|].
  cbn [omap list_omap]. destruct (h !! a) as [s|]; cbn [fmap option_fmap option_map]; [|done].
  rewrite !filter_cons. cbn [snd].
  destruct (decide (hasEnded s = true)) as [Hs|Hs]; unfold hasEnded in Hs.
  - rewrite decide_True by (destruct (endTime s); [by eexists|done]).
    by rewrite fmap_cons, IH.
  - rewrite decide_False by (intros [e He]; by rewrite He in Hs). done.
Qed.

Lemma recalculateProjectStats_recomputed h ps :
  aggregate_recomputed h (recalculateProjectStats h ps).
Proof.
  unfold aggregate_recomputed. rewrite completedOf_completedSessions.
  unfold recalculateProjectStats.
  cbn [sessions stats_totalTime averageSessionDuration activeDays stats_lastActivity].
  set (done := completedSessions h (sessions ps)).
  split; [by rewrite foldl_totalTime|].
  split.
  { destruct done as [|p done']; cbn [fmap list_fmap length]; [done|].
    rewrite length_fmap.
    destruct (decide _) as [_|Hn]; [done|]. cbn in Hn. lia. }
  split.
  { rewrite size_list_to_set_remove_dups. unfold distinct.
    by rewrite <- list_fmap_compose. }
  intros Hne.
  destruct (head (sortDesc (λ p, lastActivity p.2) done)) as [p|] eqn:Hhead.
  - apply head_sortDesc_max in Hhead as [Hin Hmax]. split.
    + exists p.2. split; [|done]. apply list_elem_of_fmap. by exists p.
    + intros s (q & -> & Hq)%list_elem_of_fmap. by apply (Hmax q).
  - apply head_sortDesc_nil in Hhead. by rewrite Hhead in Hne.
Qed.



Lemma startNewSession_lookup newSession t :
  heap (startNewSession newSession t) = heap t ++ [newSession]
  ∧ currentSession (startNewSession newSession t) = Some (length (heap t))
  ∧ ∃ ps, projects (startNewSession newSession t) !! projectPath newSession = Some ps
          ∧ aggregate_recomputed (heap t ++ [newSession]) ps
          ∧ sessions ps
            = match projects t !! projectPath newSession with
              | Some ps0 => sessions ps0 ++ [length (heap t)]
              | None => [length (heap t)]
              end.
Proof.
  unfold startNewSession, addSessionToProject. cbn [heap set_currentSession set_heap].
  rewrite lookup_app_r, Nat.sub_diag by done. cbn [lookup list_lookup projects currentSession
    set_projects set_currentSession set_heap heap].
  split; [done|]. split; [done|].
  eexists. split; [apply lookup_insert_eq|].
  split; [apply recalculateProjectStats_recomputed|].
  rewrite recalculateProjectStats_sessions. cbn [sessions].
  by destruct (projects t !! projectPath newSession).
Qed.


(** ** Start or resume *)

Lemma elem_of_resolve h l a s :
  (a, s) ∈ resolve h l ↔ a ∈ l ∧ h !! a = Some s.
Proof.
  unfold resolve. rewrite list_elem_of_omap. split.
  - intros (b & Hb & Heq). destruct (h !! b) as [s'|] eqn:Hs; cbn in Heq; [|done].
    injection Heq as <- <-. done.
  - intros [Ha Hs]. exists a. split; [done|]. by rewrite Hs.
Qed.

Lemma elem_of_openSessions h l a s :
  (a, s) ∈ openSessions h l ↔ a ∈ l ∧ h !! a = Some s ∧ endTime s = None.
Proof using Type.
  clear tz safeTimeDifference.
  unfold openSessions. rewrite list_elem_of_filter, elem_of_resolve. cbn. tauto.
Qed.

Lemma elem_of_completedSessions h l a s :
  (a, s) ∈ completedSessions h l ↔ a ∈ l ∧ h !! a = Some s ∧ is_Some (endTime s).
Proof using Type.
  clear tz safeTimeDifference.
  unfold completedSessions. rewrite list_elem_of_filter, elem_of_resolve. cbn. tauto.
Qed.

Lemma heap_trackSessionDay t : heap (trackSessionDay t) = heap t.
Proof.
  unfold trackSessionDay. destruct (currentSession t); [|done]. by destruct (heap t !! _).
Qed.

Lemma currentSession_trackSessionDay t : currentSession (trackSessionDay t) = currentSession t.
Proof.
  unfold trackSessionDay. destruct (currentSession t) eqn:E; [|done].
  by destruct (heap t !! _).
Qed.

Lemma projects_trackSessionDay t : projects (trackSessionDay t) = projects t.
Proof.
  unfold trackSessionDay. destruct (currentSession t); [|done]. by destruct (heap t !! _).
Qed.

(** The sessions listed for the project at [path]. *)
Lemma findRecentSession_Some path t a s :
  findRecentSession path t = Some (a, s) →
  ∃ ps, projects t !! path = Some ps
        ∧ a ∈ sessions ps ∧ heap t !! a = Some s ∧ endTime s = None
        ∧ ∀ b s', b ∈ sessions ps → heap t !! b = Some s' → endTime s' = None →
                  lastActivity s' ≤ lastActivity s.
Proof using Type.
  clear safeTimeDifference.
  unfold findRecentSession. destruct (projects t !! path) as [ps|]; [|done].
  intros [Hin Hmax]%head_sortDesc_max. exists ps. split; [done|].
  apply elem_of_openSessions in Hin as (Ha & Hs & Hopen). repeat split; try done.
  intros b s' Hb Hs' Hopen'. apply (Hmax (b, s')). by apply elem_of_openSessions.
Qed.

Lemma findRecentSession_None path t :
  findRecentSession path t = None →
  ∀ ps b s, projects t !! path = Some ps → b ∈ sessions ps → heap t !! b = Some s →
            is_Some (endTime s).
Proof using Type.
  clear safeTimeDifference.
  unfold findRecentSession. intros Hnone ps b s Hps Hb Hs. rewrite Hps in Hnone.
  apply head_sortDesc_nil in Hnone.
  destruct (endTime s) as [e|] eqn:He; [by eexists|].
  assert (Hin : (b, s) ∈ openSessions (heap t) (sessions ps)) by by apply elem_of_openSessions.
  rewrite Hnone in Hin. by apply elem_of_nil in Hin.
Qed.

Lemma alter_as_insert {A} (f : A → A) (l : list A) (a : nat) (x : A) :
  l !! a = Some x → alter f a l = <[a := f x]> l.
Proof.
  intros Hx. apply list_eq; intros i. destruct (decide (a = i)) as [<-|Hne].
  - rewrite list_lookup_alter_eq, Hx, list_lookup_insert_eq; [done|by eapply lookup_lt_Some].
  - by rewrite list_lookup_alter_ne, list_lookup_insert_ne.
Qed.

Lemma startOrResumeSession_new env t name path :
  currentProject env = Some (name, path) →
  (∀ a s, findRecentSession path t = Some (a, s) → shouldResumeSession (now env) s = false) →
  startOrResumeSession env t
  = trackSessionDay (startNewSession (newSessionFor name path env (length (heap t))) t).
Proof.
  intros Hproj Hno. unfold startOrResumeSession. rewrite Hproj.
  destruct (findRecentSession path t) as [[a s]|] eqn:Hfind; [|done].
  by rewrite (Hno a s eq_refl).
Qed.

(** C5, as amended: for a resolvable project, an open session of that
    project whose last activity is less than 30 minutes old is taken up again
    as it is (same id, same counters) with [isActive] set and
    [lastActiveTime] reset to now; failing that, a new session with start
    now and zero counters is created and appended to the project's list.
    Its id is the clock reading joined with the random digits drawn for it:
    it differs from the id of every session made at another millisecond or
    with other digits, and nothing compares it with the ids there are. *)
Theorem C5_resume_within_window_else_new (env : Env) (t : TimeTracker) (name path : string) :
  currentProject env = Some (name, path) →
  let t' := startOrResumeSession env t in
  ((∃ b s, resumable (now env) path t b s) →
   ∃ a s, resumable (now env) path t a s
          ∧ currentSession t' = Some a
          ∧ heap t'
            = <[a := set_lastActiveTime (now env)
                       (set_lastActivity (now env) (set_isActive true s))]> (heap t)
          ∧ projects t' = projects t)
  ∧ ((¬ ∃ b s, resumable (now env) path t b s) →
     let created := newSessionFor name path env (length (heap t)) in
     heap t' = heap t ++ [created]
     ∧ heap t !! length (heap t) = None
     ∧ currentSession t' = Some (length (heap t))
     ∧ session_id created = (now env, rnd env (length (heap t)))
     ∧ (∀ b s, heap t !! b = Some s →
               (session_id s).1 ≠ now env ∨ (session_id s).2 ≠ rnd env (length (heap t)) →
               session_id s ≠ session_id created)
     ∧ projectName created = name ∧ projectPath created = path
     ∧ startTime created = now env ∧ endTime created = None
     ∧ totalTime created = 0 ∧ textChanges created = 0 ∧ cursorMovements created = 0
     ∧ ∃ ps, projects t' !! path = Some ps
             ∧ sessions ps = listedAt path t ++ [length (heap t)]).
Proof using Type.
  clear safeTimeDifference.
  intros Hproj t'. split.
  - intros (b & sb & ps & Hps & Hb & Hsb & Hopen & Hrecent).
    destruct (findRecentSession path t) as [[a s]|] eqn:Hfind.
    + destruct (findRecentSession_Some _ _ _ _ Hfind)
        as (ps' & Hps' & Ha & Hs & Hopen' & Hmax).
      assert (ps' = ps) as -> by congruence.
      specialize (Hmax b sb Hb Hsb Hopen).
      assert (Hres : shouldResumeSession (now env) s = true).
      { unfold shouldResumeSession. apply Z.ltb_lt. lia. }
      exists a, s. split.
      { exists ps. repeat split; try done. lia. }
      subst t'. unfold startOrResumeSession. rewrite Hproj, Hfind, Hres.
      rewrite currentSession_trackSessionDay, heap_trackSessionDay, projects_trackSessionDay.
      unfold resumeSession. cbn [currentSession heap projects set_currentSession].
      rewrite heap_modifySession. split; [done|]. split; [|done].
      by rewrite (alter_as_insert _ _ _ s Hs).
    + exfalso. destruct (findRecentSession_None _ _ Hfind ps b sb Hps Hb Hsb) as [e He].
      congruence.
  - intros Hnone created.
    assert (Hnew : startOrResumeSession env t
                   = trackSessionDay (startNewSession (newSessionFor name path env (length (heap t))) t)).
    { apply startOrResumeSession_new; [done|]. intros a s Hfind.
      destruct (shouldResumeSession (now env) s) eqn:Hres; [|done]. exfalso. apply Hnone.
      destruct (findRecentSession_Some _ _ _ _ Hfind) as (ps & Hps & Ha & Hs & Hopen & _).
      exists a, s, ps. repeat split; try done.
      unfold shouldResumeSession in Hres. apply Z.ltb_lt in Hres. lia. }
    subst t'. rewrite Hnew.
    rewrite currentSession_trackSessionDay, heap_trackSessionDay, projects_trackSessionDay.
    destruct (startNewSession_lookup created t) as (Hheap & Hcur & ps & Hps & _ & Hlist).
    split; [done|]. split; [by apply lookup_ge_None|]. split; [done|]. split; [done|].
    split.
    { intros b s _ Hne Heq. rewrite Heq in Hne. by destruct Hne. }
    repeat (split; [done|]).
    exists ps. split; [done|]. unfold listedAt. cbn [projectPath created newSessionFor] in Hlist.
    by destruct (projects t !! path).
Qed.

(** ** Split at midnight *)

Lemma setHours0_day tzv (date : Z) :
  setHours0 tzv date = MS_PER_DAY * toLocaleDateString tzv date - tzv.
Proof.
  unfold setHours0, toLocaleDateString, MS_PER_DAY.
  pose proof (Z.div_mod (date + tzv) 86400000 ltac:(lia)). lia.
Qed.

Lemma setHours0_le tzv (date : Z) : setHours0 tzv date ≤ date < setHours0 tzv date + MS_PER_DAY.
Proof.
  unfold setHours0, MS_PER_DAY.
  pose proof (Z.mod_pos_bound (date + tzv) 86400000 ltac:(lia)). lia.
Qed.

Lemma toLocaleDateString_mono tzv (d1 d2 : Z) :
  d1 ≤ d2 → toLocaleDateString tzv d1 ≤ toLocaleDateString tzv d2.
Proof.
  intros. unfold toLocaleDateString, MS_PER_DAY. apply Z.div_le_mono; lia.
Qed.

Lemma end_of_previous_day tzv (date : Z) :
  setHours0 tzv date - 1 = endOfLocalDay tzv (date - MS_PER_DAY).
Proof.
  unfold endOfLocalDay. rewrite !setHours0_day.
  unfold toLocaleDateString, MS_PER_DAY.
  replace (date - 86400000 + tzv) with (date + tzv + (-1) * 86400000) by lia.
  rewrite Z.div_add by lia. lia.
Qed.

Lemma end_of_start_day tzv (start date : Z) :
  toLocaleDateString tzv date = toLocaleDateString tzv start + 1 →
  setHours0 tzv date - 1 = endOfLocalDay tzv start.
Proof.
  intros Hday. unfold endOfLocalDay. rewrite !setHours0_day, Hday. unfold MS_PER_DAY. lia.
Qed.

Lemma splitSessionAtMidnight_result m env t a session :
  currentSession t = Some a →
  heap t !! a = Some session →
  let boundary := setHours0 tz (now env) - 1 in
  let credit :=
    if monitorIsActive (config t) m (now env) && (lastActiveTime session <? boundary)
    then boundary - lastActiveTime session else 0 in
  let t' := splitSessionAtMidnight m env t in
  heap t'
  = <[a := set_totalTime (totalTime session + credit)
             (set_isActive false (set_endTime (Some boundary) session))]> (heap t)
    ++ [newSessionFor (projectName session) (projectPath session) env (length (heap t))]
  ∧ currentSession t' = Some (length (heap t))
  ∧ lastSessionDay t' = lastSessionDay t
  ∧ ∃ ps, projects t' !! projectPath session = Some ps
          ∧ sessions ps = listedAt (projectPath session) t ++ [length (heap t)].
Proof.
  intros Hcur Hs boundary credit t'. subst t'. unfold splitSessionAtMidnight.
  rewrite Hcur, Hs. fold boundary.
  set (t2 := if monitorIsActive (config t) m (now env) && (lastActiveTime session <? boundary)
             then _ else _).
  assert (Hh2 : heap t2
    = <[a := set_totalTime (totalTime session + credit)
               (set_isActive false (set_endTime (Some boundary) session))]> (heap t)).
  { subst t2 credit.
    destruct (monitorIsActive (config t) m (now env) && (lastActiveTime session <? boundary)).
    - rewrite !heap_modifySession.
      rewrite (alter_as_insert _ _ _ _ Hs).
      erewrite alter_as_insert
        by (apply list_lookup_insert_eq; by eapply lookup_lt_Some).
      by rewrite list_insert_insert_eq.
    - rewrite heap_modifySession, (alter_as_insert _ _ _ _ Hs), Z.add_0_r.
      by destruct session. }
  assert (Hp2 : projects t2 = projects t) by (subst t2; by destruct (_ && _)).
  assert (Hd2 : lastSessionDay t2 = lastSessionDay t) by (subst t2; by destruct (_ && _)).
  set (t3 := recalculateAt (projectPath session) t2).
  destruct (startNewSession_lookup
              (newSessionFor (projectName session) (projectPath session) env (length (heap t))) t3)
    as (Hheap & Hcur' & ps & Hps & _ & Hlist).
  assert (Hh3 : heap t3 = heap t2) by apply heap_recalculateAt.
  split; [by rewrite Hheap, Hh3, Hh2|].
  split; [by rewrite Hcur', Hh3, Hh2, length_insert|].
  split.
  { rewrite (proj2 (proj2 (proj2 (flags_startNewSession _ _)))). subst t3.
    by rewrite (proj2 (proj2 (proj2 (flags_recalculateAt _ _)))). }
  exists ps. split; [done|]. rewrite Hlist. cbn [projectPath newSessionFor].
  subst t3. rewrite lookup_recalculateAt, heap_recalculateAt, Hp2, Hh2, length_insert.
  unfold listedAt. by destruct (projects t !! projectPath session).
Qed.

(** X27: what the midnight check does.  When a session is current and the
    day recorded for it differs from the current day, the check closes the
    session at 23:59:59.999 of the day before [now] (one millisecond before
    the local midnight that begins the current day) with [isActive] false;
    that is the end of the session's start day when [now] falls on the day
    after it.  If the monitor is active and [lastActiveTime] lies before that
    boundary, the time up to the boundary is credited.  A new current session
    for the same project name and path is installed with start time [now], no
    end time and zero total time, text changes and cursor movements, and the
    current day is recorded. *)
Theorem X27_midnight_check_closes_at_previous_midnight (m : ActivityMonitor) (env : Env)
    (t : TimeTracker) (a : nat) (session : TimeSession) (day : Z) :
  currentSession t = Some a →
  heap t !! a = Some session →
  lastSessionDay t = Some day →
  day ≠ toLocaleDateString tz (now env) →
  let boundary := setHours0 tz (now env) - 1 in
  let credit :=
    if monitorIsActive (config t) m (now env) && (lastActiveTime session <? boundary)
    then boundary - lastActiveTime session else 0 in
  let t' := checkAndHandleMidnightCrossing m env t in
  let created := newSessionFor (projectName session) (projectPath session) env (length (heap t)) in
  boundary = endOfLocalDay tz (now env - MS_PER_DAY)
  ∧ (toLocaleDateString tz (now env) = toLocaleDateString tz (startTime session) + 1 →
     boundary = endOfLocalDay tz (startTime session))
  ∧ heap t'
    = <[a := set_totalTime (totalTime session + credit)
               (set_isActive false (set_endTime (Some boundary) session))]> (heap t)
      ++ [created]
  ∧ currentSession t' = Some (length (heap t))
  ∧ lastSessionDay t' = Some (toLocaleDateString tz (now env))
  ∧ projectName created = projectName session
  ∧ projectPath created = projectPath session
  ∧ startTime created = now env
  ∧ endTime created = None
  ∧ totalTime created = 0
  ∧ textChanges created = 0
  ∧ cursorMovements created = 0
  ∧ ∃ ps, projects t' !! projectPath session = Some ps
          ∧ sessions ps = listedAt (projectPath session) t ++ [length (heap t)].
Proof.
  intros Hcur Hs Hday Hne boundary credit t' created.
  split; [apply end_of_previous_day|].
  split; [apply end_of_start_day|].
  destruct (splitSessionAtMidnight_result m env t a session Hcur Hs)
    as (Hheap & Hcur' & _ & Hps).
  subst t'. unfold checkAndHandleMidnightCrossing. rewrite Hcur, Hday.
  destruct (decide (day ≠ toLocaleDateString tz (now env))) as [_|Heq]; [|done].
  cbn [heap currentSession lastSessionDay projects set_lastSessionDay].
  repeat (split; [done|]). done.
Qed.

(** ** Total time only grows *)

Lemma totals_grow_refl h : totals_grow h h.
Proof.
  split.
  - intros a s Hs. by exists s.
  - intros a s' Hnone Hsome. congruence.
Qed.

Lemma totals_grow_trans h1 h2 h3 :
  totals_grow h1 h2 → totals_grow h2 h3 → totals_grow h1 h3.
Proof.
  intros [Hold12 Hnew12] [Hold23 Hnew23]. split.
  - intros a s Hs. destruct (Hold12 a s Hs) as (s' & Hs' & Hle).
    destruct (Hold23 a s' Hs') as (s'' & Hs'' & Hle'). exists s''. split; [done|lia].
  - intros a s3 Hnone Hsome. destruct (h2 !! a) as [s2|] eqn:H2.
    + destruct (Hold23 a s2 H2) as (s3' & Hs3' & Hle).
      assert (s3' = s3) as -> by congruence.
      specialize (Hnew12 a s2 Hnone H2). lia.
    + by eapply Hnew23.
Qed.

Lemma totals_grow_alter (f : TimeSession → TimeSession) a h :
  (∀ s, h !! a = Some s → totalTime s ≤ totalTime (f s)) →
  totals_grow h (alter f a h).
Proof.
  intros Hf. split.
  - intros b s Hs. destruct (decide (a = b)) as [<-|Hne].
    + exists (f s). rewrite list_lookup_alter_eq, Hs. split; [done|by apply Hf].
    + exists s. by rewrite list_lookup_alter_ne.
  - intros b s' Hnone Hsome. destruct (decide (a = b)) as [<-|Hne].
    + by rewrite list_lookup_alter_eq, Hnone in Hsome.
    + rewrite list_lookup_alter_ne in Hsome by done. congruence.
Qed.

Lemma totals_grow_snoc h s : 0 ≤ totalTime s → totals_grow h (h ++ [s]).
Proof.
  intros Hs. split.
  - intros a s0 Ha. exists s0. split; [|lia]. by apply lookup_app_l_Some.
  - intros a s' Hnone Hsome. apply lookup_ge_None in Hnone.
    rewrite lookup_app_r in Hsome by done.
    destruct (a - length h)%nat; cbn in Hsome; [|done]. congruence.
Qed.

Lemma totals_grow_startNewSession name path env t :
  totals_grow (heap t) (heap (startNewSession (newSessionFor name path env (length (heap t))) t)).
Proof.
  destruct (startNewSession_lookup (newSessionFor name path env (length (heap t))) t) as (-> & _).
  by apply totals_grow_snoc.
Qed.

Lemma totals_grow_startOrResumeSession env t :
  totals_grow (heap t) (heap (startOrResumeSession env t)).
Proof.
  unfold startOrResumeSession. destruct (currentProject env) as [[name path]|];
    [|apply totals_grow_refl].
  rewrite heap_trackSessionDay.
  destruct (findRecentSession path t) as [[a s]|];
    [destruct (shouldResumeSession (now env) s)|];
    try apply totals_grow_startNewSession.
  unfold resumeSession. cbn [heap set_currentSession]. rewrite heap_modifySession.
  apply totals_grow_alter. intros s' _. cbn. lia.
Qed.

Lemma totals_grow_endCurrentSession endTimeArg m env t :
  totals_grow (heap t) (heap (endCurrentSession endTimeArg m env t)).
Proof.
  destruct (currentSession t) as [a|] eqn:Hcur;
    [destruct (heap t !! a) as [session|] eqn:Hs|].
  - destruct (heap_endCurrentSession_at endTimeArg m env t a session Hcur Hs)
      as (credit & Hpos & _ & ->).
    rewrite <- (alter_as_insert (λ _, _) _ _ _ Hs).
    apply totals_grow_alter. intros s Hs'. cbn.
    assert (s = session) as -> by congruence. lia.
  - unfold endCurrentSession. rewrite Hcur, Hs. apply totals_grow_refl.
  - unfold endCurrentSession. rewrite Hcur. apply totals_grow_refl.
Qed.

Lemma totals_grow_splitSessionAtMidnight m env t :
  totals_grow (heap t) (heap (splitSessionAtMidnight m env t)).
Proof.
  destruct (currentSession t) as [a|] eqn:Hcur;
    [destruct (heap t !! a) as [session|] eqn:Hs|].
  - destruct (splitSessionAtMidnight_result m env t a session Hcur Hs) as (-> & _).
    eapply totals_grow_trans; [|by apply totals_grow_snoc].
    rewrite <- (alter_as_insert (λ _, _) _ _ _ Hs).
    apply totals_grow_alter. intros s Hs'. cbn.
    assert (s = session) as -> by congruence.
    destruct (monitorIsActive _ _ _); cbn; [|lia].
    destruct (Z.ltb_spec (lastActiveTime session) (setHours0 tz (now env) - 1)); lia.
  - unfold splitSessionAtMidnight. rewrite Hcur, Hs. apply totals_grow_refl.
  - unfold splitSessionAtMidnight. rewrite Hcur. apply totals_grow_refl.
Qed.

Lemma totals_grow_checkAndHandleMidnightCrossing m env t :
  totals_grow (heap t) (heap (checkAndHandleMidnightCrossing m env t)).
Proof.
  unfold checkAndHandleMidnightCrossing.
  destruct (currentSession t); [|apply totals_grow_refl].
  destruct (lastSessionDay t); [|apply totals_grow_refl].
  destruct (decide _); [|apply totals_grow_refl].
  apply totals_grow_splitSessionAtMidnight.
Qed.

Lemma totals_grow_checkAndHandleIdleSessionEnd m env t :
  totals_grow (heap t) (heap (checkAndHandleIdleSessionEnd m env t)).
Proof.
  unfold checkAndHandleIdleSessionEnd.
  destruct (currentSession t) as [a|]; [|apply totals_grow_refl].
  destruct (heap t !! a); [|apply totals_grow_refl].
  destruct (_ <? _); [|apply totals_grow_refl].
  apply totals_grow_endCurrentSession.
Qed.

Lemma totals_grow_checkAndHandleProjectChange m env t :
  totals_grow (heap t) (heap (checkAndHandleProjectChange m env t)).
Proof.
  unfold checkAndHandleProjectChange.
  destruct (currentSession t) as [a|]; [|apply totals_grow_refl].
  destruct (heap t !! a); [|apply totals_grow_refl].
  destruct (currentProject env) as [[name path]|];
    [|apply totals_grow_endCurrentSession].
  destruct (decide _); [|apply totals_grow_refl].
  eapply totals_grow_trans;
    [apply totals_grow_endCurrentSession|apply totals_grow_startOrResumeSession].
Qed.

Lemma totals_grow_updateCurrentSessionTime m env t :
  totals_grow (heap t) (heap (updateCurrentSessionTime m env t)).
Proof.
  unfold updateCurrentSessionTime.
  destruct (currentSession t) as [a|]; [|apply totals_grow_refl].
  destruct (heap t !! a) as [session|]; [|apply totals_grow_refl].
  destruct (monitorIsActive _ _ _); [|apply totals_grow_refl].
  cbn [heap set_data_lastActivity]. rewrite heap_modifySession.
  eapply totals_grow_trans; [|apply totals_grow_alter; intros s _; cbn; lia].
  destruct (Z.ltb_spec 0 (safeTimeDifference (now env) (lastActiveTime session) 1));
    [|apply totals_grow_refl].
  rewrite heap_modifySession. apply totals_grow_alter. intros s _. cbn. lia.
Qed.

Lemma totals_grow_if (b : bool) h (t t' : TimeTracker) :
  totals_grow h (heap t) →
  totals_grow (heap t) (heap t') →
  totals_grow h (heap (if b then t' else t)).
Proof. destruct b; eauto using totals_grow_trans. Qed.

Lemma totals_grow_unless (b : bool) h (t t' : TimeTracker) :
  totals_grow h (heap t) →
  totals_grow (heap t) (heap t') →
  totals_grow h (heap (if b then t else t')).
Proof. destruct b; eauto using totals_grow_trans. Qed.

Lemma totals_grow_tick m env t : totals_grow (heap t) (heap (tick m env t)).
Proof.
  unfold tick. cbv zeta.
  apply totals_grow_if;
    [|apply totals_grow_if; [apply totals_grow_refl|apply totals_grow_startOrResumeSession]].
  apply totals_grow_if; [|apply totals_grow_updateCurrentSessionTime].
  apply totals_grow_if; [|apply totals_grow_checkAndHandleIdleSessionEnd].
  apply totals_grow_if; [|apply totals_grow_checkAndHandleProjectChange].
  apply totals_grow_if;
    [apply totals_grow_refl|apply totals_grow_checkAndHandleMidnightCrossing].
Qed.

Lemma totals_grow_record_activity (f : TimeSession → TimeSession) env t :
  (∀ s, totalTime (f s) = totalTime s) →
  totals_grow (heap t)
    (heap (if isPaused t then t
           else
             let t1 :=
               match currentSession t with
               | Some a => modifySession a f t
               | None => t
               end in
             if autoStart (config t1) && bool_decide (currentSession t1 = None)
             then startOrResumeSession env t1 else t1)).
Proof.
  intros Hf. apply totals_grow_unless; [apply totals_grow_refl|]. cbv zeta.
  apply totals_grow_if; [|apply totals_grow_startOrResumeSession].
  destruct (currentSession t); [|apply totals_grow_refl].
  rewrite heap_modifySession. apply totals_grow_alter. intros s _. rewrite Hf. lia.
Qed.

Lemma totals_grow_onActivity event m env t :
  totals_grow (heap t) (heap (onActivity event m env t)).
Proof.
  unfold onActivity. destruct (negb (isRunning t)); [apply totals_grow_refl|].
  destruct (ev_type event).
  1-4: (lazymatch goal with
        | |- context [modifySession _ ?f _] =>
          apply (totals_grow_record_activity f); intros s; reflexivity
        end).
  - destruct (currentSession t) as [a|]; [|apply totals_grow_refl].
    destruct (negb (isPaused t)); [|apply totals_grow_refl].
    destruct (autoEndSessionAfterIdle (config t)); [apply totals_grow_endCurrentSession|].
    cbn [heap set_isPaused]. rewrite heap_modifySession.
    apply totals_grow_alter. intros s _. cbn. lia.
  - destruct (currentSession t) as [a|].
    + destruct (isPaused t); [|apply totals_grow_refl].
      rewrite heap_modifySession. apply totals_grow_alter. intros s _. cbn. lia.
    + destruct (autoStart (config t)); [|apply totals_grow_refl].
      apply totals_grow_startOrResumeSession.
Qed.

(** C7: whatever [safeTimeDifference] computes and whatever the clock reads,
    a tick, an activity event, [endCurrentSession] and
    [splitSessionAtMidnight] leave every session's total time at least as
    large as it was, so a total that is not negative stays so; a delta that
    is not positive is never added. *)
Theorem C7_total_time_never_decreases (op : SessionOperation) (m : ActivityMonitor)
    (env : Env) (t : TimeTracker) :
  totals_grow (heap t) (heap (perform op m env t))
  ∧ (totals_nonnegative (heap t) → totals_nonnegative (heap (perform op m env t))).
Proof.
  assert (Hgrow : totals_grow (heap t) (heap (perform op m env t))).
  { destruct op; cbn [perform].
    - apply totals_grow_tick.
    - apply totals_grow_onActivity.
    - apply totals_grow_endCurrentSession.
    - apply totals_grow_splitSessionAtMidnight. }
  split; [done|].
  intros Hnonneg a s' Hs'. destruct Hgrow as [Hold Hnew].
  destruct (heap t !! a) as [s|] eqn:Hs.
  - destruct (Hold a s Hs) as (s'' & Hs'' & Hle).
    assert (s'' = s') as -> by congruence. specialize (Hnonneg a s Hs). lia.
  - by eapply Hnew.
Qed.

(** ** Export *)

Lemma exportData_projects_length env t :
  length (export_projects (exportData env t)) = size (projects t).
Proof. unfold exportData. cbn. by rewrite length_fmap, length_map_to_list. Qed.

Lemma exportData_grand_total env t :
  export_totalTimeTracked (exportData env t) = totalTimeTracked t.
Proof. reflexivity. Qed.

(** ** How sessions are listed: preservation *)

Lemma listedAt_recalculateAt path path' t :
  listedAt path' (recalculateAt path t) = listedAt path' t.
Proof.
  unfold listedAt. destruct (decide (path = path')) as [<-|Hne].
  - rewrite lookup_recalculateAt. by destruct (projects t !! path).
  - by rewrite lookup_recalculateAt_ne.
Qed.

Lemma listedAt_startNewSession newSession path t :
  listedAt path (startNewSession newSession t)
  = if decide (path = projectPath newSession)
    then listedAt path t ++ [length (heap t)]
    else listedAt path t.
Proof.
  unfold startNewSession, addSessionToProject, listedAt.
  cbn [heap set_currentSession set_heap].
  rewrite lookup_app_r, Nat.sub_diag by done.
  cbn [lookup list_lookup projects set_projects set_currentSession set_heap].
  destruct (decide (path = projectPath newSession)) as [->|Hne].
  - rewrite lookup_insert_eq, recalculateProjectStats_sessions. cbn [sessions].
    by destruct (projects t !! projectPath newSession).
  - by rewrite lookup_insert_ne.
Qed.

Lemma structure_listing t : structure t → listing t.
Proof. intros [H1 H2 _ _]. by split. Qed.

Lemma structure_all_closed t : structure t → currentSession t = None → all_closed t.
Proof.
  intros [_ _ Hopen _] Hnone path b s Hb Hs.
  destruct (endTime s) as [e|] eqn:He; [by eexists|].
  specialize (Hopen path b s Hb Hs He). congruence.
Qed.

Lemma closed_structure t :
  listing t → all_closed t → currentSession t = None → structure t.
Proof.
  intros [H1 H2] Hclosed Hnone. split; try done.
  - intros path b s Hb Hs He. destruct (Hclosed path b s Hb Hs) as [e He']. congruence.
  - intros a Ha. congruence.
Qed.

Lemma structure_ext t t' :
  heap t' = heap t → projects t' = projects t → currentSession t' = currentSession t →
  structure t → structure t'.
Proof.
  intros Hh Hp Hc [H1 H2 H3 H4].
  assert (Hl : ∀ path, listedAt path t' = listedAt path t)
    by (intros; unfold listedAt; by rewrite Hp).
  split.
  - intros path. rewrite Hl. apply H1.
  - intros path b. rewrite Hl, Hh. apply H2.
  - intros path b s. rewrite Hl, Hh, Hc. apply H3.
  - intros a. rewrite Hh, Hc. apply H4.
Qed.

Lemma structure_modifySession a f t :
  (∀ s, projectPath (f s) = projectPath s ∧ endTime (f s) = endTime s) →
  structure t → structure (modifySession a f t).
Proof.
  intros Hf [H1 H2 H3 H4]. split.
  - apply H1.
  - intros path b Hb. destruct (H2 path b Hb) as (s & Hs & Hpath).
    destruct (decide (a = b)) as [<-|Hne].
    + exists (f s). rewrite lookup_modifySession, Hs. split; [done|].
      by rewrite (proj1 (Hf s)), (proj2 (Hf s)).
    + exists s. by rewrite lookup_modifySession_ne.
  - intros path b s Hb Hs He. cbn [currentSession modifySession set_heap].
    destruct (decide (a = b)) as [<-|Hne].
    + rewrite lookup_modifySession in Hs.
      destruct (heap t !! a) as [s0|] eqn:Hs0; [|done]. injection Hs as <-.
      rewrite (proj2 (Hf s0)) in He. by eapply H3.
    + rewrite lookup_modifySession_ne in Hs by done. by eapply H3.
  - intros b Hb. cbn [currentSession modifySession set_heap] in Hb.
    destruct (H4 b Hb) as (s & Hs & He).
    destruct (decide (a = b)) as [<-|Hne].
    + exists (f s). rewrite lookup_modifySession, Hs. split; [done|].
      by rewrite (proj2 (Hf s)).
    + exists s. by rewrite lookup_modifySession_ne.
Qed.

(** Closing the current session leaves only closed sessions listed. *)
Lemma close_current t t' a s s' :
  structure t →
  currentSession t = Some a →
  heap t !! a = Some s →
  heap t' = <[a := s']> (heap t) →
  projectPath s' = projectPath s →
  is_Some (endTime s') →
  (∀ path, listedAt path t' = listedAt path t) →
  listing t' ∧ all_closed t'.
Proof.
  intros [H1 H2 H3 H4] Hcur Hs Hheap Hpath Hend Hlist.
  assert (Hlen : (a < length (heap t))%nat) by by eapply lookup_lt_Some.
  split; [split|].
  - intros path. rewrite Hlist. apply H1.
  - intros path b. rewrite Hlist, Hheap. intros Hb.
    destruct (H2 path b Hb) as (sb & Hsb & Hpb).
    destruct (decide (a = b)) as [<-|Hne].
    + exists s'. rewrite list_lookup_insert_eq by done. split; [done|].
      intros Hnone. destruct Hend as [e He]. congruence.
    + exists sb. by rewrite list_lookup_insert_ne.
  - intros path b sb. rewrite Hlist, Hheap. intros Hb Hsb.
    destruct (decide (a = b)) as [<-|Hne].
    + rewrite list_lookup_insert_eq in Hsb by done. congruence.
    + rewrite list_lookup_insert_ne in Hsb by done.
      destruct (endTime sb) as [e|] eqn:He; [by eexists|].
      specialize (H3 path b sb Hb Hsb He). congruence.
Qed.

Lemma structure_startNewSession newSession t :
  listing t → all_closed t → endTime newSession = None →
  structure (startNewSession newSession t).
Proof.
  intros [H1 H2] Hclosed Hopen.
  destruct (startNewSession_lookup newSession t) as (Hheap & Hcur & _).
  assert (Hfresh : ∀ path, length (heap t) ∉ listedAt path t).
  { intros path Hin. destruct (H2 path _ Hin) as (s & Hs & _).
    apply lookup_lt_Some in Hs. lia. }
  split.
  - intros path. rewrite listedAt_startNewSession. destruct (decide _); [|apply H1].
    apply NoDup_app. split; [apply H1|]. split; [|apply NoDup_singleton].
    intros b Hb ->%list_elem_of_singleton. by eapply Hfresh.
  - intros path b. rewrite listedAt_startNewSession, Hheap.
    destruct (decide (path = projectPath newSession)) as [->|Hne].
    + intros [Hb| ->%list_elem_of_singleton]%elem_of_app.
      * destruct (H2 _ b Hb) as (s & Hs & Hp). exists s. split; [|done].
        by apply lookup_app_l_Some.
      * exists newSession. split; [|done]. by rewrite lookup_app_r, Nat.sub_diag.
    + intros Hb. destruct (H2 _ b Hb) as (s & Hs & Hp). exists s. split; [|done].
      by apply lookup_app_l_Some.
  - intros path b s. rewrite listedAt_startNewSession, Hheap, Hcur. intros Hb Hs He.
    assert (Hold : b ∈ listedAt path t → False).
    { intros Hin. destruct (H2 path b Hin) as (s0 & Hs0 & _).
      rewrite (lookup_app_l_Some _ _ _ _ Hs0) in Hs. injection Hs as <-.
      destruct (Hclosed path b s0 Hin Hs0) as [e He']. congruence. }
    destruct (decide (path = projectPath newSession)) as [->|Hne]; [|by destruct Hold].
    apply elem_of_app in Hb as [Hb| ->%list_elem_of_singleton]; [by destruct Hold|done].
  - intros a. rewrite Hcur, Hheap. intros [= <-]. exists newSession.
    by rewrite lookup_app_r, Nat.sub_diag.
Qed.

Lemma endCurrentSession_None endTimeArg m env t :
  currentSession t = None → endCurrentSession endTimeArg m env t = t.
Proof. intros Hnone. unfold endCurrentSession. by rewrite Hnone. Qed.

Lemma projects_endCurrentSession endTimeArg m env t path :
  listedAt path (endCurrentSession endTimeArg m env t) = listedAt path t.
Proof.
  unfold endCurrentSession. destruct (currentSession t) as [a|]; [|done].
  destruct (heap t !! a) as [session|]; [|done]. cbv zeta.
  match goal with
  | |- context [recalculateAt _ ?x] => set (t2 := x)
  end.
  assert (Hp2 : projects t2 = projects t).
  { subst t2. by destruct (monitorIsActive _ _ _); [destruct (0 <? _)|]. }
  change (listedAt path (recalculateAt (projectPath session) t2) = listedAt path t).
  rewrite listedAt_recalculateAt. unfold listedAt. by rewrite Hp2.
Qed.

Lemma structure_endCurrentSession endTimeArg m env t :
  structure t →
  structure (endCurrentSession endTimeArg m env t)
  ∧ currentSession (endCurrentSession endTimeArg m env t) = None.
Proof.
  intros Hst. destruct (currentSession t) as [a|] eqn:Hcur.
  - destruct (current_open t Hst a Hcur) as (s & Hs & Hopen).
    destruct (heap_endCurrentSession_at endTimeArg m env t a s Hcur Hs)
      as (credit & _ & _ & Hheap).
    destruct (currentSession_endCurrentSession endTimeArg m env t a Hcur) as [Hnone _];
      [by eexists|].
    split; [|done].
    assert (listing (endCurrentSession endTimeArg m env t)
            ∧ all_closed (endCurrentSession endTimeArg m env t)) as [Hlisting Hclosed].
    { eapply (close_current t _ a s);
        [done|done|done|exact Hheap|done|by eexists|].
      intros path. apply projects_endCurrentSession. }
    by apply closed_structure.
  - rewrite endCurrentSession_None by done. done.
Qed.

Lemma structure_trackSessionDay t : structure t → structure (trackSessionDay t).
Proof.
  apply structure_ext.
  - apply heap_trackSessionDay.
  - apply projects_trackSessionDay.
  - apply currentSession_trackSessionDay.
Qed.

(** With no current session nothing listed is open, so nothing is resumed. *)
Lemma startOrResumeSession_fresh env t name path :
  structure t → currentSession t = None →
  currentProject env = Some (name, path) →
  startOrResumeSession env t
  = trackSessionDay (startNewSession (newSessionFor name path env (length (heap t))) t).
Proof.
  intros Hst Hnone Hproj. apply startOrResumeSession_new; [done|].
  intros a s Hfind. exfalso.
  destruct (findRecentSession_Some _ _ _ _ Hfind) as (ps & Hps & Ha & Hs & Hopen & _).
  assert (Hin : a ∈ listedAt path t) by (unfold listedAt; by rewrite Hps).
  pose proof (open_is_current t Hst path a s Hin Hs Hopen). congruence.
Qed.

Lemma structure_startOrResumeSession env t :
  structure t → currentSession t = None → structure (startOrResumeSession env t).
Proof.
  intros Hst Hnone. destruct (currentProject env) as [[name path]|] eqn:Hproj.
  - rewrite (startOrResumeSession_fresh env t name path) by done.
    apply structure_trackSessionDay, structure_startNewSession;
      [by apply structure_listing|by apply structure_all_closed|done].
  - unfold startOrResumeSession. by rewrite Hproj.
Qed.

Lemma structure_splitSessionAtMidnight m env t :
  structure t → structure (splitSessionAtMidnight m env t).
Proof.
  intros Hst. destruct (currentSession t) as [a|] eqn:Hcur.
  - destruct (current_open t Hst a Hcur) as (s & Hs & Hopen).
    unfold splitSessionAtMidnight. rewrite Hcur, Hs.
    set (boundary := setHours0 tz (now env) - 1).
    set (t2 := if monitorIsActive (config t) m (now env) && (lastActiveTime s <? boundary)
               then _ else _).
    assert (Hh2 : ∃ credit, heap t2
      = <[a := set_totalTime (totalTime s + credit)
                 (set_isActive false (set_endTime (Some boundary) s))]> (heap t)).
    { subst t2.
      destruct (monitorIsActive (config t) m (now env) && (lastActiveTime s <? boundary)).
      - eexists. rewrite !heap_modifySession.
        rewrite (alter_as_insert _ _ _ _ Hs).
        erewrite alter_as_insert
          by (apply list_lookup_insert_eq; by eapply lookup_lt_Some).
        by rewrite list_insert_insert_eq.
      - exists 0. rewrite heap_modifySession, (alter_as_insert _ _ _ _ Hs), Z.add_0_r.
        by destruct s. }
    destruct Hh2 as [credit Hh2].
    assert (Hp2 : projects t2 = projects t) by (subst t2; by destruct (_ && _)).
    set (t3 := recalculateAt (projectPath s) t2).
    assert (Hclose : listing t3 ∧ all_closed t3).
    { eapply (close_current t t3 a s);
        [done|done|done|subst t3; rewrite heap_recalculateAt; exact Hh2
        |done|by eexists|].
      intros path. subst t3. rewrite listedAt_recalculateAt. unfold listedAt.
      by rewrite Hp2. }
    destruct Hclose as [Hlisting Hclosed].
    by apply structure_startNewSession.
  - unfold splitSessionAtMidnight. by rewrite Hcur.
Qed.

Lemma structure_checkAndHandleMidnightCrossing m env t :
  structure t → structure (checkAndHandleMidnightCrossing m env t).
Proof.
  intros Hst. unfold checkAndHandleMidnightCrossing.
  destruct (currentSession t); [|done]. destruct (lastSessionDay t); [|done].
  destruct (decide _); [|done].
  eapply structure_ext; [..|by apply (structure_splitSessionAtMidnight m env)]; done.
Qed.

Lemma structure_checkAndHandleIdleSessionEnd m env t :
  structure t → structure (checkAndHandleIdleSessionEnd m env t).
Proof.
  intros Hst. unfold checkAndHandleIdleSessionEnd.
  destruct (currentSession t) as [a|]; [|done]. destruct (heap t !! a); [|done].
  destruct (_ <? _); [|done]. by apply structure_endCurrentSession.
Qed.

Lemma structure_checkAndHandleProjectChange m env t :
  structure t → structure (checkAndHandleProjectChange m env t).
Proof.
  intros Hst. unfold checkAndHandleProjectChange.
  destruct (currentSession t) as [a|]; [|done]. destruct (heap t !! a); [|done].
  destruct (currentProject env) as [[name path]|];
    [|by apply structure_endCurrentSession].
  destruct (decide _); [|done].
  destruct (structure_endCurrentSession None m env t Hst).
  by apply structure_startOrResumeSession.
Qed.

Lemma structure_updateCurrentSessionTime m env t :
  structure t → structure (updateCurrentSessionTime m env t).
Proof.
  intros Hst. unfold updateCurrentSessionTime.
  destruct (currentSession t) as [a|]; [|done]. destruct (heap t !! a); [|done].
  destruct (monitorIsActive _ _ _); [|done].
  eapply (structure_ext (modifySession a _ _) _); [done..|].
  apply structure_modifySession; [done|].
  destruct (0 <? _); [|done]. by apply structure_modifySession.
Qed.

Lemma structure_if (b : bool) (t t' : TimeTracker) :
  structure t → (structure t → structure t') → structure (if b then t' else t).
Proof. destruct b; eauto. Qed.

Lemma structure_tick m env t : structure t → structure (tick m env t).
Proof.
  intros Hst. unfold tick. cbv zeta.
  match goal with
  | |- structure (if ?c && bool_decide (currentSession ?t4 = None) && ?p then _ else _) =>
    assert (H4 : structure t4)
  end.
  { apply structure_if; [|apply structure_updateCurrentSessionTime].
    apply structure_if; [|apply structure_checkAndHandleIdleSessionEnd].
    apply structure_if; [|apply structure_checkAndHandleProjectChange].
    apply structure_if; [done|apply structure_checkAndHandleMidnightCrossing]. }
  destruct (autoStart _); cbn [andb]; [|done].
  case_bool_decide as Hnone; cbn [andb]; [|done].
  destruct (negb _); [|done]. destruct (monitorIsActive _ _ _); [|done].
  by apply structure_startOrResumeSession.
Qed.

Lemma structure_onActivity event m env t :
  structure t → structure (onActivity event m env t).
Proof.
  intros Hst. unfold onActivity. destruct (negb (isRunning t)); [done|].
  assert (Hkind : ∀ f : TimeSession → TimeSession,
    (∀ s, projectPath (f s) = projectPath s ∧ endTime (f s) = endTime s) →
    structure
      (if isPaused t then t
       else
         let t1 :=
           match currentSession t with
           | Some a => modifySession a f t
           | None => t
           end in
         if autoStart (config t1) && bool_decide (currentSession t1 = None)
         then startOrResumeSession env t1 else t1)).
  { intros f Hf. destruct (isPaused t); [done|]. cbv zeta.
    match goal with
    | |- structure (if _ && bool_decide (currentSession ?x = None) then _ else _) =>
      assert (H1 : structure x)
        by (destruct (currentSession t); [by apply structure_modifySession|done])
    end.
    destruct (autoStart _); cbn [andb]; [|done].
    case_bool_decide; [|done]. by apply structure_startOrResumeSession. }
  destruct (ev_type event).
  1-4: (lazymatch goal with
        | |- context [modifySession _ ?f _] => apply (Hkind f); intros s; by destruct s
        end).
  - destruct (currentSession t) as [a|]; [|done].
    destruct (negb (isPaused t)); [|done].
    destruct (autoEndSessionAfterIdle (config t));
      [by apply structure_endCurrentSession|].
    eapply (structure_ext (modifySession a _ _) _); [done..|].
    by apply structure_modifySession.
  - destruct (currentSession t) as [a|] eqn:Hcur.
    + destruct (isPaused t); [|done].
      apply structure_modifySession; [done|].
      eapply (structure_ext t _); done.
    + destruct (autoStart (config t)); [|done].
      by apply structure_startOrResumeSession.
Qed.

Lemma structure_pause t : structure t → structure (pause t).
Proof.
  intros Hst. unfold pause. destruct (negb (isRunning t)); [done|]. cbv zeta.
  cbn [currentSession set_isPaused].
  destruct (currentSession t) as [a|] eqn:Hcur.
  - apply structure_modifySession; [done|]. eapply (structure_ext t _); done.
  - eapply (structure_ext t _); done.
Qed.

Lemma structure_resume env t : structure t → structure (resume env t).
Proof.
  intros Hst. unfold resume. destruct (negb (isRunning t)); [done|]. cbv zeta.
  cbn [currentSession set_isPaused].
  destruct (currentSession t) as [a|] eqn:Hcur.
  - apply structure_modifySession; [done|]. eapply (structure_ext t _); done.
  - eapply (structure_ext t _); done.
Qed.

Lemma structure_stop m env t : structure t → structure (stop m env t).
Proof.
  intros Hst. unfold stop. destruct (negb (isRunning t)); [done|].
  eapply (structure_ext (endCurrentSession None m env t) _); [done..|].
  by apply structure_endCurrentSession.
Qed.

Lemma structure_reset t : structure t → structure (reset t).
Proof.
  intros Hst. unfold reset.
  destruct (currentSession t) as [a|] eqn:Hcur; [|done].
  destruct (current_open t Hst a Hcur) as (current & Hs & Hopen). rewrite Hs.
  destruct Hst as [H1 H2 H3 H4].
  apply closed_structure; [split| |done].
  - intros path. unfold listedAt.
    cbn [projects set_lastSessionDay set_currentSession].
    destruct (projects t !! projectPath current) as [ps|] eqn:Hps; [|apply H1].
    cbn [projects set_projects].
    destruct (decide (projectPath current = path)) as [<-|Hne].
    + rewrite lookup_insert_eq, recalculateProjectStats_sessions. cbn [sessions].
      apply NoDup_filter. specialize (H1 (projectPath current)).
      unfold listedAt in H1. by rewrite Hps in H1.
    + rewrite lookup_insert_ne by done. apply H1.
  - intros path b. unfold listedAt.
    cbn [heap projects set_lastSessionDay set_currentSession].
    destruct (projects t !! projectPath current) as [ps|] eqn:Hps; [|apply H2].
    cbn [heap projects set_projects].
    destruct (decide (projectPath current = path)) as [<-|Hne].
    + rewrite lookup_insert_eq, recalculateProjectStats_sessions. cbn [sessions].
      intros [_ Hb]%list_elem_of_filter. apply H2. unfold listedAt. by rewrite Hps.
    + rewrite lookup_insert_ne by done. apply H2.
  - intros path b s. unfold listedAt.
    cbn [heap projects set_lastSessionDay set_currentSession].
    assert (Hclosed : b ∈ listedAt path t → heap t !! b = Some s → b ≠ a →
                      is_Some (endTime s)).
    { intros Hb Hsb Hne. destruct (endTime s) as [e|] eqn:He; [by eexists|].
      specialize (H3 path b s Hb Hsb He). congruence. }
    destruct (projects t !! projectPath current) as [ps|] eqn:Hps;
      cbn [heap projects set_projects].
    + destruct (decide (projectPath current = path)) as [<-|Hne].
      * rewrite lookup_insert_eq, recalculateProjectStats_sessions. cbn [sessions].
        intros [Hkeep Hb]%list_elem_of_filter Hsb. apply Hclosed; [|done|].
        -- unfold listedAt. by rewrite Hps.
        -- intros ->. apply Hkeep. by rewrite Hs.
      * rewrite lookup_insert_ne by done. intros Hb Hsb. apply Hclosed; [done..|].
        intros ->. destruct (H2 path a Hb) as (s' & Hs' & Hpath).
        assert (s' = current) as -> by congruence. by specialize (Hpath Hopen).
    + intros Hb Hsb. apply Hclosed; [done..|].
      intros ->. destruct (H2 path a Hb) as (s' & Hs' & Hpath).
      assert (s' = current) as -> by congruence. specialize (Hpath Hopen). subst path.
      unfold listedAt in Hb. rewrite Hps in Hb. by apply elem_of_nil in Hb.
Qed.

Lemma structure_deliver env s e :
  structure (tracker s) → structure (tracker (deliver env s e)).
Proof. intros. by apply structure_onActivity. Qed.

Lemma structure_set_lastSessionDay d t : structure t → structure (set_lastSessionDay d t).
Proof. by apply structure_ext. Qed.

Lemma structure_deliver_all env events s :
  structure (tracker s) → structure (tracker (dispatch env s events)).
Proof.
  apply dispatch_preserves.
  - apply structure_set_lastSessionDay.
  - intros e s'. apply structure_deliver.
Qed.

Lemma structure_handle sig env s :
  structure (tracker s) → structure (tracker (handle sig env s)).
Proof.
  intros Hst. destruct sig; cbn [handle].
  - destruct (isRunning (tracker s)); [|done]. by apply structure_tick.
  - by apply structure_deliver.
  - by apply structure_deliver.
  - by apply structure_deliver_all.
  - by apply structure_deliver_all.
  - by apply structure_pause.
  - by apply structure_resume.
  - by apply structure_stop.
  - by apply structure_reset.
  - eapply (structure_ext (tracker s) _); done.
Qed.

Lemma structure_run trace s :
  structure (tracker s) → structure (tracker (run trace s)).
Proof.
  revert s. induction trace as [|step trace IH]; intros s Hst; [done|].
  apply IH. by apply structure_handle.
Qed.

Lemma load_empty_storage ws now disk :
  empty_storage disk → Storage.load ws now disk = Storage.createDefaultData ws now.
Proof.
  intros [Hdata Hbackup]. unfold Storage.load, Storage.loadBackup, Storage.exists_.
  rewrite Hdata, Hbackup. by destruct (negb _).
Qed.

Lemma structure_empty t :
  heap t = [] → projects t = ∅ → currentSession t = None → structure t.
Proof.
  intros Hh Hp Hc.
  assert (Hl : ∀ path, listedAt path t = []) by (intros; unfold listedAt; by rewrite Hp).
  split.
  - intros path. rewrite Hl. apply NoDup_nil_2.
  - intros path b. rewrite Hl. by intros ?%elem_of_nil.
  - intros path b s. rewrite Hl. by intros ?%elem_of_nil.
  - intros a. congruence.
Qed.

Lemma adopt_default ws n t :
  adopt (Storage.createDefaultData ws n) t
  = mkTracker [] ∅ None n 0 Storage.DATA_VERSION n (fst <$> ws) (snd <$> ws)
      (config t) (isRunning t) (isPaused t) (lastSessionDay t).
Proof.
  unfold adopt, Storage.createDefaultData.
  cbn [Storage.projects Storage.currentSession Storage.data_lastActivity
       Storage.totalTimeTracked Storage.version Storage.lastSaved
       Storage.workspacePath Storage.workspaceName].
  by rewrite map_to_list_empty.
Qed.

Lemma structure_started cfg m ws disk env :
  empty_storage disk → structure (tracker (started cfg m ws disk env)).
Proof.
  intros Hempty. unfold started, start. cbn [tracker isRunning newTracker].
  rewrite load_empty_storage by done.
  rewrite adopt_default.
  eapply (structure_ext (if autoStart _ then _ else _) _); [done..|].
  match goal with
  | |- structure (if _ then startOrResumeSession env ?x else _) =>
    assert (Hadopt : structure x) by (by apply structure_empty)
  end.
  destruct (autoStart _); [|done].
  by apply structure_startOrResumeSession.
Qed.

Lemma NoDup_openSessions h (l : list nat) :
  NoDup l → NoDup (openSessions h l).*1.
Proof.
  intros Hl. induction Hl as [|b l Hb Hl IH]; [constructor|].
  unfold openSessions, resolve in *. cbn [omap list_omap].
  destruct (h !! b) as [s|] eqn:Hs; simpl; [|done].
  rewrite filter_cons. destruct (decide _); simpl; [|done].
  constructor; [|done].
  intros (p & Hp1 & Hp2)%list_elem_of_fmap. apply Hb.
  apply list_elem_of_filter in Hp2 as [_ Hp2].
  apply list_elem_of_omap in Hp2 as (c & Hc & Heq).
  destruct (h !! c); simpl in Heq; [|done]. injection Heq as <-. by subst.
Qed.

Lemma structure_one_open t : structure t → one_open_session_per_project t.
Proof.
  intros [H1 H2 H3 H4] path ps Hps.
  assert (Hlist : listedAt path t = sessions ps) by (unfold listedAt; by rewrite Hps).
  assert (Hnodup : NoDup (openSessions (heap t) (sessions ps)).*1).
  { apply NoDup_openSessions. rewrite <- Hlist. apply H1. }
  destruct (openSessions (heap t) (sessions ps)) as [|[b1 s1] [|[b2 s2] rest]] eqn:Hopen;
    cbn [length]; [lia..|exfalso].
  assert (Hin1 : (b1, s1) ∈ openSessions (heap t) (sessions ps))
    by (rewrite Hopen; apply elem_of_cons; by left).
  assert (Hin2 : (b2, s2) ∈ openSessions (heap t) (sessions ps))
    by (rewrite Hopen; apply elem_of_cons; right; apply elem_of_cons; by left).
  apply elem_of_openSessions in Hin1 as (Hb1 & Hs1 & He1).
  apply elem_of_openSessions in Hin2 as (Hb2 & Hs2 & He2).
  rewrite <- Hlist in Hb1, Hb2.
  pose proof (H3 path b1 s1 Hb1 Hs1 He1). pose proof (H3 path b2 s2 Hb2 Hs2 He2).
  assert (b1 = b2) as -> by congruence.
  cbn in Hnodup. apply NoDup_cons in Hnodup as [Hnot _]. apply Hnot.
  apply elem_of_cons. by left.
Qed.

(** *** Loading closed data *)

Lemma adoptProject_keeps (entries : list (string * Storage.ProjectStats))
    (acc : list TimeSession * gmap string ProjectStats) :
  Forall (λ entry, Forall (λ s, is_Some (endTime s)) (Storage.sessions entry.2)) entries →
  Forall (λ s, is_Some (endTime s)) acc.1 →
  (∀ path ps, acc.2 !! path = Some ps →
              NoDup (sessions ps) ∧ ∀ b, b ∈ sessions ps → (b < length acc.1)%nat) →
  let listed := foldl adoptProject acc entries in
  Forall (λ s, is_Some (endTime s)) listed.1
  ∧ ∀ path ps, listed.2 !! path = Some ps →
               NoDup (sessions ps) ∧ ∀ b, b ∈ sessions ps → (b < length listed.1)%nat.
Proof.
  revert acc. induction entries as [|[key value] entries IH]; intros acc Hentries Hheap Hacc;
    [done|].
  apply Forall_cons in Hentries as [Hvalue Hentries]. cbn [foldl].
  apply IH; [done|..].
  - cbn. by apply Forall_app.
  - intros path ps. cbn. rewrite length_app.
    destruct (decide (key = path)) as [->|Hne].
    + rewrite lookup_insert_eq. intros [= <-]. cbn. split; [apply NoDup_seq|].
      intros b Hb%elem_of_seq. lia.
    + rewrite lookup_insert_ne by done. intros Hps.
      destruct (Hacc path ps Hps) as [Hnodup Hbound]. split; [done|].
      intros b Hb. specialize (Hbound b Hb). lia.
Qed.

Lemma structure_adopt data t : closed_data data → structure (adopt data t).
Proof.
  intros [Hcurrent Hclosed].
  destruct (adoptProject_keeps (map_to_list (Storage.projects data)) ([], ∅))
    as [Hheap Hlisted].
  - apply Forall_forall. intros [key value] Hentry%elem_of_map_to_list.
    by apply (Hclosed key value).
  - constructor.
  - intros path ps. cbn. by rewrite lookup_empty.
  - unfold adopt. rewrite Hcurrent. cbv zeta.
    set (listed := foldl adoptProject ([], ∅) (map_to_list (Storage.projects data))) in *.
    assert (Hvalid : ∀ b, (b < length listed.1)%nat →
                          ∃ s, listed.1 !! b = Some s ∧ is_Some (endTime s)).
    { intros b Hb. destruct (lookup_lt_is_Some_2 _ _ Hb) as [s Hs]. exists s.
      split; [done|]. by apply (Forall_lookup_1 _ _ _ _ Hheap Hs). }
    apply closed_structure; [split| |done].
    + intros path. unfold listedAt. cbn [projects].
      destruct (listed.2 !! path) as [ps|] eqn:Hps; [|apply NoDup_nil_2].
      by apply (Hlisted path ps).
    + intros path b. unfold listedAt. cbn [projects heap].
      destruct (listed.2 !! path) as [ps|] eqn:Hps; [|by intros ?%elem_of_nil].
      intros Hb. destruct (Hvalid b) as (s & Hs & [e He]); [by apply (Hlisted path ps)|].
      exists s. split; [done|]. congruence.
    + intros path b s. unfold listedAt. cbn [projects heap].
      destruct (listed.2 !! path) as [ps|] eqn:Hps; [|by intros ?%elem_of_nil].
      intros Hb Hs. destruct (Hvalid b) as (s' & Hs' & He); [by apply (Hlisted path ps)|].
      congruence.
Qed.

Lemma structure_start ws disk env t :
  closed_data (Storage.load ws (now env) disk) → structure t →
  structure (start ws disk env t).
Proof.
  intros Hclosed Hst. unfold start. destruct (isRunning t); [done|]. cbv zeta.
  eapply (structure_ext (if autoStart _ then _ else _) _); [done..|].
  pose proof (structure_adopt _ t Hclosed) as Hadopt.
  destruct (autoStart _); [|done].
  apply structure_startOrResumeSession; [done|].
  unfold adopt. by destruct Hclosed as [-> _].
Qed.

Lemma structure_life ops s :
  loads_closed_data ops → structure (tracker s) → structure (tracker (life ops s)).
Proof.
  revert s. induction ops as [|[op env] ops IH]; intros s Hloads Hst; [done|].
  unfold life in *. cbn [foldl].
  destruct op as [sig|ws disk| |ended|]; cbn [loads_closed_data] in Hloads.
  - apply IH; [done|]. by apply structure_handle.
  - destruct Hloads as [Hclosed Hloads]. apply IH; [done|]. by apply structure_start.
  - apply IH; [done|]. cbn [operate fst snd]. destruct (isRunning (tracker s)); [|done].
    by apply structure_set_lastSessionDay, structure_endCurrentSession.
  - apply IH; [done|]. cbn [operate fst snd tracker]. unfold stop_saved.
    destruct ended; [by apply structure_set_lastSessionDay|done].
  - apply IH; [done|]. eapply (structure_ext (tracker s) _); done.
Qed.

(** *** What [stop()] writes *)

Lemma deserializeSession_serializeSession session :
  deserializeSession (serializeSession session) = session.
Proof. by destruct session. Qed.

Lemma closed_data_snapshot t :
  structure t → currentSession t = None → closed_data (snapshot t).
Proof.
  intros Hst Hnone. split; [cbn; by rewrite Hnone|].
  cbn. apply map_Forall_fmap. intros path ps Hps. cbn.
  apply Forall_fmap, Forall_forall. intros [b s] [Hb Hs]%elem_of_resolve. cbn.
  apply (structure_all_closed t Hst Hnone path b s); [|done].
  unfold listedAt. by rewrite Hps.
Qed.

Lemma closed_data_round_trip n data :
  closed_data data → closed_data (Storage.deserializeData n (Storage.serializeData data)).
Proof.
  intros [Hcurrent Hclosed]. split; [cbn; by rewrite Hcurrent|]. cbn.
  assert (Hfold : ∀ (entries : list (string * Storage.ProjectStats))
                    (acc : gmap string Storage.ProjectStats),
    Forall (λ entry, Forall (λ s, is_Some (endTime s)) (Storage.sessions entry.2)) entries →
    map_Forall (λ _ ps, Forall (λ s, is_Some (endTime s)) (Storage.sessions ps)) acc →
    map_Forall (λ _ ps, Forall (λ s, is_Some (endTime s)) (Storage.sessions ps))
      (foldl (λ projects entry, <[entry.1 := Storage.deserializeProject entry.2]> projects)
         acc ((λ entry, (entry.1, Storage.serializeProject entry.2)) <$> entries))).
  { induction entries as [|[key value] entries IH]; intros acc Hentries Hacc; [done|].
    apply Forall_cons in Hentries as [Hvalue Hentries].
    rewrite fmap_cons. cbn [foldl fst snd]. apply IH; [done|].
    apply map_Forall_insert_2; [|done]. cbn. rewrite <- list_fmap_compose.
    rewrite (list_fmap_ext _ id (Storage.sessions value));
      [|intros i session _; apply deserializeSession_serializeSession].
    by rewrite list_fmap_id. }
  apply Hfold; [|apply map_Forall_empty].
  apply Forall_forall. intros [key value] Hentry%elem_of_map_to_list.
  by apply (Hclosed key value).
Qed.

(** What a [stop()] that runs alone leaves in the data file is closed data
    for every later [load]. *)
Lemma stop_saves_closed_data ws n m env env' t disk :
  structure t → isRunning t = true → Storage.directoryAvailable disk = true →
  closed_data (Storage.load ws n (autoSave env' (stop m env t) disk)).
Proof.
  intros Hst Hrun Hdir.
  assert (Hstopped : currentSession (stop m env t) = None).
  { unfold stop. rewrite Hrun. cbn. by apply structure_endCurrentSession. }
  pose proof (closed_data_snapshot _ (structure_stop m env t Hst) Hstopped) as Hsnapshot.
  assert (Hdefault : closed_data (Storage.createDefaultData ws n))
    by (split; [done|apply map_Forall_empty]).
  unfold autoSave, Storage.save, Storage.load, Storage.exists_.
  cbn [Storage.directoryAvailable Storage.dataFile]. rewrite Hdir. cbn [negb].
  match goal with
  | |- context [Storage.deserializeData ?k (Storage.serializeData ?d)] =>
    assert (Hwritten : closed_data (Storage.deserializeData k (Storage.serializeData d)))
      by (apply closed_data_round_trip; destruct Hsnapshot; by split);
    set (written := Storage.deserializeData k (Storage.serializeData d)) in *
  end.
  destruct ws as [[fsPath name]|]; [|done].
  destruct (_ && _); [done|]. destruct (negb _); [|done].
  destruct Hwritten. by split.
Qed.



(** X28: a regular shutdown leaves nothing open on disk.  In every state a
    tracker reaches from its constructor, each [start()] having loaded data
    without a session that lacks an end time, a running tracker's [stop()]
    that runs alone writes data which every later [load] (the storage
    directory being available) returns without a current session and with an
    end time on every listed session: the next launch loads such data
    again. *)
Theorem X28_stop_writes_closed_data (cfg : ExtensionConfig) (m : ActivityMonitor)
    (n n' : Z) (ops : list (Operation * Env)) (env env' : Env)
    (ws : Storage.Workspace) (disk : Storage.Disk) :
  loads_closed_data ops →
  let s := life ops (mkSystem m (newTracker cfg n)) in
  isRunning (tracker s) = true →
  Storage.directoryAvailable disk = true →
  closed_data (Storage.load ws n' (autoSave env' (tracker (handle Stop env s)) disk)).
Proof.
  intros Hloads s Hrun Hdir. cbn [handle tracker].
  apply stop_saves_closed_data; [|done..].
  apply structure_life; [done|by apply structure_empty].
Qed.
(** ** The time credited to a session *)

Section Credit.

(** What is assumed of the imported helper: it yields at most the time
    between its two instants, and at most 0 when they are out of order. *)
Hypothesis safeTimeDifference_bound :
  ∀ later earlier minutes, safeTimeDifference later earlier minutes ≤ Z.max 0 (later - earlier).

Lemma session_credit_mono T T' s : T ≤ T' → session_credit T s → session_credit T' s.
Proof. unfold session_credit. intros ? (? & ? & ?). repeat split; try done; lia. Qed.

Lemma credited_mono T T' t : T ≤ T' → credited T t → credited T' t.
Proof. intros Hle Hc a s Hs. eapply session_credit_mono; [done|by eapply Hc]. Qed.

Lemma credited_ext T t t' : heap t' = heap t → credited T t → credited T t'.
Proof. intros Hh Hc a s. rewrite Hh. apply Hc. Qed.

Lemma credited_modifySession T a f t :
  (∀ s, session_credit T s → session_credit T (f s)) →
  credited T t → credited T (modifySession a f t).
Proof.
  intros Hf Hc b s. destruct (decide (a = b)) as [<-|Hne].
  - rewrite lookup_modifySession. destruct (heap t !! a) as [s0|] eqn:Hs0; [|done].
    intros [= <-]. apply Hf. by eapply Hc.
  - rewrite lookup_modifySession_ne by done. apply Hc.
Qed.

Lemma credited_insert T a s t h :
  h = <[a := s]> (heap t) → session_credit T s → credited T t →
  ∀ b sb, h !! b = Some sb → session_credit T sb.
Proof.
  intros -> Hs Hc b sb. destruct (decide (a = b)) as [<-|Hne].
  - intros Hsb. apply list_lookup_insert_Some in Hsb as [(_ & <- & _)|[? _]]; done.
  - rewrite list_lookup_insert_ne by done. apply Hc.
Qed.

Lemma credited_startNewSession T name path env n t :
  credited T t → T ≤ now env →
  credited (now env) (startNewSession (newSessionFor name path env n) t).
Proof.
  intros Hc Hle b sb.
  destruct (startNewSession_lookup (newSessionFor name path env n) t) as (-> & _).
  intros Hsb. apply lookup_app_Some in Hsb as [Hsb|[_ Hsb]].
  - eapply session_credit_mono; [done|]. by eapply Hc.
  - destruct (b - length (heap t))%nat; cbn in Hsb; [|done]. injection Hsb as <-.
    unfold session_credit. cbn. lia.
Qed.

Lemma credited_endCurrentSession T endTimeArg m env t :
  credited T t → T ≤ now env → credited (now env) (endCurrentSession endTimeArg m env t).
Proof.
  intros Hc Hle. destruct (currentSession t) as [a|] eqn:Hcur.
  - destruct (heap t !! a) as [s|] eqn:Hs.
    + destruct (heap_endCurrentSession_at endTimeArg m env t a s Hcur Hs)
        as (credit & Hpos & _ & Hheap).
      refine (credited_insert _ _ _ t _ Hheap _ _); [|by eapply credited_mono].
      destruct (Hc a s Hs) as (H0 & H1 & _). unfold session_credit. cbn.
      split; [lia|]. split; [lia|done].
    + unfold endCurrentSession. rewrite Hcur, Hs. by eapply credited_mono.
  - rewrite endCurrentSession_None by done. by eapply credited_mono.
Qed.

Lemma credited_startOrResumeSession T env t :
  credited T t → T ≤ now env → credited (now env) (startOrResumeSession env t).
Proof.
  intros Hc Hle. unfold startOrResumeSession.
  destruct (currentProject env) as [[name path]|]; [|by eapply credited_mono].
  apply (credited_ext _ _ _ (heap_trackSessionDay _)).
  assert (Hnew : credited (now env)
                   (startNewSession (newSessionFor name path env (length (heap t))) t))
    by by apply (credited_startNewSession T).
  destruct (findRecentSession path t) as [[a existing]|]; [|done].
  destruct (shouldResumeSession (now env) existing); [|done].
  unfold resumeSession. eapply (credited_ext _ (modifySession a _ t) _); [done|].
  apply credited_modifySession; [|by eapply credited_mono].
  intros s (H0 & H1 & H2). unfold session_credit. cbn. split; [done|]. split; [lia|].
  intros Hopen. specialize (H2 Hopen). lia.
Qed.

Lemma credited_splitSessionAtMidnight T m env t :
  credited T t → T ≤ now env → credited (now env) (splitSessionAtMidnight m env t).
Proof.
  intros Hc Hle. destruct (currentSession t) as [a|] eqn:Hcur.
  - destruct (heap t !! a) as [s|] eqn:Hs.
    + destruct (splitSessionAtMidnight_result m env t a s Hcur Hs) as (Hheap & _).
      intros b sb. rewrite Hheap. intros Hsb.
      apply lookup_app_Some in Hsb as [Hsb|[_ Hsb]].
      * revert b sb Hsb.
        refine (credited_insert _ _ _ t _ eq_refl _ _); [|by eapply credited_mono].
        destruct (Hc a s Hs) as (H0 & H1 & _). unfold session_credit. cbn.
        split; [|split; [lia|done]].
        destruct (monitorIsActive _ _ _); cbn [andb]; [|lia].
        destruct (Z.ltb_spec (lastActiveTime s) (setHours0 tz (now env) - 1)); lia.
      * destruct (b - _)%nat; cbn in Hsb; [|done]. injection Hsb as <-.
        unfold session_credit. cbn. lia.
    + unfold splitSessionAtMidnight. rewrite Hcur, Hs. by eapply credited_mono.
  - unfold splitSessionAtMidnight. rewrite Hcur. by eapply credited_mono.
Qed.

Lemma credited_checkAndHandleMidnightCrossing T m env t :
  credited T t → T ≤ now env → credited (now env) (checkAndHandleMidnightCrossing m env t).
Proof.
  intros Hc Hle. unfold checkAndHandleMidnightCrossing.
  destruct (currentSession t); [|by eapply credited_mono].
  destruct (lastSessionDay t); [|by eapply credited_mono].
  destruct (decide _); [|by eapply credited_mono].
  eapply (credited_ext _ (splitSessionAtMidnight m env t) _); [done|].
  by apply (credited_splitSessionAtMidnight T).
Qed.

Lemma credited_checkAndHandleProjectChange m env t :
  credited (now env) t → credited (now env) (checkAndHandleProjectChange m env t).
Proof.
  intros Hc. unfold checkAndHandleProjectChange.
  destruct (currentSession t) as [a|]; [|done]. destruct (heap t !! a); [|done].
  assert (Hend : credited (now env) (endCurrentSession None m env t))
    by (apply (credited_endCurrentSession (now env)); [done|lia]).
  destruct (currentProject env) as [[name path]|]; [|done].
  destruct (decide _); [|done].
  apply (credited_startOrResumeSession (now env)); [done|lia].
Qed.

Lemma credited_checkAndHandleIdleSessionEnd m env t :
  credited (now env) t → credited (now env) (checkAndHandleIdleSessionEnd m env t).
Proof.
  intros Hc. unfold checkAndHandleIdleSessionEnd.
  destruct (currentSession t) as [a|]; [|done]. destruct (heap t !! a); [|done].
  destruct (_ <? _); [|done].
  apply (credited_endCurrentSession (now env)); [done|lia].
Qed.

Lemma credited_updateCurrentSessionTime m env t :
  credited (now env) t → credited (now env) (updateCurrentSessionTime m env t).
Proof.
  intros Hc. unfold updateCurrentSessionTime.
  destruct (currentSession t) as [a|] eqn:Hcur; [|done].
  destruct (heap t !! a) as [s|] eqn:Hs; [|done].
  destruct (monitorIsActive _ _ _); [|done]. cbv zeta.
  set (delta := safeTimeDifference (now env) (lastActiveTime s) 1).
  pose proof (safeTimeDifference_bound (now env) (lastActiveTime s) 1) as Hbound.
  fold delta in Hbound.
  destruct (Hc a s Hs) as (H0 & H1 & H2).
  set (final (total : Z) :=
         set_lastActivity (now env) (set_lastActiveTime (now env) (set_totalTime total s))).
  assert (Hfinal : ∀ total, 0 ≤ total → total ≤ totalTime s + Z.max 0 delta →
                            session_credit (now env) (final total)).
  { intros total Hpos Hle. unfold session_credit. cbn.
    split; [done|]. split; [lia|]. intros Hopen. specialize (H2 Hopen). lia. }
  intros b sb. cbn [heap set_data_lastActivity]. rewrite heap_modifySession.
  destruct (Z.ltb_spec 0 delta).
  - rewrite heap_modifySession, list_alter_alter_eq, (alter_as_insert _ _ _ s Hs).
    refine (credited_insert _ _ _ t _ eq_refl _ Hc b sb).
    apply (Hfinal (totalTime s + delta)); lia.
  - rewrite (alter_as_insert _ _ _ s Hs).
    refine (credited_insert _ _ _ t _ eq_refl _ Hc b sb).
    replace s with (set_totalTime (totalTime s) s) at 1 by (by destruct s).
    apply (Hfinal (totalTime s)); lia.
Qed.

Lemma credited_if T (b : bool) (t t' : TimeTracker) :
  credited T t → (credited T t → credited T t') → credited T (if b then t' else t).
Proof. destruct b; eauto. Qed.

Lemma credited_tick T m env t :
  credited T t → T ≤ now env → credited (now env) (tick m env t).
Proof.
  intros Hc Hle. unfold tick. cbv zeta.
  match goal with
  | |- credited _ (if _ && bool_decide (currentSession ?t4 = None) && _ then _ else _) =>
    assert (H4 : credited (now env) t4)
  end.
  { apply credited_if; [|apply credited_updateCurrentSessionTime].
    apply credited_if; [|apply credited_checkAndHandleIdleSessionEnd].
    apply credited_if; [|apply credited_checkAndHandleProjectChange].
    destruct (tracking t); [|by eapply credited_mono].
    by apply (credited_checkAndHandleMidnightCrossing T). }
  destruct (autoStart _); cbn [andb]; [|done].
  case_bool_decide as Hnone; cbn [andb]; [|done].
  destruct (negb _); [|done]. destruct (monitorIsActive _ _ _); [|done].
  apply (credited_startOrResumeSession (now env)); [done|lia].
Qed.

Lemma credited_onActivity T event m env t :
  credited T t → T ≤ now env → stamped_now env event →
  credited (now env) (onActivity event m env t).
Proof.
  intros Hc Hle Hwake.
  pose proof (credited_mono T (now env) t Hle Hc) as Hnow.
  unfold onActivity. destruct (negb (isRunning t)); [done|].
  assert (Hstamp : ∀ s, session_credit (now env) s →
            ∀ s', startTime s' = startTime s → endTime s' = endTime s →
                  totalTime s' = totalTime s → lastActiveTime s' = now env →
                  session_credit (now env) s').
  { intros s (H0 & H1 & H2) s' Hstart Hend Htotal Hlat. unfold session_credit.
    rewrite Hstart, Hend, Htotal, Hlat. split; [done|]. split; [lia|].
    intros Hopen. specialize (H2 Hopen). lia. }
  assert (Hkind : ∀ f : TimeSession → TimeSession,
    (∀ s, startTime (f s) = startTime s ∧ endTime (f s) = endTime s
          ∧ totalTime (f s) = totalTime s ∧ lastActiveTime (f s) = now env) →
    credited (now env)
      (if isPaused t then t
       else
         let t1 :=
           match currentSession t with
           | Some a => modifySession a f t
           | None => t
           end in
         if autoStart (config t1) && bool_decide (currentSession t1 = None)
         then startOrResumeSession env t1 else t1)).
  { intros f Hf. destruct (isPaused t); [done|]. cbv zeta.
    assert (H1 : credited (now env)
                   match currentSession t with
                   | Some a => modifySession a f t
                   | None => t
                   end).
    { destruct (currentSession t) as [a|]; [|done].
      apply credited_modifySession; [|done].
      intros s Hs. destruct (Hf s) as (? & ? & ? & ?). by apply (Hstamp s). }
    destruct (_ && _); [|done].
    apply (credited_startOrResumeSession (now env)); [done|lia]. }
  destruct (ev_type event) eqn:Hev.
  1-4: (lazymatch goal with
        | |- context [modifySession _ ?f _] => apply (Hkind f); intros s; by destruct s
        end).
  - destruct (currentSession t) as [a|]; [|done].
    destruct (negb (isPaused t)); [|done].
    destruct (autoEndSessionAfterIdle (config t));
      [by apply (credited_endCurrentSession T)|].
    eapply (credited_ext _ (modifySession a _ _) _); [done|].
    apply credited_modifySession; [|done]. intros s Hs. exact Hs.
  - destruct (currentSession t) as [a|].
    + destruct (isPaused t); [|done]. rewrite (Hwake Hev).
      apply credited_modifySession; [|by eapply (credited_ext _ t _)].
      intros s Hs. by apply (Hstamp s).
    + destruct (autoStart (config t)); [|done].
      by apply (credited_startOrResumeSession T).
Qed.

Lemma credited_deliver T env s e :
  credited T (tracker s) → T ≤ now env → stamped_now env e →
  credited (now env) (tracker (deliver env s e)).
Proof. intros. by apply (credited_onActivity T). Qed.

Lemma credited_dispatch T env s events :
  credited T (tracker s) → T ≤ now env → Forall (stamped_now env) events →
  credited (now env) (tracker (dispatch env s events)).
Proof.
  intros Hc Hle Hevents.
  apply (dispatch_preserves_on (credited (now env)) (stamped_now env)); [done|..].
  - intros d t. by apply credited_ext.
  - intros e s' He Hs'. apply (credited_deliver (now env)); [done|lia|done].
  - by eapply credited_mono.
Qed.

Lemma credited_handle T sig env s :
  credited T (tracker s) → T ≤ now env → credited (now env) (tracker (handle sig env s)).
Proof.
  intros Hc Hle.
  pose proof (credited_mono T (now env) _ Hle Hc) as Hnow.
  assert (Hsame : ∀ (f : TimeSession → TimeSession) a t,
            (∀ s0, startTime (f s0) = startTime s0 ∧ endTime (f s0) = endTime s0
                   ∧ totalTime (f s0) = totalTime s0
                   ∧ lastActiveTime (f s0) = lastActiveTime s0) →
            credited (now env) t → credited (now env) (modifySession a f t)).
  { intros f a t Hf Ht. apply credited_modifySession; [|done].
    intros s0 Hs. destruct (Hf s0) as (H1 & H2 & H3 & H4). unfold session_credit in *.
    by rewrite H1, H2, H3, H4. }
  destruct sig; cbn [handle].
  - destruct (isRunning (tracker s)); [|done]. by apply (credited_tick T).
  - by apply (credited_deliver T).
  - by apply (credited_deliver T).
  - apply (credited_dispatch T); [done|done|].
    unfold onWindowStateChange_events. destruct (Bool.eqb _ _); [constructor|].
    apply Forall_app. split; [|by repeat constructor; destruct focused].
    destruct (_ && _); [|constructor]. destruct (_ || _); by repeat constructor.
  - cbn [tracker]. apply (credited_dispatch T); [done|done|].
    unfold checkSleepWake_events. destruct (_ <? _); by repeat constructor.
  - cbn [tracker]. unfold pause. destruct (negb _); [done|]. cbv zeta.
    cbn [currentSession set_isPaused]. destruct (currentSession (tracker s)).
    + apply Hsame; [by intros []|by eapply (credited_ext _ (tracker s) _)].
    + by eapply (credited_ext _ (tracker s) _).
  - cbn [tracker]. unfold resume. destruct (negb _); [done|]. cbv zeta.
    cbn [currentSession set_isPaused]. destruct (currentSession (tracker s)).
    + apply Hsame; [by intros []|by eapply (credited_ext _ (tracker s) _)].
    + by eapply (credited_ext _ (tracker s) _).
  - cbn [tracker]. unfold stop. destruct (negb _); [done|].
    eapply (credited_ext _ (endCurrentSession None _ env (tracker s)) _); [done|].
    by apply (credited_endCurrentSession T).
  - cbn [tracker]. unfold reset. destruct (currentSession (tracker s)) as [a|]; [|done].
    destruct (heap (tracker s) !! a) as [current|]; [|done].
    eapply (credited_ext _ (tracker s) _); [|done].
    cbn. by destruct (projects (tracker s) !! projectPath current).
  - by eapply (credited_ext _ (tracker s) _).
Qed.

Lemma credited_run trace : ∀ T s,
  credited T (tracker s) → clock_ordered T trace →
  credited (clock_after T trace) (tracker (run trace s)).
Proof.
  induction trace as [|[sig env] trace IH]; intros T s Hc Hclock; [done|].
  cbn in Hclock. destruct Hclock as [Hle Hclock].
  change (credited (clock_after (now env) trace) (tracker (run trace (handle sig env s)))).
  apply IH; [by apply (credited_handle T)|done].
Qed.

Lemma credited_started cfg m ws disk env :
  empty_storage disk → credited (now env) (tracker (started cfg m ws disk env)).
Proof.
  intros Hempty. unfold started, start. cbn [tracker isRunning newTracker].
  rewrite load_empty_storage, adopt_default by done.
  eapply (credited_ext _ (if autoStart _ then _ else _) _); [done|].
  destruct (autoStart _); [|by intros a s].
  apply (credited_startOrResumeSession (now env)); [by intros a s|lia].
Qed.

(** X22: the time credited to a session lies between its start and the last
    instant it was credited at.  In every state reached from a start on empty
    storage along a run whose clock readings never go back, each session has
    a total time that is not negative and a [lastActiveTime] between its
    [startTime] and the clock, and while it has no end time its total time is
    at most [lastActiveTime - startTime].  What is assumed of the imported
    [safeTimeDifference] is that it yields at most the time between its two
    instants. *)
Theorem X22_credit_of_an_open_session (cfg : ExtensionConfig) (m : ActivityMonitor)
    (ws : Storage.Workspace) (disk : Storage.Disk) (env0 : Env)
    (trace : list (Signal * Env)) :
  empty_storage disk →
  clock_ordered (now env0) trace →
  ∀ a session,
    heap (tracker (run trace (started cfg m ws disk env0))) !! a = Some session →
    0 ≤ totalTime session
    ∧ startTime session ≤ lastActiveTime session ≤ clock_after (now env0) trace
    ∧ (endTime session = None →
       totalTime session ≤ lastActiveTime session - startTime session).
Proof.
  intros Hempty Hclock a session Hs.
  assert (Hc : credited (clock_after (now env0) trace)
                 (tracker (run trace (started cfg m ws disk env0))))
    by (apply credited_run; [by apply credited_started|done]).
  exact (Hc a session Hs).
Qed.

End Credit.

(** * Further properties of the tracker *)

(** ** What the operations leave alone *)

Lemma kept_refl t : kept t t.
Proof. by split. Qed.

Lemma kept_trans t1 t2 t3 : kept t1 t2 → kept t2 t3 → kept t1 t3.
Proof. intros [H1 H2] [H3 H4]. split; congruence. Qed.

Lemma kept_ext t t' :
  config t' = config t → isRunning t' = isRunning t → isPaused t' = isPaused t →
  totalTimeTracked t' = totalTimeTracked t → version t' = version t →
  workspacePath t' = workspacePath t → workspaceName t' = workspaceName t →
  kept t t'.
Proof. intros. unfold kept, settings, metadata. split; congruence. Qed.

Lemma kept_modifySession t t' a f : kept t t' → kept t (modifySession a f t').
Proof. intros H. eapply kept_trans; [exact H|]. by apply kept_ext. Qed.

Lemma kept_recalculateAt t t' path : kept t t' → kept t (recalculateAt path t').
Proof.
  intros H. eapply kept_trans; [exact H|]. unfold recalculateAt.
  destruct (projects t' !! path); by apply kept_ext.
Qed.

Lemma kept_addSessionToProject t t' a : kept t t' → kept t (addSessionToProject a t').
Proof.
  intros H. eapply kept_trans; [exact H|]. unfold addSessionToProject.
  destruct (heap t' !! a); by apply kept_ext.
Qed.

Lemma kept_set_heap t t' v : kept t t' → kept t (set_heap v t').
Proof. intros H. eapply kept_trans; [exact H|]. by apply kept_ext. Qed.

Lemma kept_set_projects t t' v : kept t t' → kept t (set_projects v t').
Proof. intros H. eapply kept_trans; [exact H|]. by apply kept_ext. Qed.

Lemma kept_set_currentSession t t' v : kept t t' → kept t (set_currentSession v t').
Proof. intros H. eapply kept_trans; [exact H|]. by apply kept_ext. Qed.

Lemma kept_set_lastSessionDay t t' v : kept t t' → kept t (set_lastSessionDay v t').
Proof. intros H. eapply kept_trans; [exact H|]. by apply kept_ext. Qed.

Lemma kept_set_data_lastActivity t t' v : kept t t' → kept t (set_data_lastActivity v t').
Proof. intros H. eapply kept_trans; [exact H|]. by apply kept_ext. Qed.

Lemma kept_if (b : bool) t t1 t2 : kept t t1 → kept t t2 → kept t (if b then t1 else t2).
Proof. by destruct b. Qed.

Create HintDb kept discriminated.

#[local] Hint Resolve kept_refl kept_modifySession kept_recalculateAt kept_addSessionToProject
  kept_set_heap kept_set_projects kept_set_currentSession kept_set_lastSessionDay
  kept_set_data_lastActivity kept_if : kept.

Lemma kept_startNewSession t t' newSession : kept t t' → kept t (startNewSession newSession t').
Proof. intros H. unfold startNewSession. cbv zeta. auto 10 with kept. Qed.

Lemma kept_trackSessionDay t t' : kept t t' → kept t (trackSessionDay t').
Proof. intros H. unfold trackSessionDay. repeat case_match; auto with kept. Qed.

#[local] Hint Resolve kept_startNewSession kept_trackSessionDay : kept.

Lemma kept_startOrResumeSession t t' env : kept t t' → kept t (startOrResumeSession env t').
Proof.
  intros H. unfold startOrResumeSession, resumeSession.
  repeat case_match; auto 10 with kept.
Qed.

Lemma kept_endCurrentSession t t' endTimeArg m env :
  kept t t' → kept t (endCurrentSession endTimeArg m env t').
Proof.
  intros H. unfold endCurrentSession. cbv zeta. repeat case_match; auto 10 with kept.
Qed.

#[local] Hint Resolve kept_startOrResumeSession kept_endCurrentSession : kept.

Lemma kept_splitSessionAtMidnight t t' m env :
  kept t t' → kept t (splitSessionAtMidnight m env t').
Proof.
  intros H. unfold splitSessionAtMidnight. cbv zeta. repeat case_match; auto 10 with kept.
Qed.

#[local] Hint Resolve kept_splitSessionAtMidnight : kept.

Lemma kept_checkAndHandleMidnightCrossing t t' m env :
  kept t t' → kept t (checkAndHandleMidnightCrossing m env t').
Proof.
  intros H. unfold checkAndHandleMidnightCrossing. cbv zeta.
  repeat case_match; auto 10 with kept.
Qed.

Lemma kept_checkAndHandleIdleSessionEnd t t' m env :
  kept t t' → kept t (checkAndHandleIdleSessionEnd m env t').
Proof.
  intros H. unfold checkAndHandleIdleSessionEnd. cbv zeta.
  repeat case_match; auto 10 with kept.
Qed.

Lemma kept_checkAndHandleProjectChange t t' m env :
  kept t t' → kept t (checkAndHandleProjectChange m env t').
Proof.
  intros H. unfold checkAndHandleProjectChange. cbv zeta.
  repeat case_match; auto 10 with kept.
Qed.

Lemma kept_updateCurrentSessionTime t t' m env :
  kept t t' → kept t (updateCurrentSessionTime m env t').
Proof.
  intros H. unfold updateCurrentSessionTime. cbv zeta.
  repeat case_match; auto 10 with kept.
Qed.

#[local] Hint Resolve kept_checkAndHandleMidnightCrossing kept_checkAndHandleIdleSessionEnd
  kept_checkAndHandleProjectChange kept_updateCurrentSessionTime : kept.

Lemma kept_tick t m env : kept t (tick m env t).
Proof. unfold tick. cbv zeta. auto 20 with kept. Qed.

Lemma kept_reset t : kept t (reset t).
Proof. unfold reset. cbv zeta. repeat case_match; auto 10 with kept. Qed.

Lemma kept_metadata t t' : kept t t' → metadata t' = metadata t.
Proof. by intros [_ H]. Qed.

Lemma kept_config t t' : kept t t' → config t' = config t.
Proof. intros [H _]. unfold settings in H. congruence. Qed.

Lemma kept_isRunning t t' : kept t t' → isRunning t' = isRunning t.
Proof. intros [H _]. unfold settings in H. congruence. Qed.

Lemma kept_isPaused t t' : kept t t' → isPaused t' = isPaused t.
Proof. intros [H _]. unfold settings in H. congruence. Qed.

(** Activity events, pause and resume change no setting but [isPaused]. *)
Lemma running_onActivity event m env t :
  config (onActivity event m env t) = config t
  ∧ isRunning (onActivity event m env t) = isRunning t
  ∧ metadata (onActivity event m env t) = metadata t.
Proof.
  assert (Hkept : ∀ t', kept t t' →
            config t' = config t ∧ isRunning t' = isRunning t ∧ metadata t' = metadata t).
  { intros t' H. by rewrite (kept_config _ _ H), (kept_isRunning _ _ H), (kept_metadata _ _ H). }
  unfold onActivity. destruct (negb (isRunning t)); [done|].
  destruct (ev_type event); cbv zeta;
    repeat case_match; try done;
    first [ apply Hkept; auto 10 with kept
          | apply (Hkept (modifySession _ _ t)); auto with kept
          | idtac ].
Qed.

Lemma metadata_handle sig env s :
  metadata (tracker (handle sig env s)) = metadata (tracker s).
Proof.
  assert (Hdeliver : ∀ s e, metadata (tracker (deliver env s e)) = metadata (tracker s)).
  { intros s' e. unfold deliver. cbn [tracker]. apply running_onActivity. }
  assert (Hall : ∀ events s,
            metadata (tracker (dispatch env s events)) = metadata (tracker s)).
  { intros events s'.
    apply (dispatch_preserves (λ t, metadata t = metadata (tracker s'))); [done| |done].
    intros e s'' <-. apply Hdeliver. }
  destruct sig; cbn [handle].
  - destruct (isRunning (tracker s)); [|done]. cbn [tracker].
    apply kept_metadata, kept_tick.
  - apply Hdeliver.
  - apply Hdeliver.
  - by rewrite Hall.
  - cbn [tracker]. by rewrite Hall.
  - cbn [tracker]. unfold pause. repeat case_match; done.
  - cbn [tracker]. unfold resume. repeat case_match; done.
  - cbn [tracker]. unfold stop. destruct (negb _); [done|].
    change (metadata (set_isPaused false (set_isRunning false ?x))) with (metadata x).
    apply kept_metadata. auto with kept.
  - cbn [tracker]. apply kept_metadata, kept_reset.
  - done.
Qed.

Lemma metadata_run trace s : metadata (tracker (run trace s)) = metadata (tracker s).
Proof.
  revert s. induction trace as [|step trace IH]; intros s; [done|].
  unfold run in *. cbn [foldl]. by rewrite IH, metadata_handle.
Qed.

Lemma started_on_empty_storage cfg m ws disk env :
  empty_storage disk →
  metadata (tracker (started cfg m ws disk env))
  = (0, Storage.DATA_VERSION, fst <$> ws, snd <$> ws).
Proof.
  intros Hempty. unfold started, start. cbn [tracker isRunning newTracker].
  rewrite load_empty_storage, adopt_default by done.
  change (metadata (set_isPaused false (set_isRunning true ?x))) with (metadata x).
  destruct (autoStart _); [|done].
  etrans; [apply kept_metadata, kept_startOrResumeSession, kept_refl|done].
Qed.

(** X15: no handler of the tracker writes [totalTimeTracked], [version],
    [workspacePath] or [workspaceName]: after any run they are what they were
    before it, so [exportData] exports the [totalTimeTracked] the run began
    with, and a tracker started on empty storage exports 0 whatever it has
    tracked. *)
Theorem X15_metadata_is_never_written (trace : list (Signal * Env)) (s : System) (env : Env) :
  metadata (tracker (run trace s)) = metadata (tracker s)
  ∧ export_totalTimeTracked (exportData env (tracker (run trace s)))
    = totalTimeTracked (tracker s)
  ∧ ∀ cfg m ws disk env0,
      empty_storage disk →
      export_totalTimeTracked
        (exportData env (tracker (run trace (started cfg m ws disk env0)))) = 0.
Proof.
  assert (Htotal : ∀ s', totalTimeTracked (tracker (run trace s'))
                         = totalTimeTracked (tracker s')).
  { intros s'. pose proof (metadata_run trace s') as H. unfold metadata in H. congruence. }
  split; [apply metadata_run|]. split; [apply Htotal|].
  intros cfg m ws disk env0 Hempty. cbn [exportData export_totalTimeTracked].
  rewrite Htotal.
  pose proof (started_on_empty_storage cfg m ws disk env0 Hempty) as H.
  unfold metadata in H. congruence.
Qed.

(** ** Paused trackers *)

Lemma tick_not_tracking m env t :
  tracking t = false →
  tick m env t
  = if autoStart (config t) && bool_decide (currentSession t = None) && negb (isPaused t)
    then (if monitorIsActive (config t) m (now env) then startOrResumeSession env t else t)
    else t.
Proof.
  intros Htrack. unfold tick. cbv zeta.
  repeat (first [rewrite Htrack | rewrite andb_false_r]; cbv iota). reflexivity.
Qed.

Lemma tick_paused m env t : isPaused t = true → tick m env t = t.
Proof.
  intros Hpaused. rewrite tick_not_tracking.
  - by rewrite Hpaused, andb_false_r.
  - unfold tracking. by rewrite Hpaused, andb_false_r.
Qed.

Lemma onActivity_paused event m env t :
  isPaused t = true →
  ev_type event ≠ sleep → ev_type event ≠ wake →
  onActivity event m env t = t.
Proof.
  intros Hpaused Hsleep Hwake. unfold onActivity.
  destruct (negb (isRunning t)); [done|].
  destruct (ev_type event); try done; by rewrite Hpaused.
Qed.

(** X16: while the tracker is paused, a tick, an edit, a cursor movement or
    the window losing focus changes nothing in the tracker: no time is
    credited, no counter moves and no session is started or ended. *)
Theorem X16_paused_tracker_is_frozen (sig : Signal) (env : Env) (s : System) :
  isPaused (tracker s) = true →
  ordinary sig →
  tracker (handle sig env s) = tracker s.
Proof.
  intros Hpaused [-> | [-> | [-> | ->]]]; cbn [handle].
  - destruct (isRunning (tracker s)); [|done]. cbn [tracker]. by apply tick_paused.
  - unfold deliver. cbn [tracker]. by apply onActivity_paused.
  - unfold deliver. cbn [tracker]. by apply onActivity_paused.
  - rewrite dispatch_window. unfold onWindowStateChange_events. cbv zeta.
    destruct (isWindowFocused (monitor s)); cbn; [|done].
    by apply onActivity_paused.
Qed.

Lemma onActivity_focus_running n m env t a :
  isRunning t = true → isPaused t = false → currentSession t = Some a →
  onActivity (mkEvent window_focus n) m env t
  = modifySession a (λ s, set_lastActivity (now env) (set_lastActiveTime (now env) s)) t.
Proof.
  intros Hr Hp Hc. unfold onActivity. rewrite Hr, Hp, Hc. cbn [negb ev_type]. cbv zeta.
  cbn [currentSession modifySession set_heap config].
  rewrite Hc, bool_decide_eq_false_2 by done. by rewrite andb_false_r.
Qed.

(** X17: a wake event ends a pause the user asked for.  When the tracker is
    running, paused and has a current session, a heartbeat check that finds a
    gap of more than 30 s, or the window regaining focus after more than
    30 s, leaves the tracker unpaused with the same session current and
    active, its [lastActiveTime] set to the present. *)
Theorem X17_wake_ends_a_pause (sig : Signal) (env : Env) (s : System) (a : nat)
    (session : TimeSession) :
  isRunning (tracker s) = true →
  isPaused (tracker s) = true →
  currentSession (tracker s) = Some a →
  heap (tracker s) !! a = Some session →
  wakes sig env (monitor s) →
  let t' := tracker (handle sig env s) in
  isPaused t' = false
  ∧ currentSession t' = Some a
  ∧ ∃ session', heap t' !! a = Some session'
                ∧ isActive session' = true
                ∧ lastActiveTime session' = now env
                ∧ totalTime session' = totalTime session.
Proof.
  intros Hrun Hpaused Hcur Hs Hwakes. cbv zeta.
  assert (Hwake : ∀ m,
    let t1 := onActivity (mkEvent wake (now env)) m env (tracker s) in
    isRunning t1 = true ∧ isPaused t1 = false ∧ config t1 = config (tracker s)
    ∧ currentSession t1 = Some a
    ∧ heap t1 !! a = Some (set_lastActiveTime (now env)
                             (set_lastActivity (now env) (set_isActive true session)))).
  { intros m. cbv zeta. unfold onActivity. rewrite Hrun. cbn [negb ev_type timestamp].
    rewrite Hcur, Hpaused. repeat split; try done.
    rewrite lookup_modifySession. cbn. by rewrite Hs. }
  destruct Hwakes as [[-> Hgap] | (-> & Hblur & Hgap)]; cbn [handle].
  - unfold checkSleepWake_events. cbv zeta.
    destruct (Z.ltb_spec SLEEP_THRESHOLD (now env - lastHeartbeat (monitor s))); [|lia].
    rewrite dispatch_sleep_wake. cbv zeta.
    assert (Hwrite : awaitsSave (mkEvent sleep (lastHeartbeat (monitor s) + HEARTBEAT_INTERVAL))
                       (tracker s) = false).
    { unfold awaitsSave, tracking. cbn [ev_type]. rewrite Hpaused. cbn [negb].
      by rewrite andb_false_r, andb_false_r. }
    rewrite Hwrite. cbn [tracker]. unfold deliver. cbn [tracker monitor].
    assert (Hsleep : ∀ m e, ev_type e = sleep → onActivity e m env (tracker s) = tracker s).
    { intros m e He. unfold onActivity. rewrite Hrun, He, Hcur, Hpaused. done. }
    rewrite !Hsleep by done.
    destruct (Hwake (recordActivity (mkEvent wake (now env))
                       (recordActivity (mkEvent sleep (lastHeartbeat (monitor s)
                                                       + HEARTBEAT_INTERVAL))
                          (monitor s)))) as (_ & Hp & _ & Hc & Hh).
    split; [done|]. split; [done|]. eexists. split; [exact Hh|]. done.
  - rewrite dispatch_window.
    unfold onWindowStateChange_events. cbv zeta. rewrite Hblur. cbn [Bool.eqb andb negb].
    assert (Hlong : (SLEEP_THRESHOLD <? now env - mon_lastActivity (monitor s))
                    || (SLEEP_THRESHOLD <? now env - lastHeartbeat (monitor s)) = true).
    { apply orb_true_iff. destruct Hgap; [left|right]; by apply Z.ltb_lt. }
    rewrite Hlong. cbn [app foldl]. unfold deliver. cbn [tracker monitor].
    match goal with
    | |- context [onActivity (mkEvent wake (now env)) ?m1 env (tracker s)] =>
      destruct (Hwake m1) as (Hr & Hp & Hcfg & Hc & Hh);
      set (t1 := onActivity (mkEvent wake (now env)) m1 env (tracker s)) in *
    end.
    clearbody t1. rewrite (onActivity_focus_running _ _ _ _ a Hr Hp Hc).
    split; [done|]. split; [done|].
    rewrite lookup_modifySession, Hh. eexists. split; [done|]. done.
Qed.

(** ** What a tick establishes *)

Lemma current_satisfies_None (P : TimeSession → Prop) t :
  currentSession t = None → current_satisfies P t.
Proof. intros Hnone a s Ha. congruence. Qed.

Lemma current_satisfies_if (P : TimeSession → Prop) (b : bool) t t' :
  current_satisfies P t → current_satisfies P t' → current_satisfies P (if b then t' else t).
Proof. by destruct b. Qed.

Lemma current_satisfies_new (P : TimeSession → Prop) newSession t :
  P newSession → current_satisfies P (trackSessionDay (startNewSession newSession t)).
Proof.
  intros HP a s. rewrite currentSession_trackSessionDay, heap_trackSessionDay.
  destruct (startNewSession_lookup newSession t) as (-> & -> & _).
  intros [= <-]. rewrite lookup_app_r, Nat.sub_diag by done. by intros [= <-].
Qed.

(** The session that [startOrResumeSession] makes current was last active at
    the present moment, whether it is new or resumed. *)
Lemma startOrResumeSession_active env t :
  currentSession t = None →
  current_satisfies (λ s, lastActiveTime s = now env) (startOrResumeSession env t).
Proof.
  intros Hnone. unfold startOrResumeSession.
  destruct (currentProject env) as [[name path]|]; [|by apply current_satisfies_None].
  assert (Hnew : current_satisfies (λ s, lastActiveTime s = now env)
                   (trackSessionDay (startNewSession (newSessionFor name path env (length (heap t))) t)))
    by by apply current_satisfies_new.
  destruct (findRecentSession path t) as [[b existing]|]; [|done].
  destruct (shouldResumeSession (now env) existing); [|done].
  intros a s. rewrite currentSession_trackSessionDay, heap_trackSessionDay.
  unfold resumeSession. cbn [currentSession set_currentSession heap].
  intros [= <-]. rewrite lookup_modifySession.
  destruct (heap t !! b); [|done]. by intros [= <-].
Qed.

(** *** Sessions filed under their own project *)

Lemma structure_filed t : structure t → filed t.
Proof.
  intros [_ H2 _ H4]. split; [|done].
  intros a Ha. destruct (H4 a Ha) as (s & Hs & _). by eexists.
Qed.

Lemma filed_ext t t' :
  heap t' = heap t → projects t' = projects t → currentSession t' = currentSession t →
  filed t → filed t'.
Proof.
  intros Hh Hp Hc [H1 H2].
  assert (Hl : ∀ path, listedAt path t' = listedAt path t)
    by (intros; unfold listedAt; by rewrite Hp).
  split.
  - intros a. rewrite Hh, Hc. apply H1.
  - intros path b. rewrite Hl, Hh. apply H2.
Qed.

Lemma filed_modifySession a f t :
  (∀ s, projectPath (f s) = projectPath s ∧ (endTime (f s) = None → endTime s = None)) →
  filed t → filed (modifySession a f t).
Proof.
  intros Hf [H1 H2]. split.
  - intros b Hb. cbn [currentSession modifySession set_heap] in Hb.
    destruct (H1 b Hb) as [s Hs]. destruct (decide (a = b)) as [<-|Hne].
    + exists (f s). by rewrite lookup_modifySession, Hs.
    + exists s. by rewrite lookup_modifySession_ne.
  - intros path b Hb. destruct (H2 path b Hb) as (s & Hs & Hpath).
    destruct (decide (a = b)) as [<-|Hne].
    + exists (f s). rewrite lookup_modifySession, Hs. split; [done|].
      destruct (Hf s) as [-> Hopen]. intros He. by apply Hpath, Hopen.
    + exists s. by rewrite lookup_modifySession_ne.
Qed.

Lemma filed_recalculateAt path t : filed t → filed (recalculateAt path t).
Proof.
  intros [H1 H2]. split.
  - intros a. rewrite currentSession_recalculateAt, heap_recalculateAt. apply H1.
  - intros path' b. rewrite listedAt_recalculateAt, heap_recalculateAt. apply H2.
Qed.

Lemma filed_no_current t : filed t → filed (set_currentSession None t).
Proof. intros [H1 H2]. split; [intros a Ha; done|done]. Qed.

Lemma filed_startNewSession newSession t :
  filed t → filed (startNewSession newSession t).
Proof.
  intros [H1 H2].
  destruct (startNewSession_lookup newSession t) as (Hheap & Hcur & _).
  split.
  - intros a. rewrite Hcur, Hheap. intros [= <-]. exists newSession.
    by rewrite lookup_app_r, Nat.sub_diag.
  - intros path b. rewrite listedAt_startNewSession, Hheap.
    assert (Hold : b ∈ listedAt path t →
              ∃ s, (heap t ++ [newSession]) !! b = Some s
                   ∧ (endTime s = None → projectPath s = path)).
    { intros Hb. destruct (H2 _ b Hb) as (s & Hs & Hp). exists s. split; [|done].
      by apply lookup_app_l_Some. }
    destruct (decide (path = projectPath newSession)) as [->|Hne]; [|done].
    intros [Hb| ->%list_elem_of_singleton]%elem_of_app; [by apply Hold|].
    exists newSession. split; [|done]. by rewrite lookup_app_r, Nat.sub_diag.
Qed.

Lemma filed_endCurrentSession endTimeArg m env t :
  filed t →
  filed (endCurrentSession endTimeArg m env t)
  ∧ currentSession (endCurrentSession endTimeArg m env t) = None.
Proof.
  intros Hf. unfold endCurrentSession.
  destruct (currentSession t) as [a|] eqn:Hcur; [|done].
  destruct (proj1 Hf a Hcur) as [session Hs]. rewrite Hs. cbv zeta. split; [|done].
  eapply (filed_ext (set_currentSession None _) _); [done..|].
  apply filed_no_current, filed_recalculateAt.
  assert (H1 : filed (modifySession a
                        (λ s, set_isActive false
                                (set_endTime
                                   (Some (default (default (now env) (endTime session))
                                            endTimeArg)) s)) t))
    by (by apply filed_modifySession).
  destruct (monitorIsActive _ _ _); [|done]. destruct (0 <? _); [|done].
  by apply filed_modifySession.
Qed.

Lemma filed_trackSessionDay t : filed t → filed (trackSessionDay t).
Proof.
  apply filed_ext.
  - apply heap_trackSessionDay.
  - apply projects_trackSessionDay.
  - apply currentSession_trackSessionDay.
Qed.

(** The session [startOrResumeSession] makes current belongs to the project
    that is open. *)
Lemma startOrResumeSession_project env t :
  filed t →
  filed (startOrResumeSession env t)
  ∧ (currentSession t = None →
     current_satisfies (λ s, ∃ name, currentProject env = Some (name, projectPath s))
       (startOrResumeSession env t)).
Proof.
  intros Hf. unfold startOrResumeSession.
  destruct (currentProject env) as [[name path]|] eqn:Hproj;
    [|split; [done|intros Hnone; by apply current_satisfies_None]].
  cut (filed (trackSessionDay
                match findRecentSession path t with
                | Some (a, existingSession) =>
                  if shouldResumeSession (now env) existingSession
                  then resumeSession a env t
                  else startNewSession (newSessionFor name path env (length (heap t))) t
                | None => startNewSession (newSessionFor name path env (length (heap t))) t
                end)
       ∧ current_satisfies (λ s, ∃ name0, Some (name, path) = Some (name0, projectPath s))
           (trackSessionDay
              match findRecentSession path t with
              | Some (a, existingSession) =>
                if shouldResumeSession (now env) existingSession
                then resumeSession a env t
                else startNewSession (newSessionFor name path env (length (heap t))) t
              | None => startNewSession (newSessionFor name path env (length (heap t))) t
              end)); [intros [? ?]; by split|].
  assert (Hnew : ∀ n,
    filed (trackSessionDay (startNewSession (newSessionFor name path env n) t))
    ∧ current_satisfies (λ s, ∃ name0, Some (name, path) = Some (name0, projectPath s))
        (trackSessionDay (startNewSession (newSessionFor name path env n) t))).
  { intros n. split; [by apply filed_trackSessionDay, filed_startNewSession|].
    apply current_satisfies_new. by exists name. }
  destruct (findRecentSession path t) as [[a existing]|] eqn:Hfind; [|apply Hnew].
  destruct (shouldResumeSession (now env) existing); [|apply Hnew].
  destruct (findRecentSession_Some _ _ _ _ Hfind) as (ps & Hps & Ha & Hs & Hopen & _).
  assert (Hin : a ∈ listedAt path t) by (unfold listedAt; by rewrite Hps).
  destruct (proj2 Hf path a Hin) as (s & Hs' & Hpath).
  assert (s = existing) as -> by congruence. specialize (Hpath Hopen).
  assert (Hmod : filed (modifySession a
                   (λ s, set_lastActiveTime (now env)
                           (set_lastActivity (now env) (set_isActive true s))) t))
    by (by apply filed_modifySession).
  split.
  - apply filed_trackSessionDay. unfold resumeSession. destruct Hmod as [_ H2].
    split; [|done]. cbn [currentSession set_currentSession heap]. intros b [= <-].
    rewrite lookup_modifySession, Hs. by eexists.
  - intros b sb. rewrite currentSession_trackSessionDay, heap_trackSessionDay.
    unfold resumeSession. cbn [currentSession set_currentSession heap].
    intros [= <-]. rewrite lookup_modifySession, Hs. intros [= <-]. cbn.
    exists name. by rewrite Hpath.
Qed.

Lemma current_satisfies_endCurrentSession (P : TimeSession → Prop) endTimeArg m env t :
  current_satisfies P t → current_satisfies P (endCurrentSession endTimeArg m env t).
Proof.
  intros HP. destruct (currentSession t) as [a|] eqn:Hcur.
  - destruct (heap t !! a) as [s|] eqn:Hs.
    + apply current_satisfies_None.
      by apply (currentSession_endCurrentSession endTimeArg m env t a).
    + unfold endCurrentSession. by rewrite Hcur, Hs.
  - by rewrite endCurrentSession_None.
Qed.

Lemma current_satisfies_checkAndHandleIdleSessionEnd (P : TimeSession → Prop) m env t :
  current_satisfies P t → current_satisfies P (checkAndHandleIdleSessionEnd m env t).
Proof.
  intros HP. unfold checkAndHandleIdleSessionEnd. repeat case_match; try done.
  by apply current_satisfies_endCurrentSession.
Qed.

Lemma current_satisfies_updateCurrentSessionTime (P : TimeSession → Prop) m env t :
  current_satisfies P t →
  (∀ s total, P s →
     P (set_lastActivity (now env) (set_lastActiveTime (now env) (set_totalTime total s)))) →
  current_satisfies P (updateCurrentSessionTime m env t).
Proof.
  intros HP Hmod. unfold updateCurrentSessionTime.
  destruct (currentSession t) as [a|] eqn:Hcur; [|done].
  destruct (heap t !! a) as [s|] eqn:Hs; [|done].
  destruct (monitorIsActive _ _ _); [|done]. cbv zeta.
  set (t1 := if 0 <? _ then _ else t).
  assert (H1 : currentSession t1 = Some a
               ∧ ∃ total, heap t1 !! a = Some (set_totalTime total s)).
  { subst t1. destruct (0 <? _).
    - split; [done|]. eexists. by rewrite lookup_modifySession, Hs.
    - split; [done|]. exists (totalTime s). rewrite Hs. by destruct s. }
  destruct H1 as [Hc1 [total Hh1]]. clearbody t1.
  intros b s'. cbn [currentSession heap set_data_lastActivity modifySession set_heap].
  rewrite Hc1. intros [= <-]. rewrite list_lookup_alter_eq, Hh1. cbn. intros [= <-].
  apply Hmod. by eapply HP.
Qed.

(** The last step of a tick: auto-start when there is no session. *)
Lemma current_satisfies_autoStart (P : TimeSession → Prop) (b : bool) env t :
  current_satisfies P t →
  (currentSession t = None → current_satisfies P (startOrResumeSession env t)) →
  current_satisfies P
    (if autoStart (config t) && bool_decide (currentSession t = None) && negb (isPaused t)
     then (if b then startOrResumeSession env t else t)
     else t).
Proof.
  intros HP Hstart. destruct (autoStart _); cbn [andb]; [|done].
  case_bool_decide as Hnone; cbn [andb]; [|done].
  destruct (negb _); [|done]. destruct b; [|done]. by apply Hstart.
Qed.

(** X18: with automatic ending of idle sessions enabled and the tracker not
    paused, a tick never leaves an idle session current: the session that is
    current after the tick, if any, was last active no longer ago than
    [autoEndIdleThreshold] minutes. *)
Theorem X18_tick_leaves_no_idle_session (m : ActivityMonitor) (env : Env) (t : TimeTracker) :
  autoEndSessionAfterIdle (config t) = true →
  isPaused t = false →
  0 ≤ autoEndIdleThreshold (config t) →
  current_satisfies
    (λ s, now env - lastActiveTime s ≤ autoEndIdleThreshold (config t) * 60 * 1000)
    (tick m env t).
Proof.
  intros Hauto Hpaused Hthr. unfold tick. cbv zeta.
  set (t1 := if tracking t then checkAndHandleMidnightCrossing m env t else t).
  set (t2 := if autoEndSessionOnProjectChange (config t1) && tracking t1
             then checkAndHandleProjectChange m env t1 else t1).
  set (t3 := if autoEndSessionAfterIdle (config t2) && tracking t2
             then checkAndHandleIdleSessionEnd m env t2 else t2).
  set (t4 := if tracking t3 then updateCurrentSessionTime m env t3 else t3).
  set (P := λ s, now env - lastActiveTime s ≤ autoEndIdleThreshold (config t) * 60 * 1000).
  assert (K2 : kept t t2) by (subst t2 t1; auto 10 with kept).
  assert (H3 : current_satisfies P t3).
  { subst t3. rewrite (kept_config _ _ K2), Hauto. cbn [andb].
    unfold tracking. rewrite (kept_isPaused _ _ K2), Hpaused, andb_true_r.
    case_bool_decide as Hcur.
    - destruct Hcur as [a Hcur]. unfold checkAndHandleIdleSessionEnd. rewrite Hcur.
      destruct (heap t2 !! a) as [session|] eqn:Hs; [|intros b s; congruence].
      cbv zeta. rewrite (kept_config _ _ K2).
      destruct (Z.ltb_spec (autoEndIdleThreshold (config t) * 60 * 1000)
                  (now env - lastActiveTime session)).
      + apply current_satisfies_None.
        by apply (currentSession_endCurrentSession None m env t2 a).
      + intros b s Hb Hsb. assert (s = session) as -> by congruence. done.
    - apply current_satisfies_None. by destruct (currentSession t2); [destruct Hcur|]. }
  assert (H4 : current_satisfies P t4).
  { subst t4. apply current_satisfies_if; [done|].
    apply current_satisfies_updateCurrentSessionTime; [done|].
    intros s total _. unfold P. cbn. lia. }
  apply current_satisfies_autoStart; [done|]. intros Hnone.
  intros a s Ha Hs. unfold P.
  rewrite (startOrResumeSession_active env t4 Hnone a s Ha Hs). lia.
Qed.

(** What [start()] adopts from a file the tracker wrote. *)
Lemma filed_adopt data t : filed_data data → filed (adopt data t).
Proof.
  intros Hdata.
  assert (Hfold : ∀ (entries : list (string * Storage.ProjectStats))
                    (acc : list TimeSession * gmap string ProjectStats),
    Forall (λ entry, Forall (λ s, endTime s = None → projectPath s = entry.1)
                       (Storage.sessions entry.2)) entries →
    (∀ path ps b, acc.2 !! path = Some ps → b ∈ sessions ps →
                  ∃ s, acc.1 !! b = Some s ∧ (endTime s = None → projectPath s = path)) →
    let listed := foldl adoptProject acc entries in
    ∀ path ps b, listed.2 !! path = Some ps → b ∈ sessions ps →
                 ∃ s, listed.1 !! b = Some s ∧ (endTime s = None → projectPath s = path)).
  { induction entries as [|[key value] entries IH]; intros acc Hentries Hacc; [done|].
    apply Forall_cons in Hentries as [Hvalue Hentries]. cbn [foldl].
    apply IH; [done|]. intros path ps b. cbn.
    destruct (decide (key = path)) as [->|Hne].
    - rewrite lookup_insert_eq. intros [= <-]. cbn. intros Hb%elem_of_seq.
      destruct (lookup_lt_is_Some_2 (Storage.sessions value) (b - length acc.1))
        as [s Hs]; [lia|].
      exists s. split.
      + rewrite lookup_app_r by lia. done.
      + by apply (Forall_lookup_1 _ _ _ _ Hvalue Hs).
    - rewrite lookup_insert_ne by done. intros Hps Hb.
      destruct (Hacc path ps b Hps Hb) as (s & Hs & Hpath).
      exists s. split; [by apply lookup_app_l_Some|done]. }
  specialize (Hfold (map_to_list (Storage.projects data)) ([], ∅)).
  cbv zeta in Hfold.
  assert (Hlisted := Hfold
    ltac:(apply Forall_forall; intros [key value] Hentry%elem_of_map_to_list;
          by apply (Hdata key value))
    ltac:(intros path ps b; cbn; by rewrite lookup_empty)).
  clear Hfold. unfold adopt. cbv zeta.
  set (listed := foldl adoptProject ([], ∅) (map_to_list (Storage.projects data))) in *.
  split.
  - intros a. cbn [currentSession heap].
    destruct (Storage.currentSession data) as [current|]; [|done].
    intros [= <-]. exists current. by rewrite lookup_app_r, Nat.sub_diag.
  - intros path b. unfold listedAt. cbn [projects heap].
    destruct (listed.2 !! path) as [ps|] eqn:Hps; [|by intros ?%elem_of_nil].
    intros Hb. destruct (Hlisted path ps b Hps Hb) as (s & Hs & Hpath).
    exists s. split; [|done].
    destruct (Storage.currentSession data); [by apply lookup_app_l_Some|done].
Qed.

Lemma filed_start ws disk env t :
  filed_data (Storage.load ws (now env) disk) → filed t → filed (start ws disk env t).
Proof.
  intros Hdata Hf. unfold start. destruct (isRunning t); [done|]. cbv zeta.
  eapply (filed_ext (if autoStart _ then _ else _) _); [done..|].
  pose proof (filed_adopt _ t Hdata) as Hadopt.
  destruct (autoStart _); [|done]. by apply startOrResumeSession_project.
Qed.

Lemma filed_splitSessionAtMidnight m env t :
  filed t → filed (splitSessionAtMidnight m env t).
Proof.
  intros Hf. unfold splitSessionAtMidnight.
  destruct (currentSession t) as [a|] eqn:Hcur; [|done].
  destruct (heap t !! a) as [current|] eqn:Hs; [|done]. cbv zeta.
  apply filed_startNewSession, filed_recalculateAt.
  assert (H1 : filed (modifySession a
                        (λ s, set_isActive false
                                (set_endTime (Some (setHours0 tz (now env) - 1)) s)) t))
    by (by apply filed_modifySession).
  destruct (_ && _); [|done]. by apply filed_modifySession.
Qed.

Lemma filed_checkAndHandleMidnightCrossing m env t :
  filed t → filed (checkAndHandleMidnightCrossing m env t).
Proof.
  intros Hf. unfold checkAndHandleMidnightCrossing.
  destruct (currentSession t); [|done]. destruct (lastSessionDay t); [|done].
  destruct (decide _); [|done].
  eapply (filed_ext (splitSessionAtMidnight m env t) _); [done..|].
  by apply filed_splitSessionAtMidnight.
Qed.

Lemma project_checkAndHandleProjectChange m env t :
  filed t →
  filed (checkAndHandleProjectChange m env t)
  ∧ current_satisfies (λ s, ∃ name, currentProject env = Some (name, projectPath s))
      (checkAndHandleProjectChange m env t).
Proof.
  intros Hf. unfold checkAndHandleProjectChange.
  destruct (currentSession t) as [a|] eqn:Hcur;
    [|split; [done|by apply current_satisfies_None]].
  destruct (heap t !! a) as [session|] eqn:Hs;
    [|split; [done|intros b s; congruence]].
  destruct (filed_endCurrentSession None m env t Hf) as [Hf' Hnone].
  destruct (currentProject env) as [[name path]|] eqn:Hproj;
    [|split; [done|by apply current_satisfies_None]].
  destruct (decide (projectPath session ≠ path)) as [Hne|Heq].
  - rewrite <- Hproj. destruct (startOrResumeSession_project env _ Hf') as [? HQ].
    split; [done|by apply HQ].
  - split; [done|]. intros b s Hb Hsb. assert (s = session) as -> by congruence.
    exists name. destruct (decide (projectPath session = path)) as [->|]; done.
Qed.

Lemma filed_checkAndHandleIdleSessionEnd m env t :
  filed t → filed (checkAndHandleIdleSessionEnd m env t).
Proof.
  intros Hf. unfold checkAndHandleIdleSessionEnd.
  destruct (currentSession t) as [a|]; [|done]. destruct (heap t !! a); [|done].
  destruct (_ <? _); [|done]. by apply filed_endCurrentSession.
Qed.

Lemma filed_updateCurrentSessionTime m env t :
  filed t → filed (updateCurrentSessionTime m env t).
Proof.
  intros Hf. unfold updateCurrentSessionTime.
  destruct (currentSession t) as [a|]; [|done]. destruct (heap t !! a); [|done].
  destruct (monitorIsActive _ _ _); [|done]. cbv zeta.
  eapply (filed_ext (modifySession a _ _) _); [done..|].
  apply filed_modifySession; [done|].
  destruct (0 <? _); [|done]. by apply filed_modifySession.
Qed.

Lemma filed_if (b : bool) (t t' : TimeTracker) :
  filed t → (filed t → filed t') → filed (if b then t' else t).
Proof. destruct b; eauto. Qed.

(** X19: with automatic ending on project change enabled and the tracker not
    paused, time is credited to the project that is open.  In a tracker whose
    references lead to sessions and whose sessions without end time are each
    listed under the path of their own project, the session that is current
    after a tick, if any, belongs to the project the host reports, and when
    the host reports no project there is no current session. *)
Theorem X19_tick_follows_the_open_project (m : ActivityMonitor) (env : Env)
    (t : TimeTracker) :
  filed t →
  autoEndSessionOnProjectChange (config t) = true →
  isPaused t = false →
  current_satisfies (λ s, ∃ name, currentProject env = Some (name, projectPath s))
    (tick m env t)
  ∧ (currentProject env = None → currentSession (tick m env t) = None).
Proof.
  intros Hf Hauto Hpaused.
  set (Q := λ s, ∃ name, currentProject env = Some (name, projectPath s)).
  assert (Htick : current_satisfies Q (tick m env t) ∧ filed (tick m env t)).
  { unfold tick. cbv zeta.
    set (t1 := if tracking t then checkAndHandleMidnightCrossing m env t else t).
    set (t2 := if autoEndSessionOnProjectChange (config t1) && tracking t1
               then checkAndHandleProjectChange m env t1 else t1).
    set (t3 := if autoEndSessionAfterIdle (config t2) && tracking t2
               then checkAndHandleIdleSessionEnd m env t2 else t2).
    set (t4 := if tracking t3 then updateCurrentSessionTime m env t3 else t3).
    assert (K1 : kept t t1) by (subst t1; auto 10 with kept).
    assert (F1 : filed t1)
      by (subst t1; apply filed_if; [done|apply filed_checkAndHandleMidnightCrossing]).
    assert (F2 : filed t2)
      by (subst t2; apply filed_if; [done|intros F; by apply project_checkAndHandleProjectChange]).
    assert (F3 : filed t3)
      by (subst t3; apply filed_if; [done|apply filed_checkAndHandleIdleSessionEnd]).
    assert (F4 : filed t4)
      by (subst t4; apply filed_if; [done|apply filed_updateCurrentSessionTime]).
    assert (H2 : current_satisfies Q t2).
    { subst t2. rewrite (kept_config _ _ K1), Hauto. cbn [andb].
      unfold tracking. rewrite (kept_isPaused _ _ K1), Hpaused, andb_true_r.
      case_bool_decide as Hcur; [by apply project_checkAndHandleProjectChange|].
      apply current_satisfies_None. by destruct (currentSession t1); [destruct Hcur|]. }
    assert (H3 : current_satisfies Q t3).
    { subst t3. apply current_satisfies_if; [done|].
      by apply current_satisfies_checkAndHandleIdleSessionEnd. }
    assert (H4 : current_satisfies Q t4).
    { subst t4. apply current_satisfies_if; [done|].
      apply current_satisfies_updateCurrentSessionTime; [done|].
      intros s total HQ. exact HQ. }
    destruct (autoStart _); cbn [andb]; [|done].
    case_bool_decide as Hnone; cbn [andb]; [|done].
    destruct (negb _); [|done]. destruct (monitorIsActive _ _ _); [|done].
    destruct (startOrResumeSession_project env t4 F4) as [? HQ4]. split; [by apply HQ4|done]. }
  destruct Htick as [HQ Hf']. split; [exact HQ|].
  intros Hnoproject. destruct (currentSession (tick m env t)) as [a|] eqn:Hcur; [|done].
  destruct (proj1 Hf' a Hcur) as [s Hs].
  destruct (HQ a s Hcur Hs) as [name Hname]. congruence.
Qed.

(** ** Stopping *)

Lemma isRunning_deliver_all env events s :
  isRunning (tracker (dispatch env s events)) = isRunning (tracker s).
Proof.
  apply (dispatch_preserves (λ t, isRunning t = isRunning (tracker s))); [done| |done].
  intros e s' <-. unfold deliver. cbn [tracker]. apply running_onActivity.
Qed.

Lemma isRunning_deliver env e s :
  isRunning (tracker (deliver env s e)) = isRunning (tracker s).
Proof. unfold deliver. cbn [tracker]. apply running_onActivity. Qed.

Lemma isRunning_handle sig env s :
  sig ≠ Stop → isRunning (tracker (handle sig env s)) = isRunning (tracker s).
Proof.
  intros Hsig. destruct sig; cbn [handle]; try done.
  - destruct (isRunning (tracker s)) eqn:Hrun; [|done]. cbn [tracker].
    rewrite <- Hrun. apply kept_isRunning, kept_tick.
  - apply isRunning_deliver.
  - apply isRunning_deliver.
  - by rewrite isRunning_deliver_all.
  - cbn [tracker]. by rewrite isRunning_deliver_all.
  - cbn [tracker]. unfold pause. repeat case_match; done.
  - cbn [tracker]. unfold resume. repeat case_match; done.
  - cbn [tracker]. apply kept_isRunning, kept_reset.
Qed.

Lemma stopped_deliver env e s :
  isRunning (tracker s) = false → tracker (deliver env s e) = tracker s.
Proof. intros Hstopped. unfold deliver, onActivity. cbn [tracker]. by rewrite Hstopped. Qed.

Lemma stopped_deliver_all env events s :
  isRunning (tracker s) = false →
  tracker (dispatch env s events) = tracker s.
Proof.
  revert s. induction events as [|e events IH]; intros s Hstopped; [done|].
  assert (Hwrite : awaitsSave e (tracker s) = false).
  { unfold awaitsSave. rewrite Hstopped. by destruct (ev_type e). }
  cbn [dispatch]. unfold deliver_begin. rewrite Hwrite.
  rewrite IH by (by rewrite stopped_deliver). by apply stopped_deliver.
Qed.

(** A tracker that is not running and has no current session keeps its
    sessions whatever happens. *)
Lemma stopped_handle sig env s :
  isRunning (tracker s) = false → currentSession (tracker s) = None →
  let t' := tracker (handle sig env s) in
  heap t' = heap (tracker s) ∧ projects t' = projects (tracker s)
  ∧ currentSession t' = None ∧ isRunning t' = false.
Proof.
  intros Hstopped Hnone. cbv zeta.
  assert (Hsame : ∀ t', t' = tracker s →
            heap t' = heap (tracker s) ∧ projects t' = projects (tracker s)
            ∧ currentSession t' = None ∧ isRunning t' = false) by (by intros t' ->).
  destruct sig; cbn [handle].
  - rewrite Hstopped. by apply Hsame.
  - apply Hsame. by apply stopped_deliver.
  - apply Hsame. by apply stopped_deliver.
  - apply Hsame. by rewrite stopped_deliver_all.
  - apply Hsame. cbn [tracker]. by rewrite stopped_deliver_all.
  - apply Hsame. cbn [tracker]. unfold pause. by rewrite Hstopped.
  - apply Hsame. cbn [tracker]. unfold resume. by rewrite Hstopped.
  - apply Hsame. cbn [tracker]. unfold stop. by rewrite Hstopped.
  - apply Hsame. cbn [tracker]. unfold reset. by rewrite Hnone.
  - done.
Qed.

Lemma stopped_run trace s :
  isRunning (tracker s) = false → currentSession (tracker s) = None →
  heap (tracker (run trace s)) = heap (tracker s)
  ∧ projects (tracker (run trace s)) = projects (tracker s).
Proof.
  revert s. induction trace as [|step trace IH]; intros s Hstopped Hnone; [done|].
  destruct (stopped_handle step.1 step.2 s Hstopped Hnone) as (Hh & Hp & Hc & Hr).
  unfold run in *. cbn [foldl]. rewrite <- Hh, <- Hp. by apply IH.
Qed.

Lemma idle_when_stopped_handle sig env s :
  structure (tracker s) → idle_when_stopped (tracker s) →
  idle_when_stopped (tracker (handle sig env s)).
Proof.
  intros Hst Hidle. destruct (isRunning (tracker s)) eqn:Hrun.
  - intros Hstopped.
    destruct sig; try (rewrite isRunning_handle in Hstopped by done; congruence).
    cbn [handle tracker]. unfold stop. rewrite Hrun. cbn [negb].
    cbn [currentSession set_isPaused set_isRunning].
    by apply structure_endCurrentSession.
  - intros _. by apply stopped_handle; [|apply Hidle].
Qed.

Lemma idle_when_stopped_run trace s :
  structure (tracker s) → idle_when_stopped (tracker s) →
  idle_when_stopped (tracker (run trace s)).
Proof.
  revert s. induction trace as [|step trace IH]; intros s Hst Hidle; [done|].
  unfold run in *. cbn [foldl]. apply IH.
  - by apply structure_handle.
  - by apply idle_when_stopped_handle.
Qed.

Lemma started_is_running cfg m ws disk env :
  isRunning (tracker (started cfg m ws disk env)) = true.
Proof. reflexivity. Qed.

(** The three parts of [stop()], one after the other. *)
Lemma stop_phases m env t :
  isRunning t = true →
  stop m env t = stop_end (stop_saved (ending t) (stop_begin m env t)).
Proof.
  intros Hrun. unfold stop, stop_end, stop_saved, stop_begin, ending. rewrite Hrun.
  cbn [negb]. do 2 f_equal. unfold endCurrentSession.
  destruct (currentSession t) as [a|]; [|by rewrite set_lastSessionDay_same].
  destruct (heap t !! a) as [session|] eqn:Hs.
  - rewrite bool_decide_eq_true_2 by by eexists. by rewrite set_lastSessionDay_twice.
  - rewrite bool_decide_eq_false_2 by (by intros [? ?]). by rewrite set_lastSessionDay_same.
Qed.

(** An edit that reaches a running, unpaused tracker with auto-start while
    it has no current session opens one. *)
Lemma edit_opens_a_session env s name path :
  structure (tracker s) →
  isRunning (tracker s) = true → isPaused (tracker s) = false →
  autoStart (config (tracker s)) = true →
  currentSession (tracker s) = None →
  currentProject env = Some (name, path) →
  let t' := tracker (handle TextChange env s) in
  isRunning t' = true
  ∧ ∃ a session, currentSession t' = Some a ∧ heap t' !! a = Some session
                 ∧ endTime session = None.
Proof.
  intros Hst Hrun Hpaused Hauto Hnone Hproj t'.
  split; [subst t'; by rewrite isRunning_handle|].
  subst t'. cbn [handle]. unfold deliver, onActivity.
  cbn [tracker monitor ev_type]. rewrite Hrun, Hpaused, Hnone. cbn [negb].
  rewrite Hauto, bool_decide_eq_true_2 by done. cbn [andb].
  rewrite (startOrResumeSession_fresh env _ name path) by done.
  rewrite currentSession_trackSessionDay, heap_trackSessionDay.
  destruct (startNewSession_lookup
              (newSessionFor name path env (length (heap (tracker s)))) (tracker s))
    as (-> & -> & _).
  exists (length (heap (tracker s))), (newSessionFor name path env (length (heap (tracker s)))).
  split; [done|]. split; [|done].
  by rewrite lookup_app_r, Nat.sub_diag.
Qed.

Lemma stop_begin_idle m env t :
  structure t → isRunning t = true →
  structure (stop_begin m env t)
  ∧ currentSession (stop_begin m env t) = None
  ∧ isRunning (stop_begin m env t) = isRunning t
  ∧ isPaused (stop_begin m env t) = isPaused t
  ∧ config (stop_begin m env t) = config t.
Proof.
  intros Hst Hrun. unfold stop_begin.
  destruct (structure_endCurrentSession None m env t Hst) as [Hst' Hnone].
  split; [by apply structure_set_lastSessionDay|]. split; [done|].
  unfold endCurrentSession. destruct (currentSession t) as [a|]; [|done].
  destruct (heap t !! a) as [session|]; [|done]. cbv zeta.
  cbn [isRunning isPaused config set_lastSessionDay set_currentSession].
  unfold recalculateAt.
  destruct (projects _ !! _); destruct (monitorIsActive _ _ _);
    try destruct (0 <? _); done.
Qed.

(** X21: [stop()] leaves nothing open when it runs alone, and can leave a
    session open when it does not.  After any run of a tracker started on
    empty storage, a [stop()] during which no other handler runs is its
    three parts one after the other and leaves the tracker not running,
    without a current session and with an end time on every listed session;
    from then on no signal changes a session or a project aggregate.  The
    parts are separated by awaited writes, during which the tracker still
    counts as running: when the tracker is unpaused, auto-start is enabled
    and a project is open, an edit handled during the first or during the
    second write starts a session, which the rest of [stop()] leaves current
    and without end time on a tracker that is no longer running. *)
Theorem X21_stop_alone_and_interrupted (cfg : ExtensionConfig) (m : ActivityMonitor)
    (ws : Storage.Workspace) (disk : Storage.Disk) (env0 env : Env)
    (trace later : list (Signal * Env)) :
  empty_storage disk →
  let s := run trace (started cfg m ws disk env0) in
  let stopped := handle Stop env s in
  let begun := stop_begin (monitor s) env (tracker s) in
  let saved := stop_saved (ending (tracker s)) begun in
  (isRunning (tracker s) = true → tracker stopped = stop_end saved)
  ∧ isRunning (tracker stopped) = false
  ∧ currentSession (tracker stopped) = None
  ∧ all_closed (tracker stopped)
  ∧ heap (tracker (run later stopped)) = heap (tracker stopped)
  ∧ projects (tracker (run later stopped)) = projects (tracker stopped)
  ∧ ∀ env' name path,
      isRunning (tracker s) = true →
      isPaused (tracker s) = false →
      autoStart (config (tracker s)) = true →
      currentProject env' = Some (name, path) →
      let edit t := tracker (handle TextChange env' (mkSystem (monitor s) t)) in
      stopped_with_open_session (stop_end (stop_saved (ending (tracker s)) (edit begun)))
      ∧ stopped_with_open_session (stop_end (edit saved)).
Proof.
  intros Hempty. cbv zeta.
  set (s := run trace (started cfg m ws disk env0)).
  assert (Hst : structure (tracker s))
    by (by apply structure_run, structure_started).
  assert (Hidle : idle_when_stopped (tracker s)).
  { apply idle_when_stopped_run; [by apply structure_started|].
    intros Hstopped. by rewrite started_is_running in Hstopped. }
  assert (Hst' : structure (tracker (handle Stop env s))) by by apply structure_handle.
  assert (Hstopped : isRunning (tracker (handle Stop env s)) = false).
  { cbn [handle tracker]. unfold stop. by destruct (isRunning (tracker s)) eqn:Hrun. }
  assert (Hnone : currentSession (tracker (handle Stop env s)) = None)
    by (by apply (idle_when_stopped_handle Stop env s)).
  split; [intros Hrun; by apply stop_phases|].
  split; [done|]. split; [done|]. split; [by apply structure_all_closed|].
  destruct (stopped_run later (handle Stop env s) Hstopped Hnone) as [Hheap Hprojects].
  split; [done|]. split; [done|].
  intros env' name path Hrun Hpaused Hauto Hproj.
  destruct (stop_begin_idle (monitor s) env (tracker s) Hst Hrun)
    as (Hst1 & Hnone1 & Hrun1 & Hpaused1 & Hconfig1).
  rewrite Hrun in Hrun1. rewrite Hpaused in Hpaused1. rewrite <- Hconfig1 in Hauto.
  set (begun := stop_begin (monitor s) env (tracker s)) in *.
  assert (Hleft : ∀ ended t,
            (∃ a session, currentSession t = Some a ∧ heap t !! a = Some session
                          ∧ endTime session = None) →
            stopped_with_open_session (stop_end (stop_saved ended t))).
  { intros ended t Hopen. split; [done|]. by destruct ended. }
  assert (Hedit : ∀ t, structure t → isRunning t = true → isPaused t = false →
            autoStart (config t) = true → currentSession t = None →
            ∃ a session,
              currentSession (tracker (handle TextChange env' (mkSystem (monitor s) t)))
              = Some a
              ∧ heap (tracker (handle TextChange env' (mkSystem (monitor s) t))) !! a
                = Some session
              ∧ endTime session = None).
  { intros t Ht1 Ht2 Ht3 Ht4 Ht5.
    by destruct (edit_opens_a_session env' (mkSystem (monitor s) t) name path
                   Ht1 Ht2 Ht3 Ht4 Ht5 Hproj) as [_ Hopen]. }
  split.
  - by apply Hleft, Hedit.
  - apply (Hleft false), Hedit; unfold stop_saved; destruct (ending _); try done.
    by apply structure_set_lastSessionDay.
Qed.

(** ** The books of the tracker *)

(** *** The current session is listed *)

Lemma current_listed_None t : currentSession t = None → current_listed t.
Proof. intros Hnone a Ha. congruence. Qed.

Lemma current_listed_ext t t' :
  heap t' = heap t → projects t' = projects t → currentSession t' = currentSession t →
  current_listed t → current_listed t'.
Proof.
  intros Hh Hp Hc H a Ha. rewrite Hc in Ha. destruct (H a Ha) as (s & Hs & Hin).
  exists s. split; [by rewrite Hh|]. unfold listedAt in *. by rewrite Hp.
Qed.

Lemma current_listed_modifySession b f t :
  (∀ s, projectPath (f s) = projectPath s) →
  current_listed t → current_listed (modifySession b f t).
Proof.
  intros Hf H a Ha. destruct (H a Ha) as (s & Hs & Hin).
  destruct (decide (b = a)) as [->|Hne].
  - exists (f s). rewrite lookup_modifySession, Hs. split; [done|]. by rewrite Hf.
  - exists s. by rewrite lookup_modifySession_ne.
Qed.

Lemma current_listed_startNewSession newSession t :
  current_listed (startNewSession newSession t).
Proof.
  intros a. destruct (startNewSession_lookup newSession t) as (Hh & Hc & _).
  rewrite Hc, Hh. intros [= <-]. exists newSession.
  split; [by rewrite lookup_app_r, Nat.sub_diag|].
  rewrite listedAt_startNewSession, decide_True by done.
  apply elem_of_app. right. by left.
Qed.

Lemma current_listed_trackSessionDay t :
  current_listed t → current_listed (trackSessionDay t).
Proof.
  apply current_listed_ext.
  - apply heap_trackSessionDay.
  - apply projects_trackSessionDay.
  - apply currentSession_trackSessionDay.
Qed.

Lemma current_listed_startOrResumeSession env t :
  structure t → currentSession t = None → current_listed (startOrResumeSession env t).
Proof.
  intros Hst Hnone. destruct (currentProject env) as [[name path]|] eqn:Hproj.
  - rewrite (startOrResumeSession_fresh env t name path) by done.
    apply current_listed_trackSessionDay, current_listed_startNewSession.
  - unfold startOrResumeSession. rewrite Hproj. by apply current_listed_None.
Qed.

Lemma current_listed_endCurrentSession endTimeArg m env t :
  structure t → current_listed (endCurrentSession endTimeArg m env t).
Proof. intros Hst. by apply current_listed_None, structure_endCurrentSession. Qed.

Lemma current_listed_splitSessionAtMidnight m env t :
  structure t → current_listed (splitSessionAtMidnight m env t).
Proof.
  intros Hst. destruct (currentSession t) as [a|] eqn:Hcur.
  - destruct (current_open t Hst a Hcur) as (s & Hs & _).
    unfold splitSessionAtMidnight. rewrite Hcur, Hs. apply current_listed_startNewSession.
  - unfold splitSessionAtMidnight. rewrite Hcur. by apply current_listed_None.
Qed.

Lemma listed_if (b : bool) (t t' : TimeTracker) :
  listed t → (listed t → listed t') → listed (if b then t' else t).
Proof. destruct b; eauto. Qed.

Lemma listed_checkAndHandleMidnightCrossing m env t :
  listed t → listed (checkAndHandleMidnightCrossing m env t).
Proof.
  intros [Hst Hcl]. split; [by apply structure_checkAndHandleMidnightCrossing|].
  unfold checkAndHandleMidnightCrossing.
  destruct (currentSession t); [|done]. destruct (lastSessionDay t); [|done].
  destruct (decide _); [|done].
  eapply current_listed_ext; [..|by apply (current_listed_splitSessionAtMidnight m env)];
    done.
Qed.

Lemma listed_checkAndHandleProjectChange m env t :
  listed t → listed (checkAndHandleProjectChange m env t).
Proof.
  intros [Hst Hcl]. split; [by apply structure_checkAndHandleProjectChange|].
  unfold checkAndHandleProjectChange.
  destruct (currentSession t) as [a|]; [|done]. destruct (heap t !! a); [|done].
  destruct (currentProject env) as [[name path]|];
    [|by apply current_listed_endCurrentSession].
  destruct (decide _); [|done].
  destruct (structure_endCurrentSession None m env t Hst).
  by apply current_listed_startOrResumeSession.
Qed.

Lemma listed_checkAndHandleIdleSessionEnd m env t :
  listed t → listed (checkAndHandleIdleSessionEnd m env t).
Proof.
  intros [Hst Hcl]. split; [by apply structure_checkAndHandleIdleSessionEnd|].
  unfold checkAndHandleIdleSessionEnd.
  destruct (currentSession t) as [a|]; [|done]. destruct (heap t !! a); [|done].
  destruct (_ <? _); [|done]. by apply current_listed_endCurrentSession.
Qed.

Lemma listed_updateCurrentSessionTime m env t :
  listed t → listed (updateCurrentSessionTime m env t).
Proof.
  intros [Hst Hcl]. split; [by apply structure_updateCurrentSessionTime|].
  unfold updateCurrentSessionTime.
  destruct (currentSession t) as [a|]; [|done]. destruct (heap t !! a); [|done].
  destruct (monitorIsActive _ _ _); [|done].
  eapply (current_listed_ext (modifySession a _ _) _); [done..|].
  apply current_listed_modifySession; [done|].
  destruct (0 <? _); [|done]. by apply current_listed_modifySession.
Qed.

Lemma listed_tick m env t : listed t → listed (tick m env t).
Proof.
  intros Hl. unfold tick. cbv zeta.
  match goal with
  | |- listed (if ?c && bool_decide (currentSession ?t4 = None) && ?p then _ else _) =>
    assert (H4 : listed t4)
  end.
  { apply listed_if; [|apply listed_updateCurrentSessionTime].
    apply listed_if; [|apply listed_checkAndHandleIdleSessionEnd].
    apply listed_if; [|apply listed_checkAndHandleProjectChange].
    apply listed_if; [done|apply listed_checkAndHandleMidnightCrossing]. }
  destruct (autoStart _); cbn [andb]; [|done].
  case_bool_decide as Hnone; cbn [andb]; [|done].
  destruct (negb _); [|done]. destruct (monitorIsActive _ _ _); [|done].
  destruct H4 as [Hst4 _].
  split; [by apply structure_startOrResumeSession
         |by apply current_listed_startOrResumeSession].
Qed.

Lemma listed_onActivity event m env t : listed t → listed (onActivity event m env t).
Proof.
  intros [Hst Hcl]. split; [by apply structure_onActivity|].
  unfold onActivity. destruct (negb (isRunning t)); [done|].
  assert (Hkind : ∀ f : TimeSession → TimeSession,
    (∀ s, projectPath (f s) = projectPath s) →
    current_listed
      (if isPaused t then t
       else
         let t1 :=
           match currentSession t with
           | Some a => modifySession a f t
           | None => t
           end in
         if autoStart (config t1) && bool_decide (currentSession t1 = None)
         then startOrResumeSession env t1 else t1)).
  { intros f Hf. destruct (isPaused t); [done|]. cbv zeta.
    destruct (currentSession t) as [a|] eqn:Hcur.
    - cbn [currentSession modifySession set_heap]. rewrite Hcur.
      rewrite bool_decide_eq_false_2, andb_false_r by done.
      by apply current_listed_modifySession.
    - rewrite Hcur. destruct (autoStart _); cbn [andb]; [|done].
      rewrite bool_decide_eq_true_2 by done.
      by apply current_listed_startOrResumeSession. }
  destruct (ev_type event).
  1-4: (lazymatch goal with
        | |- context [modifySession _ ?f _] => apply (Hkind f); intros s; by destruct s
        end).
  - destruct (currentSession t) as [a|]; [|done].
    destruct (negb (isPaused t)); [|done].
    destruct (autoEndSessionAfterIdle (config t));
      [by apply current_listed_endCurrentSession|].
    eapply (current_listed_ext (modifySession a _ _) _); [done..|].
    by apply current_listed_modifySession.
  - destruct (currentSession t) as [a|] eqn:Hcur.
    + destruct (isPaused t); [|done].
      apply current_listed_modifySession; [done|].
      eapply (current_listed_ext t _); done.
    + destruct (autoStart (config t)); [|done].
      by apply current_listed_startOrResumeSession.
Qed.

Lemma listed_set_lastSessionDay d t : listed t → listed (set_lastSessionDay d t).
Proof.
  intros [Hst Hcl]. split; [by apply structure_set_lastSessionDay|].
  eapply (current_listed_ext _ _); done.
Qed.

Lemma listed_deliver env e s :
  listed (tracker s) → listed (tracker (deliver env s e)).
Proof. intros Hl. unfold deliver. cbn [tracker]. by apply listed_onActivity. Qed.

Lemma listed_deliver_all env events s :
  listed (tracker s) → listed (tracker (dispatch env s events)).
Proof.
  apply (dispatch_preserves listed).
  - intros d t. apply listed_set_lastSessionDay.
  - intros e s'. apply listed_deliver.
Qed.

Lemma listed_handle sig env s :
  listed (tracker s) → listed (tracker (handle sig env s)).
Proof.
  intros Hl. split; [by apply structure_handle; destruct Hl|].
  destruct sig; cbn [handle].
  - destruct (isRunning (tracker s)); [|by destruct Hl]. by apply listed_tick.
  - by apply listed_deliver.
  - by apply listed_deliver.
  - by apply listed_deliver_all.
  - cbn [tracker]. by apply listed_deliver_all.
  - destruct Hl as [_ Hcl]. cbn [tracker]. unfold pause.
    destruct (negb _); [done|]. cbv zeta. cbn [currentSession set_isPaused].
    destruct (currentSession (tracker s)) as [a|] eqn:Hcur.
    + apply current_listed_modifySession; [done|]. eapply (current_listed_ext _ _); done.
    + eapply (current_listed_ext _ _); done.
  - destruct Hl as [_ Hcl]. cbn [tracker]. unfold resume.
    destruct (negb _); [done|]. cbv zeta. cbn [currentSession set_isPaused].
    destruct (currentSession (tracker s)) as [a|] eqn:Hcur.
    + apply current_listed_modifySession; [done|]. eapply (current_listed_ext _ _); done.
    + eapply (current_listed_ext _ _); done.
  - destruct Hl as [Hst Hcl]. cbn [tracker]. unfold stop.
    destruct (negb _); [done|].
    eapply (current_listed_ext (endCurrentSession _ _ _ _) _); [done..|].
    by apply current_listed_endCurrentSession.
  - cbn [tracker]. apply current_listed_None.
    destruct Hl as [Hst Hcl]. unfold reset.
    destruct (currentSession (tracker s)) as [a|] eqn:Hcur; [|done].
    destruct (current_open _ Hst a Hcur) as (s0 & Hs0 & _). by rewrite Hs0.
  - destruct Hl as [_ Hcl]. eapply (current_listed_ext _ _); done.
Qed.

Lemma listed_started cfg m ws disk env :
  empty_storage disk → listed (tracker (started cfg m ws disk env)).
Proof.
  intros Hempty. split; [by apply structure_started|].
  unfold started, start. cbn [tracker isRunning newTracker].
  rewrite load_empty_storage, adopt_default by done.
  eapply (current_listed_ext (if autoStart _ then _ else _) _); [done..|].
  destruct (autoStart _); [|by apply current_listed_None].
  apply current_listed_startOrResumeSession; [by apply structure_empty|done].
Qed.

(** *** Every project under its own path *)

Lemma keyed_ext t t' : projects t' = projects t → keyed_by_path t → keyed_by_path t'.
Proof. intros Hp H path ps. rewrite Hp. apply H. Qed.

Lemma keyed_modifySession a f t : keyed_by_path t → keyed_by_path (modifySession a f t).
Proof. by apply keyed_ext. Qed.

Lemma keyed_set_currentSession v t : keyed_by_path t → keyed_by_path (set_currentSession v t).
Proof. by apply keyed_ext. Qed.

Lemma keyed_set_lastSessionDay v t : keyed_by_path t → keyed_by_path (set_lastSessionDay v t).
Proof. by apply keyed_ext. Qed.

Lemma keyed_set_data_lastActivity v t :
  keyed_by_path t → keyed_by_path (set_data_lastActivity v t).
Proof. by apply keyed_ext. Qed.

Lemma keyed_set_isPaused v t : keyed_by_path t → keyed_by_path (set_isPaused v t).
Proof. by apply keyed_ext. Qed.

Lemma keyed_set_isRunning v t : keyed_by_path t → keyed_by_path (set_isRunning v t).
Proof. by apply keyed_ext. Qed.

Lemma keyed_set_config v t : keyed_by_path t → keyed_by_path (set_config v t).
Proof. by apply keyed_ext. Qed.

Lemma keyed_set_heap v t : keyed_by_path t → keyed_by_path (set_heap v t).
Proof. by apply keyed_ext. Qed.

Lemma keyed_recalculateAt path t : keyed_by_path t → keyed_by_path (recalculateAt path t).
Proof.
  intros H. unfold recalculateAt. destruct (projects t !! path) as [ps0|] eqn:Hps0; [|done].
  intros p ps. cbn [projects set_projects]. destruct (decide (path = p)) as [<-|Hne].
  - rewrite lookup_insert_eq. intros [= <-]. cbn. by apply H.
  - rewrite lookup_insert_ne by done. apply H.
Qed.

Lemma keyed_addSessionToProject a t :
  keyed_by_path t → keyed_by_path (addSessionToProject a t).
Proof.
  intros H. unfold addSessionToProject. destruct (heap t !! a) as [session|]; [|done].
  intros p ps. cbn [projects set_projects].
  destruct (decide (projectPath session = p)) as [<-|Hne].
  - rewrite lookup_insert_eq. intros [= <-]. cbn.
    destruct (projects t !! projectPath session) eqn:Hps; [by apply H|done].
  - rewrite lookup_insert_ne by done. apply H.
Qed.

Lemma keyed_if (b : bool) t1 t2 :
  keyed_by_path t1 → keyed_by_path t2 → keyed_by_path (if b then t1 else t2).
Proof. by destruct b. Qed.

Create HintDb keyed discriminated.

#[local] Hint Resolve keyed_modifySession keyed_set_currentSession keyed_set_lastSessionDay
  keyed_set_data_lastActivity keyed_set_isPaused keyed_set_isRunning keyed_set_config
  keyed_set_heap keyed_recalculateAt keyed_addSessionToProject keyed_if : keyed.

Lemma keyed_startOrResumeSession env t :
  keyed_by_path t → keyed_by_path (startOrResumeSession env t).
Proof.
  intros H. unfold startOrResumeSession, trackSessionDay, resumeSession, startNewSession.
  cbv zeta. repeat case_match; auto 10 with keyed.
Qed.

Lemma keyed_endCurrentSession endTimeArg m env t :
  keyed_by_path t → keyed_by_path (endCurrentSession endTimeArg m env t).
Proof.
  intros H. unfold endCurrentSession. cbv zeta. repeat case_match; auto 10 with keyed.
Qed.

#[local] Hint Resolve keyed_startOrResumeSession keyed_endCurrentSession : keyed.

Lemma keyed_tick m env t : keyed_by_path t → keyed_by_path (tick m env t).
Proof.
  intros H.
  assert (Hsplit : ∀ t', keyed_by_path t' → keyed_by_path (splitSessionAtMidnight m env t')).
  { intros t' H'. unfold splitSessionAtMidnight, startNewSession. cbv zeta.
    repeat case_match; auto 10 with keyed. }
  assert (H1 : ∀ t', keyed_by_path t' →
                     keyed_by_path (checkAndHandleMidnightCrossing m env t')).
  { intros t' H'. unfold checkAndHandleMidnightCrossing. cbv zeta.
    repeat case_match; auto 10 with keyed. }
  assert (H2 : ∀ t', keyed_by_path t' →
                     keyed_by_path (checkAndHandleProjectChange m env t')).
  { intros t' H'. unfold checkAndHandleProjectChange. repeat case_match; auto 10 with keyed. }
  assert (H3 : ∀ t', keyed_by_path t' →
                     keyed_by_path (checkAndHandleIdleSessionEnd m env t')).
  { intros t' H'. unfold checkAndHandleIdleSessionEnd. cbv zeta.
    repeat case_match; auto 10 with keyed. }
  assert (H4 : ∀ t', keyed_by_path t' →
                     keyed_by_path (updateCurrentSessionTime m env t')).
  { intros t' H'. unfold updateCurrentSessionTime. cbv zeta.
    repeat case_match; auto 10 with keyed. }
  unfold tick. cbv zeta. auto 20 with keyed.
Qed.

Lemma keyed_onActivity event m env t :
  keyed_by_path t → keyed_by_path (onActivity event m env t).
Proof.
  intros H. unfold onActivity. cbv zeta. repeat case_match; auto 10 with keyed.
Qed.

Lemma keyed_reset t : keyed_by_path t → keyed_by_path (reset t).
Proof.
  intros H. unfold reset. destruct (currentSession t) as [a|]; [|done].
  destruct (heap t !! a) as [current|]; [|done]. cbv zeta.
  apply keyed_set_lastSessionDay, keyed_set_currentSession.
  destruct (projects t !! projectPath current) as [ps0|] eqn:Hps0; [|done].
  intros p ps. cbn [projects set_projects].
  destruct (decide (projectPath current = p)) as [<-|Hne].
  - rewrite lookup_insert_eq. intros [= <-]. cbn. by apply H.
  - rewrite lookup_insert_ne by done. apply H.
Qed.

Lemma keyed_handle sig env s :
  keyed_by_path (tracker s) → keyed_by_path (tracker (handle sig env s)).
Proof.
  intros H.
  assert (Hone : ∀ e s', keyed_by_path (tracker s') →
                   keyed_by_path (tracker (deliver env s' e))).
  { intros e s' H'. unfold deliver. cbn [tracker]. by apply keyed_onActivity. }
  assert (Hall : ∀ events s', keyed_by_path (tracker s') →
                   keyed_by_path (tracker (dispatch env s' events))).
  { intros events s'. apply (dispatch_preserves keyed_by_path); [|done].
    intros d t. apply keyed_set_lastSessionDay. }
  destruct sig; cbn [handle].
  - destruct (isRunning (tracker s)); [|done]. by apply keyed_tick.
  - by apply Hone.
  - by apply Hone.
  - by apply Hall.
  - cbn [tracker]. by apply Hall.
  - cbn [tracker]. unfold pause. cbv zeta. repeat case_match; auto 10 with keyed.
  - cbn [tracker]. unfold resume. cbv zeta. repeat case_match; auto 10 with keyed.
  - cbn [tracker]. unfold stop. repeat case_match; auto 10 with keyed.
  - by apply keyed_reset.
  - by apply keyed_set_config.
Qed.

(** *** No negative total *)

Lemma totals_nonnegative_grow h h' :
  totals_grow h h' → totals_nonnegative h → totals_nonnegative h'.
Proof.
  intros [Hold Hnew] Hnonneg a s' Hs'. destruct (h !! a) as [s|] eqn:Hs.
  - destruct (Hold a s Hs) as (s'' & Hs'' & Hle).
    assert (s'' = s') as -> by congruence. specialize (Hnonneg a s Hs). lia.
  - by eapply Hnew.
Qed.

Lemma totals_grow_handle sig env s :
  totals_grow (heap (tracker s)) (heap (tracker (handle sig env s))).
Proof.
  assert (Hone : ∀ e s',
            totals_grow (heap (tracker s')) (heap (tracker (deliver env s' e)))).
  { intros e s'. unfold deliver. cbn [tracker]. apply totals_grow_onActivity. }
  assert (Hall : ∀ events s',
            totals_grow (heap (tracker s')) (heap (tracker (dispatch env s' events)))).
  { intros events s'.
    apply (dispatch_preserves (λ t, totals_grow (heap (tracker s')) (heap t)));
      [done| |apply totals_grow_refl].
    intros e s'' Hgrow. eapply totals_grow_trans; [apply Hgrow|apply Hone]. }
  assert (Hsame : ∀ a (f : TimeSession → TimeSession) t,
            (∀ s0, totalTime (f s0) = totalTime s0) →
            totals_grow (heap t) (heap (modifySession a f t))).
  { intros a f t Hf. rewrite heap_modifySession. apply totals_grow_alter.
    intros s0 _. rewrite Hf. lia. }
  destruct sig; cbn [handle].
  - destruct (isRunning (tracker s)); [apply totals_grow_tick|apply totals_grow_refl].
  - apply Hone.
  - apply Hone.
  - apply (Hall _ (mkSystem _ (tracker s))).
  - cbn [tracker]. apply Hall.
  - cbn [tracker]. unfold pause. destruct (negb _); [apply totals_grow_refl|]. cbv zeta.
    cbn [currentSession set_isPaused].
    destruct (currentSession (tracker s)); [|apply totals_grow_refl].
    by apply (Hsame _ _ (set_isPaused true (tracker s))).
  - cbn [tracker]. unfold resume. destruct (negb _); [apply totals_grow_refl|]. cbv zeta.
    cbn [currentSession set_isPaused].
    destruct (currentSession (tracker s)); [|apply totals_grow_refl].
    by apply (Hsame _ _ (set_isPaused false (tracker s))).
  - cbn [tracker]. unfold stop. destruct (negb _); [apply totals_grow_refl|].
    apply totals_grow_endCurrentSession.
  - cbn [tracker]. unfold reset. repeat case_match; apply totals_grow_refl.
  - apply totals_grow_refl.
Qed.

(** *** The books are kept *)

Lemma bookkeeping_handle sig env s :
  bookkeeping (tracker s) → bookkeeping (tracker (handle sig env s)).
Proof.
  intros (Hl & Hk & Hn). split; [by apply listed_handle|].
  split; [by apply keyed_handle|].
  eapply totals_nonnegative_grow; [apply totals_grow_handle|done].
Qed.

Lemma bookkeeping_run trace s :
  bookkeeping (tracker s) → bookkeeping (tracker (run trace s)).
Proof.
  revert s. induction trace as [|step trace IH]; intros s Hb; [done|].
  unfold run in *. cbn [foldl]. by apply IH, bookkeeping_handle.
Qed.

Lemma bookkeeping_started cfg m ws disk env :
  empty_storage disk → bookkeeping (tracker (started cfg m ws disk env)).
Proof.
  intros Hempty. split; [by apply listed_started|].
  unfold started, start. cbn [tracker isRunning newTracker].
  rewrite load_empty_storage, adopt_default by done.
  match goal with
  | |- context [if _ then startOrResumeSession env ?x else _] => set (t0 := x)
  end.
  assert (Hk0 : keyed_by_path t0) by (intros path ps; subst t0; cbn; by rewrite lookup_empty).
  assert (Hn0 : totals_nonnegative (heap t0)) by (intros a s; subst t0; cbn; done).
  split.
  - apply keyed_set_isPaused, keyed_set_isRunning. destruct (autoStart _); [|done].
    by apply keyed_startOrResumeSession.
  - cbn [heap set_isPaused set_isRunning]. destruct (autoStart _); [|done].
    eapply totals_nonnegative_grow; [apply totals_grow_startOrResumeSession|done].
Qed.

(** ** Activity events *)

Lemma totals_same_refl h : totals_same h h.
Proof.
  split.
  - intros a s Hs. by exists s.
  - intros a s' Hnone Hsome. congruence.
Qed.

Lemma totals_same_alter (f : TimeSession → TimeSession) a h :
  (∀ s, totalTime (f s) = totalTime s) → totals_same h (alter f a h).
Proof.
  intros Hf. split.
  - intros b s Hs. destruct (decide (a = b)) as [<-|Hne].
    + exists (f s). by rewrite list_lookup_alter_eq, Hs.
    + exists s. by rewrite list_lookup_alter_ne.
  - intros b s' Hnone Hsome. destruct (decide (a = b)) as [<-|Hne].
    + by rewrite list_lookup_alter_eq, Hnone in Hsome.
    + rewrite list_lookup_alter_ne in Hsome by done. congruence.
Qed.

Lemma totals_same_snoc h s : totalTime s = 0 → totals_same h (h ++ [s]).
Proof.
  intros Hs. split.
  - intros a s0 Ha. exists s0. split; [|done]. by apply lookup_app_l_Some.
  - intros a s' Hnone Hsome. apply lookup_ge_None in Hnone.
    rewrite lookup_app_r in Hsome by done.
    destruct (a - length h)%nat; cbn in Hsome; [|done]. congruence.
Qed.

Lemma totals_same_startOrResumeSession env t :
  totals_same (heap t) (heap (startOrResumeSession env t)).
Proof.
  unfold startOrResumeSession. destruct (currentProject env) as [[name path]|];
    [|apply totals_same_refl].
  rewrite heap_trackSessionDay.
  assert (Hnew : totals_same (heap t)
                   (heap (startNewSession (newSessionFor name path env (length (heap t))) t))).
  { destruct (startNewSession_lookup (newSessionFor name path env (length (heap t))) t) as (-> & _).
    by apply totals_same_snoc. }
  destruct (findRecentSession path t) as [[a s]|];
    [destruct (shouldResumeSession (now env) s)|]; try done.
  unfold resumeSession. cbn [heap set_currentSession]. rewrite heap_modifySession.
  by apply totals_same_alter.
Qed.

(** X25: only ticks and the ending of a session credit time.  An activity
    event other than a sleep event leaves the total time of every session as
    it was, and a session it starts has total time 0.  On a running, unpaused
    tracker an edit adds one to [textChanges] of the current session, a
    cursor movement one to [cursorMovements], and either of them, like a
    change of window focus, stamps the session's [lastActivity] and
    [lastActiveTime] with the present. *)
Theorem X25_activity_credits_no_time (event : ActivityEvent) (m : ActivityMonitor)
    (env : Env) (t : TimeTracker) :
  ev_type event ≠ sleep →
  totals_same (heap t) (heap (onActivity event m env t))
  ∧ (ev_type event ≠ wake → isRunning t = true → isPaused t = false →
     ∀ a s, currentSession t = Some a → heap t !! a = Some s →
       ∃ s', heap (onActivity event m env t) !! a = Some s'
             ∧ textChanges s' = textChanges s + (counted (ev_type event)).1
             ∧ cursorMovements s' = cursorMovements s + (counted (ev_type event)).2
             ∧ lastActivity s' = now env
             ∧ lastActiveTime s' = now env
             ∧ endTime s' = endTime s).
Proof.
  intros Hsleep. split.
  - unfold onActivity. destruct (negb (isRunning t)); [apply totals_same_refl|].
    assert (Hkind : ∀ f : TimeSession → TimeSession,
      (∀ s, totalTime (f s) = totalTime s) →
      totals_same (heap t)
        (heap (if isPaused t then t
               else
                 let t1 :=
                   match currentSession t with
                   | Some a => modifySession a f t
                   | None => t
                   end in
                 if autoStart (config t1) && bool_decide (currentSession t1 = None)
                 then startOrResumeSession env t1 else t1))).
    { intros f Hf. destruct (isPaused t); [apply totals_same_refl|]. cbv zeta.
      destruct (currentSession t) as [a|] eqn:Hcur.
      - cbn [currentSession modifySession set_heap]. rewrite Hcur.
        rewrite bool_decide_eq_false_2, andb_false_r by done.
        rewrite heap_modifySession. by apply totals_same_alter.
      - destruct (_ && _); [apply totals_same_startOrResumeSession|apply totals_same_refl]. }
    destruct (ev_type event); try done.
    1-4: (lazymatch goal with
          | |- context [modifySession _ ?f _] => apply (Hkind f); intros s; reflexivity
          end).
    destruct (currentSession t) as [a|].
    + destruct (isPaused t); [|apply totals_same_refl].
      rewrite heap_modifySession. by apply totals_same_alter.
    + destruct (autoStart (config t)); [|apply totals_same_refl].
      apply totals_same_startOrResumeSession.
  - intros Hwake Hrun Hpaused a s Hcur Hs.
    unfold onActivity. rewrite Hrun, Hpaused. cbn [negb].
    destruct (ev_type event); try done; cbv zeta; rewrite Hcur;
      cbn [currentSession modifySession set_heap]; rewrite Hcur;
      rewrite bool_decide_eq_false_2, andb_false_r by done;
      rewrite lookup_modifySession, Hs; eexists; (split; [reflexivity|]);
      cbn; repeat split; lia.
Qed.
(** ** The day recorded for the current session *)

Lemma startOrResumeSession_current env t name path :
  currentProject env = Some (name, path) →
  is_Some (currentSession (startOrResumeSession env t)).
Proof.
  intros Hproj. unfold startOrResumeSession. rewrite Hproj.
  rewrite currentSession_trackSessionDay.
  assert (Hnew : ∀ newSession, is_Some (currentSession (startNewSession newSession t))).
  { intros newSession. destruct (startNewSession_lookup newSession t) as (_ & -> & _).
    by eexists. }
  destruct (findRecentSession path t) as [[a existing]|]; [|apply Hnew].
  destruct (shouldResumeSession (now env) existing); [|apply Hnew]. by eexists.
Qed.

Lemma checkAndHandleMidnightCrossing_unset m env t :
  lastSessionDay t = None → checkAndHandleMidnightCrossing m env t = t.
Proof.
  intros Hday. unfold checkAndHandleMidnightCrossing. rewrite Hday.
  by destruct (currentSession t).
Qed.

(** X20: a session that begins when the machine wakes is never split at
    midnight.  A heartbeat check finds a gap of more than 30 s while a
    running, unpaused tracker with auto-end-on-idle and auto-start enabled
    has a current session and the host reports a project: the callback for
    the sleep event ends that session and awaits its write, the callback for
    the wake event makes a session current and records its day, and the
    first callback then runs its last statement, which unsets the day.  A
    session is current and no day is recorded for it, so the midnight check
    of a later tick, whatever the clock reads, changes nothing. *)
Theorem X20_day_unset_after_sleep_and_wake (s : System) (env : Env) (name path : string)
    (a : nat) (session : TimeSession) :
  SLEEP_THRESHOLD < now env - lastHeartbeat (monitor s) →
  isRunning (tracker s) = true →
  isPaused (tracker s) = false →
  autoEndSessionAfterIdle (config (tracker s)) = true →
  autoStart (config (tracker s)) = true →
  currentSession (tracker s) = Some a →
  heap (tracker s) !! a = Some session →
  currentProject env = Some (name, path) →
  let s1 := deliver env s (mkEvent sleep (lastHeartbeat (monitor s) + HEARTBEAT_INTERVAL)) in
  let t' := tracker (handle Heartbeat env s) in
  currentSession (tracker s1) = None
  ∧ (endTime <$> heap (tracker s1) !! a)
    = Some (Some (lastHeartbeat (monitor s) + HEARTBEAT_INTERVAL))
  ∧ is_Some (currentSession t')
  ∧ lastSessionDay t' = None
  ∧ ∀ m env', checkAndHandleMidnightCrossing m env' t' = t'.
Proof.
  intros Hgap Hrun Hpaused Hauto Hstart Hcur Hs Hproj s1 t'.
  set (sleepEvent := mkEvent sleep (lastHeartbeat (monitor s) + HEARTBEAT_INTERVAL)) in *.
  set (wakeEvent := mkEvent wake (now env)).
  assert (Hev : checkSleepWake_events (monitor s) (now env) = [sleepEvent; wakeEvent]).
  { unfold checkSleepWake_events. by destruct (Z.ltb_spec SLEEP_THRESHOLD
      (now env - lastHeartbeat (monitor s))); [|lia]. }
  assert (Hwrite : awaitsSave sleepEvent (tracker s) = true).
  { unfold awaitsSave, tracking. cbn [ev_type sleepEvent].
    rewrite Hrun, Hcur, Hpaused, Hauto. done. }
  assert (Ht1 : tracker s1
                = endCurrentSession (Some (timestamp sleepEvent))
                    (recordActivity sleepEvent (monitor s)) env (tracker s)).
  { subst s1. unfold deliver, onActivity. cbn [tracker monitor ev_type sleepEvent].
    by rewrite Hrun, Hcur, Hpaused, Hauto. }
  assert (Hnone : currentSession (tracker s1) = None)
    by (rewrite Ht1; by eapply currentSession_endCurrentSession).
  assert (Hended : (endTime <$> heap (tracker s1) !! a)
                   = Some (Some (lastHeartbeat (monitor s) + HEARTBEAT_INTERVAL))).
  { rewrite Ht1.
    destruct (heap_endCurrentSession_at (Some (timestamp sleepEvent))
                (recordActivity sleepEvent (monitor s)) env (tracker s) a session Hcur Hs)
      as (credit & _ & _ & ->).
    by rewrite list_lookup_insert_eq by (by eapply lookup_lt_Some). }
  assert (Ht' : t' = set_lastSessionDay None (tracker (deliver env s1 wakeEvent))).
  { subst t'. cbn [handle tracker]. rewrite Hev.
    pose proof (dispatch_sleep_wake env s (lastHeartbeat (monitor s) + HEARTBEAT_INTERVAL)
                  (now env)) as Hboth.
    cbv zeta in Hboth. fold sleepEvent wakeEvent in Hboth. fold s1 in Hboth.
    by rewrite Hboth, Hwrite. }
  assert (Hkept : isRunning (tracker s1) = true ∧ config (tracker s1) = config (tracker s)).
  { rewrite Ht1. unfold endCurrentSession. rewrite Hcur, Hs. cbv zeta.
    cbn [isRunning config set_lastSessionDay set_currentSession].
    unfold recalculateAt.
    destruct (projects _ !! _); destruct (monitorIsActive _ _ _);
      try destruct (0 <? _); by split. }
  destruct Hkept as [Hrun1 Hconfig1].
  assert (Hwoken : tracker (deliver env s1 wakeEvent) = startOrResumeSession env (tracker s1)).
  { unfold deliver, onActivity. cbn [tracker monitor ev_type wakeEvent].
    by rewrite Hnone, Hrun1, Hconfig1, Hstart. }
  split; [done|]. split; [done|].
  assert (Hday : lastSessionDay t' = None) by (by rewrite Ht').
  split; [|split; [done|]].
  - rewrite Ht', Hwoken. cbn [currentSession set_lastSessionDay].
    by apply (startOrResumeSession_current env _ name path).
  - intros m env'. by apply checkAndHandleMidnightCrossing_unset.
Qed.

(** ** Today's totals *)

(** *** Sums *)

Lemma sumZ_cons (x : Z) (l : list Z) : sumZ (x :: l) = x + sumZ l.
Proof using Type. reflexivity. Qed.

Lemma sumZ_app (l1 l2 : list Z) : sumZ (l1 ++ l2) = sumZ l1 + sumZ l2.
Proof using Type.
  clear tz safeTimeDifference.
  induction l1 as [|x l1 IH]; [done|].
  rewrite <- app_comm_cons, !sumZ_cons, IH. lia.
Qed.

Lemma sumZ_fmap_add {A} (f g : A → Z) (l : list A) :
  sumZ ((λ x, f x + g x) <$> l) = sumZ (f <$> l) + sumZ (g <$> l).
Proof using Type.
  clear tz safeTimeDifference.
  induction l as [|x l IH]; [done|]. rewrite !fmap_cons, !sumZ_cons, IH. lia.
Qed.

Lemma sumZ_fmap_ext {A} (f g : A → Z) (l : list A) :
  (∀ x, x ∈ l → f x = g x) → sumZ (f <$> l) = sumZ (g <$> l).
Proof using Type.
  clear tz safeTimeDifference.
  intros Hfg. induction l as [|x l IH]; [done|].
  rewrite !fmap_cons, !sumZ_cons, IH, Hfg; [done|by left|].
  intros y Hy. apply Hfg. by right.
Qed.

Lemma sumZ_fmap_zero {A} (l : list A) : sumZ ((λ _, 0) <$> l) = 0.
Proof using Type.
  clear tz safeTimeDifference.
  induction l as [|x l IH]; [done|]. by rewrite fmap_cons, sumZ_cons, IH.
Qed.

Lemma sumZ_nonnegative (l : list Z) : (∀ x, x ∈ l → 0 ≤ x) → 0 ≤ sumZ l.
Proof using Type.
  clear tz safeTimeDifference.
  intros Hl. induction l as [|x l IH]; [done|]. rewrite sumZ_cons.
  assert (0 ≤ x) by (apply Hl; by left).
  assert (0 ≤ sumZ l) by (apply IH; intros y Hy; apply Hl; by right). lia.
Qed.

Lemma foldl_add_filter {A} (P : A → Prop) `{!∀ x, Decision (P x)} (f : A → Z)
    (l : list A) (acc : Z) :
  foldl (λ total x, if bool_decide (P x) then total + f x else total) acc l
  = acc + sumZ (f <$> filter P l).
Proof using Type.
  clear tz safeTimeDifference.
  revert acc. induction l as [|x l IH]; intros acc; [unfold sumZ; cbn; lia|].
  cbn [foldl]. rewrite IH, filter_cons.
  destruct (decide (P x)) as [HP|HP];
    [rewrite bool_decide_eq_true_2 by done|rewrite bool_decide_eq_false_2 by done];
    rewrite ?fmap_cons, ?sumZ_cons; lia.
Qed.

Lemma sumZ_filter_ended {A} (D : A → Prop) `{!∀ x, Decision (D x)} (e : A → option Z)
    (f : A → Z) (l : list A) :
  sumZ (f <$> filter D l)
  = sumZ (f <$> filter (λ x, D x ∧ is_Some (e x)) l)
    + sumZ (f <$> filter D (filter (λ x, e x = None) l)).
Proof using Type.
  clear tz safeTimeDifference.
  induction l as [|x l IH]; [done|].
  rewrite !(filter_cons _ x).
  destruct (decide (D x)) as [HD|HD]; destruct (decide (e x = None)) as [He|He].
  - rewrite decide_False by (rewrite He; intros [_ [? ?]]; done).
    rewrite filter_cons, decide_True by done.
    rewrite !fmap_cons, !sumZ_cons, IH. lia.
  - rewrite decide_True by (split; [done|]; destruct (e x); [by eexists|done]).
    rewrite !fmap_cons, !sumZ_cons, IH. lia.
  - rewrite decide_False by (by intros [? _]).
    rewrite filter_cons, decide_False by done. done.
  - rewrite decide_False by (by intros [? _]). done.
Qed.

(** *** The open sessions of a project *)

Lemma listedAt_Some path t ps : projects t !! path = Some ps → listedAt path t = sessions ps.
Proof. unfold listedAt. by intros ->. Qed.

Lemma openSessions_current path t a cur :
  listed t →
  currentSession t = Some a → heap t !! a = Some cur → projectPath cur = path →
  openSessions (heap t) (listedAt path t) = [(a, cur)].
Proof.
  intros [Hst Hcur] Ha Hh Hp.
  destruct (Hcur a Ha) as (s & Hs & Hin).
  assert (s = cur) as -> by congruence. rewrite Hp in Hin.
  destruct (current_open _ Hst a Ha) as (s & Hs' & Hopen).
  assert (s = cur) as -> by congruence.
  assert (Hmem : (a, cur) ∈ openSessions (heap t) (listedAt path t))
    by (by apply elem_of_openSessions).
  assert (Hlen : (length (openSessions (heap t) (listedAt path t)) ≤ 1)%nat).
  { unfold listedAt in *. destruct (projects t !! path) as [ps|] eqn:Hps.
    - by apply (structure_one_open t Hst path ps).
    - by apply elem_of_nil in Hin. }
  destruct (openSessions (heap t) (listedAt path t)) as [|p [|q rest]];
    [by apply elem_of_nil in Hmem| |cbn in Hlen; lia].
  apply elem_of_cons in Hmem as [->|Hmem]; [done|by apply elem_of_nil in Hmem].
Qed.

Lemma openSessions_elsewhere path t :
  listed t →
  (∀ a cur, currentSession t = Some a → heap t !! a = Some cur → projectPath cur ≠ path) →
  openSessions (heap t) (listedAt path t) = [].
Proof.
  intros [Hst Hcur] Hother.
  destruct (openSessions (heap t) (listedAt path t)) as [|[b s] rest] eqn:Hopen; [done|].
  exfalso.
  assert (Hmem : (b, s) ∈ openSessions (heap t) (listedAt path t))
    by (rewrite Hopen; by left).
  apply elem_of_openSessions in Hmem as (Hb & Hs & He).
  pose proof (open_is_current _ Hst path b s Hb Hs He) as Hc.
  destruct (listed_valid _ Hst path b Hb) as (s' & Hs' & Hp).
  assert (s' = s) as -> by congruence.
  apply (Hother b s); auto.
Qed.

(** *** The time of a project today *)

Lemma getTodayProjectTime_listed path env t :
  listed t →
  getTodayProjectTime path env t = sumZ (totalTime <$> listedToday path (now env) t).
Proof.
  intros Hl. unfold getTodayProjectTime, listedToday.
  set (today := toLocaleDateString tz (now env)).
  set (D := λ p : nat * TimeSession, toLocaleDateString tz (startTime p.2) = today).
  rewrite <- list_fmap_compose.
  rewrite (sumZ_filter_ended D (λ p, endTime p.2) (totalTime ∘ snd)).
  fold (openSessions (heap t) (listedAt path t)).
  assert (Hdone :
    match projects t !! path with
    | Some projectStats =>
      foldl
        (λ total (p : nat * TimeSession),
           if bool_decide
                (toLocaleDateString tz (startTime p.2) = today ∧ is_Some (endTime p.2))
           then total + totalTime p.2 else total)
        0 (resolve (heap t) (sessions projectStats))
    | None => 0
    end
    = sumZ ((totalTime ∘ snd)
            <$> filter (λ p, D p ∧ is_Some (endTime p.2))
                  (resolve (heap t) (listedAt path t)))).
  { unfold listedAt. destruct (projects t !! path) as [ps|]; [|done].
    rewrite (foldl_add_filter (λ p : nat * TimeSession, D p ∧ is_Some (endTime p.2))
               (totalTime ∘ snd)). apply Z.add_0_l. }
  cbv zeta. rewrite Hdone. clear Hdone.
  unfold currentSessionObject.
  destruct (currentSession t) as [a|] eqn:Ha; cbn [mbind option_bind].
  - destruct (heap t !! a) as [cur|] eqn:Hcur.
    + case_bool_decide as Hp.
      * rewrite (openSessions_current path t a cur) by done.
        rewrite filter_cons. unfold D at 2. cbn [snd].
        case_bool_decide as Hd.
        -- rewrite decide_True by done. unfold sumZ. cbn. by rewrite Z.add_0_r.
        -- rewrite decide_False by done. unfold sumZ at 2. cbn. by rewrite Z.add_0_r.
      * rewrite (openSessions_elsewhere path t); [unfold sumZ at 2; cbn; by rewrite Z.add_0_r|done|].
        intros b s Hb Hs. assert (b = a) as -> by congruence.
        assert (s = cur) as -> by congruence. done.
    + destruct Hl as [Hst _]. destruct (current_open _ Hst a Ha) as (s & Hs & _). congruence.
  - rewrite (openSessions_elsewhere path t); [unfold sumZ at 2; cbn; by rewrite Z.add_0_r|done|].
    intros b s Hb. congruence.
Qed.

Lemma getTodayProjectTime_nonnegative path env t :
  listed t → totals_nonnegative (heap t) → 0 ≤ getTodayProjectTime path env t.
Proof.
  intros Hl Hnn. rewrite getTodayProjectTime_listed by done.
  apply sumZ_nonnegative. intros x Hx.
  apply list_elem_of_fmap in Hx as (s & -> & Hs).
  unfold listedToday in Hs. apply list_elem_of_fmap in Hs as ([a s'] & -> & Hs).
  apply list_elem_of_filter in Hs as [_ Hs]. apply elem_of_resolve in Hs as [_ Hs].
  by apply (Hnn a).
Qed.

(** *** The totals of the two quick picks *)

Lemma foldl_add_each {A} (F : Z → A → Z) (G : A → Z) (l : list A) (acc : Z) :
  (∀ x total, x ∈ l → F total x = total + G x) →
  foldl F acc l = acc + sumZ (G <$> l).
Proof using Type.
  clear tz safeTimeDifference.
  revert acc. induction l as [|x l IH]; intros acc HF; [unfold sumZ; cbn; lia|].
  cbn [foldl]. rewrite IH by (intros; apply HF; by right).
  rewrite HF by (by left). rewrite fmap_cons, sumZ_cons. lia.
Qed.

Lemma collected_total {A B} (g : A → Z) (f : A → B) (l : list A) (acc : list (B * Z) * Z) :
  (∀ x, x ∈ l → 0 ≤ g x) →
  (foldl (λ (acc : list (B * Z) * Z) x,
            if 0 <? g x then (acc.1 ++ [(f x, g x)], acc.2 + g x) else acc) acc l).2
  = acc.2 + sumZ (g <$> l).
Proof using Type.
  clear tz safeTimeDifference.
  revert acc. induction l as [|x l IH]; intros acc Hg; [unfold sumZ; cbn; lia|].
  cbn [foldl]. rewrite IH by (intros; apply Hg; by right).
  rewrite fmap_cons, sumZ_cons.
  assert (0 ≤ g x) by (apply Hg; by left).
  destruct (0 <? g x) eqn:Hpos; cbn [snd]; [lia|]. apply Z.ltb_ge in Hpos. lia.
Qed.

Lemma collected_members {A B} (g : A → Z) (f : A → B) (l : list A) (acc : list (B * Z) * Z) :
  let collected :=
    foldl (λ (acc : list (B * Z) * Z) x,
             if 0 <? g x then (acc.1 ++ [(f x, g x)], acc.2 + g x) else acc) acc l in
  (∀ p, p ∈ acc.1 → p ∈ collected.1)
  ∧ (∀ x, x ∈ l → 0 < g x → (f x, g x) ∈ collected.1).
Proof using Type.
  clear tz safeTimeDifference.
  cbv zeta. revert acc. induction l as [|x l IH]; intros acc.
  { split; [done|]. intros x Hx. by apply elem_of_nil in Hx. }
  cbn [foldl].
  match goal with |- context [foldl ?F ?acc' l] => destruct (IH acc') as [IH1 IH2] end.
  split.
  - intros p Hp. apply IH1. destruct (0 <? g x); [|done].
    cbn [fst]. apply elem_of_app. by left.
  - intros y Hy Hpos. apply elem_of_cons in Hy as [->|Hy]; [|by apply IH2].
    apply IH1. apply Z.ltb_lt in Hpos. rewrite Hpos. cbn [fst].
    apply elem_of_app. right. by left.
Qed.

Lemma showStatistics_total_listed env t :
  bookkeeping t →
  showStatistics_total env t
  = sumZ ((λ entry : string * ProjectStats, getTodayProjectTime entry.1 env t)
          <$> map_to_list (projects t)).
Proof.
  intros (Hl & Hk & Hnn). unfold showStatistics_total. cbv zeta.
  set (g := λ entry : string * ProjectStats,
              getTodayProjectTime (stats_projectPath entry.2) env t).
  set (collected :=
         foldl (λ (acc : list (ProjectStats * Z) * Z) (entry : string * ProjectStats),
                  if 0 <? g entry then (acc.1 ++ [(entry.2, g entry)], acc.2 + g entry)
                  else acc)
           ([], 0) (map_to_list (projects t))).
  assert (Htotal : collected.2
                   = sumZ ((λ entry : string * ProjectStats,
                              getTodayProjectTime entry.1 env t)
                           <$> map_to_list (projects t))).
  { subst collected. rewrite (collected_total g snd).
    - cbn [snd]. rewrite Z.add_0_l. apply sumZ_fmap_ext.
      intros [path ps] Hin. apply elem_of_map_to_list in Hin.
      subst g. cbn. by rewrite (Hk path ps).
    - intros x _. by apply getTodayProjectTime_nonnegative. }
  destruct (currentSessionObject t) as [cur|]; [|done].
  case_bool_decide; [|done].
  destruct (List.find _ _) eqn:Hfind; [done|].
  destruct (0 <? getTodayProjectTime (projectPath cur) env t) eqn:Hpos; [|done].
  destruct (projects t !! projectPath cur) as [ps|] eqn:Hps; [exfalso|done].
  apply Z.ltb_lt in Hpos.
  destruct (collected_members g snd (map_to_list (projects t)) ([], 0)) as [_ Hmem].
  specialize (Hmem (projectPath cur, ps)).
  assert (Hpath : stats_projectPath ps = projectPath cur) by by apply Hk.
  fold collected in Hmem. cbn [snd] in Hmem.
  assert (Hin : (ps, g (projectPath cur, ps)) ∈ collected.1).
  { apply Hmem; [by apply elem_of_map_to_list|]. subst g. cbn. by rewrite Hpath. }
  apply list_elem_of_In in Hin.
  pose proof (List.find_none _ _ Hfind _ Hin) as Hno. cbn in Hno.
  by rewrite bool_decide_eq_true_2 in Hno.
Qed.

Lemma showTodaysSessions_total_listed env t :
  listed t →
  showTodaysSessions_total env t
  = currentToday (now env) t
    + sumZ ((λ entry : string * ProjectStats, getTodayProjectTime entry.1 env t)
            <$> map_to_list (projects t)).
Proof.
  intros Hl. unfold showTodaysSessions_total. cbv zeta.
  fold (currentToday (now env) t).
  apply foldl_add_each. intros [path ps] total Hin.
  apply elem_of_map_to_list in Hin. cbn [fst snd].
  rewrite getTodayProjectTime_listed by done. unfold listedToday.
  rewrite (listedAt_Some path t ps) by done.
  rewrite <- list_fmap_compose.
  apply (foldl_add_filter
           (λ p : nat * TimeSession,
              toLocaleDateString tz (startTime p.2) = toLocaleDateString tz (now env))
           (totalTime ∘ snd)).
Qed.

(** X23 (getTodayProjectTime): in every state a tracker started on empty
    storage reaches, the time the status bar shows for a project today is the
    sum of the total times of the sessions listed for that project that
    started today, each counted once: the current session, which is listed
    too, is not counted a second time. *)
Theorem X23_today_counts_each_listed_session_once (cfg : ExtensionConfig)
    (m : ActivityMonitor) (ws : Storage.Workspace) (disk : Storage.Disk) (env0 : Env)
    (trace : list (Signal * Env)) (path : string) (env : Env) :
  empty_storage disk →
  let t := tracker (run trace (started cfg m ws disk env0)) in
  getTodayProjectTime path env t = sumZ (totalTime <$> listedToday path (now env) t).
Proof.
  intros Hempty t. apply getTodayProjectTime_listed.
  by apply (bookkeeping_run trace), bookkeeping_started.
Qed.

(** X24 (showTodaysSessions, showStatistics): in every state a tracker
    started on empty storage reaches, the total in the title of today's
    sessions exceeds the total in the title of today's statistics by the
    total time of the current session when that session started today: the
    sessions view counts the current session twice, once on its own and once
    as a session listed for its project. *)
Theorem X24_sessions_view_counts_the_current_session_twice (cfg : ExtensionConfig)
    (m : ActivityMonitor) (ws : Storage.Workspace) (disk : Storage.Disk) (env0 : Env)
    (trace : list (Signal * Env)) (env : Env) :
  empty_storage disk →
  let t := tracker (run trace (started cfg m ws disk env0)) in
  showTodaysSessions_total env t = showStatistics_total env t + currentToday (now env) t.
Proof.
  intros Hempty t.
  assert (Hb : bookkeeping t) by by apply (bookkeeping_run trace), bookkeeping_started.
  rewrite showStatistics_total_listed by done.
  rewrite showTodaysSessions_total_listed by apply Hb. lia.
Qed.
End Tracker.

(** * Instances at concrete inputs *)

(** ** Persistence gateway *)

Lemma load_rejects_foreign_primary :
  Storage.load demoWorkspace 1000 diskWithForeignData
  = Storage.createDefaultData demoWorkspace 1000.
Proof. reflexivity. Qed.

(** C10: with a data file that cannot be parsed, the backup is returned as it
    is: tracking data recorded for /work/other reaches a tracker whose
    workspace is /work/demo, where the same data in the data file itself is
    replaced by the empty default. *)
Theorem C10_backup_of_another_workspace_is_returned :
  Storage.load demoWorkspace 1000 diskWithForeignBackup = foreignData
  ∧ Storage.workspacePath (Storage.load demoWorkspace 1000 diskWithForeignBackup)
    = Some "/work/other"
  ∧ fst <$> demoWorkspace = Some "/work/demo"
  ∧ Storage.load demoWorkspace 1000 diskWithForeignData
    = Storage.createDefaultData demoWorkspace 1000.
Proof. repeat split. Qed.

(** ** Export *)

(** C8: after twenty-one seconds of completed work in one project the
    exported object lists that project, whose completed session totals
    21000 ms, and its grand total is 0. *)
Theorem C8_export_grand_total_is_not_the_sum :
  let t := tracker (run 0 safeTimeDifference_clamped workThenStop
                      (started 0 defaultConfig (monitorAt 0) demoWorkspace emptyDisk
                         (at_time 0))) in
  let exported := exportData (at_time 22000) t in
  length (export_projects exported) = size (projects t)
  ∧ (stats_totalTime <$> export_projects exported) = [21000]
  ∧ ((λ ps, sumZ (totalTime <$> completedOf (heap t) ps)) <$> export_projects exported)
    = [21000]
  ∧ export_totalTimeTracked exported = 0.
Proof. vm_compute. repeat split. Qed.

(** ** Wall-clock span *)

Lemma safeTimeDifference_clamped_bound later earlier minutes :
  safeTimeDifference_clamped later earlier minutes ≤ Z.max 0 (later - earlier).
Proof. unfold safeTimeDifference_clamped. lia. Qed.

(** C1: a session whose total time exceeds its wall-clock span.  A laptop
    is closed at 23:00 with a session open and opened at 08:00.  The overdue
    tick splits the session and opens a new one at 08:00; the overdue
    heartbeat check then ends this new session at the timestamp of the sleep
    event, 23:00:10 of the day before.  The session ends before it starts,
    and its total time 0 exceeds [endTime - startTime], which is negative. *)
Lemma C1_counterexample_overnight_sleep :
  let s := run 0 safeTimeDifference_clamped overnightSleep
             (started 0 defaultConfig (monitorAt 82800000) demoWorkspace emptyDisk
                (at_time 82800000)) in
  clock_ordered 82800000 overnightSleep
  ∧ ∃ session,
      heap (tracker s) !! 1%nat = Some session
      ∧ startTime session = 115200000
      ∧ endTime session = Some 82810000
      ∧ totalTime session = 0
      ∧ ¬ within_wall_clock (clock_after 82800000 overnightSleep) session.
Proof.
  split; [cbn; lia|].
  eexists. split; [vm_compute; reflexivity|].
  repeat split. intros Hbound. vm_compute in Hbound. by apply Hbound.
Qed.

(** ** Split at midnight *)

(** C2: a split that does not end the session on its start day.  A session
    started on day 0 is paused and resumed on day 2; the midnight check of the
    next tick closes it at 23:59:59.999 of day 1, the day before the tick,
    where the claim has 23:59:59.999 of day 0: the closed session spans two
    days. *)
Lemma C2_counterexample_two_midnights :
  let s := run 0 safeTimeDifference_clamped pausedOverTwoMidnights
             (started 0 defaultConfig (monitorAt 1000) demoWorkspace emptyDisk
                (at_time 1000)) in
  let t' := tick 0 safeTimeDifference_clamped (monitor s) (at_time 172802000) (tracker s) in
  ¬ split_ends_on_start_day 0 (monitor s) (at_time 172802000) (tracker s)
  ∧ (startTime <$> heap t' !! 0%nat) = Some 1000
  ∧ (endTime <$> heap t' !! 0%nat) = Some (Some 172799999)
  ∧ endOfLocalDay 0 1000 = 86399999
  ∧ toLocaleDateString 0 1000 = 0
  ∧ toLocaleDateString 0 172799999 = 1.
Proof.
  intros s t'. split; [|vm_compute; by repeat split].
  intros Hclaim.
  assert (Hs : ∃ session, heap (tracker s) !! 0%nat = Some session
                          ∧ startTime session = 1000)
    by (eexists; split; [vm_compute; reflexivity|reflexivity]).
  destruct Hs as (session & Hs & Hstart).
  specialize (Hclaim 0%nat session).
  rewrite Hstart in Hclaim. vm_compute in Hclaim.
  specialize (Hclaim eq_refl).
  vm_compute in Hs. rewrite <- Hs in Hclaim.
  specialize (Hclaim eq_refl eq_refl).
  assert (Hne : 0 ≠ 2) by lia. specialize (Hclaim Hne). discriminate.
Qed.

Lemma X27_witness_first_midnight :
  let t := tracker (started 0 defaultConfig (monitorAt 86390000) demoWorkspace emptyDisk
                      (at_time 86390000)) in
  let env := at_time 86400005 in
  (∃ session,
     currentSession t = Some 0%nat
     ∧ heap t !! 0%nat = Some session
     ∧ lastSessionDay t = Some 0
     ∧ 0 ≠ toLocaleDateString 0 (now env))
  ∧ setHours0 0 (now env) - 1 = endOfLocalDay 0 (now env - MS_PER_DAY)
  ∧ setHours0 0 (now env) - 1 = 86399999.
Proof.
  intros t env.
  assert (Hs : ∃ session, heap t !! 0%nat = Some session)
    by (eexists; vm_compute; reflexivity).
  destruct Hs as [session Hs].
  assert (Hcur : currentSession t = Some 0%nat) by (vm_compute; reflexivity).
  assert (Hday : lastSessionDay t = Some 0) by (vm_compute; reflexivity).
  assert (Hne : 0 ≠ toLocaleDateString 0 (now env)) by (vm_compute; discriminate).
  split; [by exists session|].
  destruct (X27_midnight_check_closes_at_previous_midnight 0 (monitorAt 86400000) env t 0%nat session 0
              Hcur Hs Hday Hne) as (Hboundary & _).
  split; [exact Hboundary|]. vm_compute. reflexivity.
Defined.

(** ** One open session per project *)



Lemma X28_witness_stop_after_two_projects :
  let ops :=
    [ (Started demoWorkspace emptyDisk, at_time 0);
      (Handled Tick, mkEnv 5000 (Some ("other", "/work/other")) (λ _, "p0o9i8u7y"));
      (Handled Tick, at_time 9000) ] in
  let s := life 0 safeTimeDifference_clamped ops
             (mkSystem (monitorAt 0) (newTracker defaultConfig 0)) in
  let written :=
    Storage.load demoWorkspace 3600000
      (autoSave (at_time 10000)
         (tracker (handle 0 safeTimeDifference_clamped Stop (at_time 10000) s)) emptyDisk) in
  loads_closed_data ops
  ∧ isRunning (tracker s) = true
  ∧ Storage.directoryAvailable emptyDisk = true
  ∧ closed_data written
  ∧ ((λ value, length (Storage.sessions value)) <$> Storage.projects written)
    = {[ "/work/demo" := 2%nat; "/work/other" := 1%nat ]}.
Proof.
  intros ops s written.
  assert (Hloads : loads_closed_data ops).
  { split; [|done]. split; [reflexivity|]. apply (bool_decide_unpack _). vm_compute. exact I. }
  assert (Hrun : isRunning (tracker s) = true) by (vm_compute; reflexivity).
  assert (Hdir : Storage.directoryAvailable emptyDisk = true) by reflexivity.
  split; [exact Hloads|]. split; [exact Hrun|]. split; [exact Hdir|].
  split; [|vm_compute; reflexivity].
  exact (X28_stop_writes_closed_data 0 safeTimeDifference_clamped defaultConfig (monitorAt 0)
           0 3600000 ops (at_time 10000) (at_time 10000) demoWorkspace emptyDisk
           Hloads Hrun Hdir).
Defined.

(** ** Sleep and wake *)


(** ** Start or resume *)

Lemma C5_witness_new_session :
  let t := newTracker defaultConfig 0 in
  let t' := startOrResumeSession 0 (at_time 7000) t in
  currentProject (at_time 7000) = Some ("demo", "/work/demo")
  ∧ (¬ ∃ b s, resumable 7000 "/work/demo" t b s)
  ∧ heap t' = [newSessionFor "demo" "/work/demo" (at_time 7000) 0]
  ∧ currentSession t' = Some 0%nat.
Proof.
  intros t t'.
  assert (Hproj : currentProject (at_time 7000) = Some ("demo", "/work/demo"))
    by reflexivity.
  assert (Hnone : ¬ ∃ b s, resumable (now (at_time 7000)) "/work/demo" t b s).
  { intros (b & s & ps & Hps & _). vm_compute in Hps. discriminate. }
  destruct (C5_resume_within_window_else_new 0 (at_time 7000) t
              "demo" "/work/demo" Hproj) as [_ Hnew].
  destruct (Hnew Hnone) as (Hheap & _ & Hcur & _).
  split; [exact Hproj|]. split; [exact Hnone|]. split; [exact Hheap|exact Hcur].
Defined.

(** C5, the claim as stated fails: an edit starts a session, and the
    heartbeat check that runs within the same millisecond finds a gap, ends
    that session for the sleep and starts another for the wake; both ids are
    made from the one clock reading, and when the random digits come out the
    same the session that [startOrResumeSession] creates has the id of the
    session that is already there.  A [reset()], which removes the current
    session from its project's list by id, then removes both. *)
Lemma C5_counterexample_same_millisecond :
  let s0 := started 0 defaultConfig (monitorAt 0) demoWorkspace emptyDisk
              (mkEnv 0 None (λ _, "k3x9q2m1z")) in
  let env := at_time 40000 in
  let s1 := handle 0 safeTimeDifference_clamped TextChange env s0 in
  let t1 := tracker (deliver 0 safeTimeDifference_clamped env s1 (mkEvent sleep 10000)) in
  let t2 := tracker (handle 0 safeTimeDifference_clamped Heartbeat env s1) in
  ¬ new_id_is_fresh 0 env t1
  ∧ heap (tracker s0) = []
  ∧ heap t2 = heap (startOrResumeSession 0 env t1)
  ∧ (session_id <$> heap t2 !! 0%nat) = Some (40000, "k3x9q2m1z")
  ∧ (session_id <$> heap t2 !! 1%nat) = Some (40000, "k3x9q2m1z")
  ∧ listedAt "/work/demo" t2 = [0%nat; 1%nat]
  ∧ listedAt "/work/demo" (reset t2) = [].
Proof.
  intros s0 env s1 t1 t2. split; [|vm_compute; by repeat split].
  intros Hfresh.
  assert (Hcreated : ∃ created, heap (startOrResumeSession 0 env t1) = heap t1 ++ [created]
                                ∧ session_id created = (40000, "k3x9q2m1z"))
    by (eexists; split; vm_compute; reflexivity).
  destruct Hcreated as (created & Hheap & Hid).
  assert (Hold : ∃ old, heap t1 !! 0%nat = Some old
                        ∧ session_id old = (40000, "k3x9q2m1z"))
    by (eexists; split; vm_compute; reflexivity).
  destruct Hold as (old & Hold & Hid').
  apply (Hfresh created Hheap 0%nat old Hold). congruence.
Qed.

(** ** The project aggregate *)



(** ** Time formatting, calendar ranges and the storage directory *)

(** *** formatTime *)

Lemma concat_nonempty sep (l : list string) :
  l ≠ [] → (∀ s, s ∈ l → s ≠ "") → String.concat sep l ≠ "".
Proof.
  destruct l as [|x l]; [done|]. intros _ Hne.
  assert (Hx : x ≠ "") by (apply Hne; left).
  destruct x as [|c x]; [done|]. cbn. by destruct l.
Qed.

Lemma append_nonempty_r (s1 s2 : string) : s2 ≠ "" → s1 +:+ s2 ≠ "".
Proof. destruct s1; [done|]. cbn. done. Qed.

Lemma formatTimeParts_nonempty milliseconds options :
  formatTimeParts milliseconds options ≠ []
  ∧ ∀ s, s ∈ formatTimeParts milliseconds options → s ≠ "".
Proof.
  unfold formatTimeParts. cbv zeta.
  set (sS := default true _). set (sF := default true _). set (aH := default false _).
  set (h := milliseconds / 1000 / 3600).
  set (m := Z.rem (milliseconds / 1000) 3600 / 60).
  set (s := Z.rem (milliseconds / 1000) 60).
  set (ph := if sF then _ else _). set (pm := if sF then _ else _).
  set (ps := if sF then _ else _).
  assert (Hph : ph ≠ "") by (subst ph; destruct sF; by apply append_nonempty_r).
  assert (Hpm : pm ≠ "") by (subst pm; destruct sF; by apply append_nonempty_r).
  assert (Hps : ps ≠ "") by (subst ps; destruct sF; by apply append_nonempty_r).
  clearbody ph pm ps.
  destruct ((0 <? h) || aH), (0 <? m), (0 <? s), sS; cbn;
    (split; [done|]); intros x Hx;
    repeat (apply elem_of_cons in Hx as [->|Hx]; [done|]); by apply elem_of_nil in Hx.
Qed.

(** X1: whatever the duration and the options, [formatTime] pushes at least
    one part, so its result is the parts joined by spaces and is never the
    empty string: the fallback ['0s'] of [parts.join(' ') || '0s'] is never
    taken. *)
Theorem X1_formatTime_never_empty (milliseconds : Z) (options : option TimeFormatOptions) :
  formatTimeParts milliseconds options ≠ []
  ∧ formatTime milliseconds options
    = String.concat " " (formatTimeParts milliseconds options)
  ∧ formatTime milliseconds options ≠ "".
Proof.
  destruct (formatTimeParts_nonempty milliseconds options) as [Hparts Hne].
  assert (Hjoin : String.concat " " (formatTimeParts milliseconds options) ≠ "")
    by by apply concat_nonempty.
  unfold formatTime. cbv zeta. by rewrite bool_decide_eq_false_2.
Qed.

Lemma whole_minutes_hours (a : Z) : 0 ≤ a → a / 1000 / 3600 = a / 60000 / 60.
Proof. intros Ha. rewrite !Z.div_div by lia. done. Qed.

Lemma whole_minutes_minutes (a : Z) :
  0 ≤ a → Z.rem (a / 1000) 3600 / 60 = (a / 60000) mod 60.
Proof.
  intros Ha. rewrite Z.rem_mod_nonneg by (try apply Z.div_pos; lia).
  replace 3600 with (60 * 60) by done.
  rewrite Z.rem_mul_r by lia.
  rewrite (Z.mul_comm 60 ((a / 1000 / 60) mod 60)), Z.div_add by lia.
  rewrite Z.div_small by (apply Z.mod_pos_bound; lia).
  rewrite Z.div_div by lia. done.
Qed.

(** X2: the detailed format drops the seconds: for durations that are not
    negative it depends only on the number of whole minutes, and a duration
    below one minute is shown as "0 minutes". *)
Theorem X2_formatDetailedTime_whole_minutes (a b : Z) :
  0 ≤ a → 0 ≤ b → a / 60000 = b / 60000 →
  formatDetailedTime a = formatDetailedTime b
  ∧ (a < 60000 → formatDetailedTime a = "0 minutes").
Proof.
  intros Ha Hb Hab.
  assert (Hsame : ∀ x y, 0 ≤ x → 0 ≤ y → x / 60000 = y / 60000 →
                         formatDetailedTime x = formatDetailedTime y).
  { intros x y Hx Hy Hxy. unfold formatDetailedTime, formatTime, formatTimeParts. cbn.
    by rewrite !whole_minutes_hours, !whole_minutes_minutes, Hxy by done. }
  split; [by apply Hsame|].
  intros Hlt. rewrite (Hsame a 0) by (rewrite ?Z.div_small; lia). reflexivity.
Qed.

(** *** Calendar ranges *)

Lemma setHours0_addDays tz date k :
  setHours0 tz (addDays date k) = addDays (setHours0 tz date) k.
Proof.
  unfold setHours0, addDays.
  replace (date + k * MS_PER_DAY + tz) with (date + tz + k * MS_PER_DAY) by lia.
  rewrite Z.mod_add by done. lia.
Qed.

Lemma toLocaleDateString_addDays tz date k :
  toLocaleDateString tz (addDays date k) = toLocaleDateString tz date + k.
Proof.
  unfold toLocaleDateString, addDays.
  replace (date + k * MS_PER_DAY + tz) with (date + tz + k * MS_PER_DAY) by lia.
  by rewrite Z.div_add.
Qed.

Lemma toLocaleDateString_setHours0 tz date :
  toLocaleDateString tz (setHours0 tz date) = toLocaleDateString tz date.
Proof.
  unfold toLocaleDateString, setHours0, MS_PER_DAY.
  pose proof (Z.div_mod (date + tz) 86400000 ltac:(lia)).
  pose proof (Z.mod_pos_bound (date + tz) 86400000 ltac:(lia)).
  replace (date - (date + tz) mod 86400000 + tz)
    with (86400000 * ((date + tz) / 86400000)) by lia.
  rewrite Z.mul_comm, Z.div_mul; lia.
Qed.

Lemma toLocaleDateString_endOfLocalDay tz date :
  toLocaleDateString tz (endOfLocalDay tz date) = toLocaleDateString tz date.
Proof.
  unfold toLocaleDateString, endOfLocalDay, setHours0, MS_PER_DAY.
  pose proof (Z.div_mod (date + tz) 86400000 ltac:(lia)).
  pose proof (Z.mod_pos_bound (date + tz) 86400000 ltac:(lia)).
  replace (date - (date + tz) mod 86400000 + 86400000 - 1 + tz)
    with (86400000 - 1 + ((date + tz) / 86400000) * 86400000) by lia.
  rewrite Z.div_add by lia. rewrite Z.div_small; lia.
Qed.

Lemma setHours0_idem tz date : setHours0 tz (setHours0 tz date) = setHours0 tz date.
Proof.
  unfold setHours0 at 1.
  assert ((setHours0 tz date + tz) mod MS_PER_DAY = 0); [|lia].
  unfold setHours0, MS_PER_DAY.
  pose proof (Z.div_mod (date + tz) 86400000 ltac:(lia)).
  replace (date - (date + tz) mod 86400000 + tz)
    with (((date + tz) / 86400000) * 86400000) by lia.
  apply Z.mod_mul. lia.
Qed.

Lemma setHours0_le_iff tz d1 d2 :
  setHours0 tz d1 ≤ setHours0 tz d2 ↔ toLocaleDateString tz d1 ≤ toLocaleDateString tz d2.
Proof.
  unfold setHours0, toLocaleDateString, MS_PER_DAY.
  pose proof (Z.div_mod (d1 + tz) 86400000 ltac:(lia)).
  pose proof (Z.div_mod (d2 + tz) 86400000 ltac:(lia)).
  pose proof (Z.mod_pos_bound (d1 + tz) 86400000 ltac:(lia)).
  pose proof (Z.mod_pos_bound (d2 + tz) 86400000 ltac:(lia)).
  lia.
Qed.

Lemma week_start_monday tz now :
  let weekStart := getCurrentWeekStart tz now in
  getDay tz weekStart = 1
  ∧ setHours0 tz weekStart = weekStart
  ∧ weekStart ≤ now < weekStart + 7 * MS_PER_DAY.
Proof.
  cbv zeta. unfold getCurrentWeekStart.
  rewrite !setHours0_addDays, setHours0_idem.
  unfold getDay. rewrite toLocaleDateString_addDays, toLocaleDateString_setHours0.
  set (q := toLocaleDateString tz now).
  pose proof (Z.mod_pos_bound (q + 4) 7 ltac:(lia)) as Hd.
  pose proof (Z.div_mod (q + 4) 7 ltac:(lia)) as Hq.
  set (day := (q + 4) mod 7) in *.
  assert (Hr : setHours0 tz now ≤ now < setHours0 tz now + MS_PER_DAY).
  { unfold setHours0, MS_PER_DAY.
    pose proof (Z.mod_pos_bound (now + tz) 86400000 ltac:(lia)). lia. }
  set (diff := if day =? 0 then -6 else 1 - day).
  assert (Hdiff : -6 ≤ diff ≤ 0 ∧ (q + diff + 4) mod 7 = 1).
  { subst diff. destruct (Z.eqb_spec day 0) as [H0|H0].
    - split; [lia|]. replace (q + -6 + 4) with (1 + ((q + 4) / 7 - 1) * 7) by lia.
      by rewrite Z.mod_add.
    - split; [lia|]. replace (q + (1 - day) + 4) with (1 + ((q + 4) / 7) * 7) by lia.
      by rewrite Z.mod_add. }
  destruct Hdiff as [Hdiff Hmon]. clearbody diff.
  unfold addDays, MS_PER_DAY in *. repeat split; lia.
Qed.

Lemma week_end_sunday tz now :
  getCurrentWeekEnd tz now = getCurrentWeekStart tz now + 7 * MS_PER_DAY - 1.
Proof.
  destruct (week_start_monday tz now) as (_ & Hmid & _).
  unfold getCurrentWeekEnd, endOfLocalDay. cbv zeta.
  rewrite setHours0_addDays, Hmid. unfold addDays. lia.
Qed.

(** X3: the current week runs from a Monday, at local midnight, to one
    millisecond before the Monday after, and contains the present moment. *)
Theorem X3_current_week_is_monday_to_sunday (tz now : Z) :
  let weekStart := getCurrentWeekStart tz now in
  let weekEnd := getCurrentWeekEnd tz now in
  getDay tz weekStart = 1
  ∧ setHours0 tz weekStart = weekStart
  ∧ weekEnd = weekStart + 7 * MS_PER_DAY - 1
  ∧ weekStart ≤ now ≤ weekEnd.
Proof.
  cbv zeta. destruct (week_start_monday tz now) as (Hmon & Hmid & Hin).
  rewrite week_end_sunday. repeat split; try done; lia.
Qed.

Lemma calculateSessionTimeInRange_days tz sessionStart sessionTotalTime rangeStart rangeEnd :
  calculateSessionTimeInRange tz sessionStart sessionTotalTime rangeStart rangeEnd
  = if bool_decide (toLocaleDateString tz rangeStart ≤ toLocaleDateString tz sessionStart
                    ≤ toLocaleDateString tz rangeEnd)
    then sessionTotalTime else 0.
Proof.
  unfold calculateSessionTimeInRange. cbv zeta.
  pose proof (setHours0_le_iff tz rangeStart sessionStart).
  pose proof (setHours0_le_iff tz sessionStart rangeEnd).
  case_bool_decide as Hd.
  - destruct (Z.leb_spec (setHours0 tz rangeStart) (setHours0 tz sessionStart)); [|lia].
    destruct (Z.leb_spec (setHours0 tz sessionStart) (setHours0 tz rangeEnd)); [done|lia].
  - destruct (Z.leb_spec (setHours0 tz rangeStart) (setHours0 tz sessionStart)); [|done].
    destruct (Z.leb_spec (setHours0 tz sessionStart) (setHours0 tz rangeEnd)); [lia|done].
Qed.

(** X4: a session counts towards a range by whole local days: it contributes
    all of its total time when the day it started on lies between the day of
    the range's start and the day of the range's end, whatever the times of
    day, and nothing otherwise.  For the range of today this is: it started
    today. *)
Theorem X4_session_counts_by_whole_days (tz sessionStart sessionTotalTime : Z)
    (rangeStart rangeEnd now : Z) :
  calculateSessionTimeInRange tz sessionStart sessionTotalTime rangeStart rangeEnd
  = (if bool_decide (toLocaleDateString tz rangeStart ≤ toLocaleDateString tz sessionStart
                     ≤ toLocaleDateString tz rangeEnd)
     then sessionTotalTime else 0)
  ∧ calculateSessionTimeInRange tz sessionStart sessionTotalTime
      (getTodayStart tz now) (getTodayEnd tz now)
    = (if bool_decide (toLocaleDateString tz sessionStart = toLocaleDateString tz now)
       then sessionTotalTime else 0).
Proof.
  split; [apply calculateSessionTimeInRange_days|].
  rewrite calculateSessionTimeInRange_days. unfold getTodayStart, getTodayEnd.
  rewrite toLocaleDateString_setHours0, toLocaleDateString_endOfLocalDay.
  repeat case_bool_decide; try done; lia.
Qed.

(** *** Range totals of the global summary *)

Lemma getTimeInDateRange_sum tz data rangeStart rangeEnd :
  GlobalSummary.getTimeInDateRange tz data rangeStart rangeEnd
  = sumZ ((λ s, calculateSessionTimeInRange tz (startTime s) (totalTime s)
                  rangeStart rangeEnd) <$> countedSessions data).
Proof.
  unfold GlobalSummary.getTimeInDateRange, countedSessions.
  set (w := λ s, calculateSessionTimeInRange tz (startTime s) (totalTime s)
                   rangeStart rangeEnd).
  assert (Hgen : ∀ l acc,
    foldl (GlobalSummary.addWorkspace tz rangeStart rangeEnd) acc l
    = acc + sumZ (w <$> (workspace ← l;
        (entry ← map_to_list (Storage.projects (CrossWorkspace.data workspace));
         filter (λ s, is_Some (endTime s)) (Storage.sessions entry.2))
        ++ option_list (Storage.currentSession (CrossWorkspace.data workspace))))).
  { induction l as [|ws l IH]; intros acc; [unfold sumZ; cbn; lia|].
    cbn [foldl]. rewrite IH, bind_cons, !fmap_app, !sumZ_app.
    unfold GlobalSummary.addWorkspace. cbv zeta.
    assert (Hprojects : ∀ entries acc',
      foldl (λ total (entry : string * Storage.ProjectStats),
               foldl (λ total session,
                        if bool_decide (is_Some (endTime session))
                        then GlobalSummary.addSession tz rangeStart rangeEnd total session
                        else total)
                 total (Storage.sessions entry.2)) acc' entries
      = acc' + sumZ (w <$> (entry ← entries;
                            filter (λ s, is_Some (endTime s)) (Storage.sessions entry.2)))).
    { induction entries as [|e entries IHe]; intros acc'; [unfold sumZ; cbn; lia|].
      cbn [foldl]. rewrite IHe, bind_cons, fmap_app, sumZ_app.
      unfold GlobalSummary.addSession.
      rewrite (foldl_add_filter (λ s, is_Some (endTime s)) w). lia. }
    rewrite Hprojects.
    destruct (Storage.currentSession (CrossWorkspace.data ws)) as [cs|];
      unfold option_list; cbn [option_rect]; rewrite ?fmap_cons, ?fmap_nil, ?sumZ_cons;
      unfold GlobalSummary.addSession; [fold (w cs)|]; change (sumZ []) with 0; lia. }
  rewrite Hgen. lia.
Qed.

Lemma week_is_seven_days tz now sessionStart sessionTotalTime :
  sumZ ((λ day, calculateSessionTimeInRange tz sessionStart sessionTotalTime
                  (dayRange tz day).1 (dayRange tz day).2)
        <$> GlobalSummary.getWeekDays tz now)
  = calculateSessionTimeInRange tz sessionStart sessionTotalTime
      (getCurrentWeekStart tz now) (getCurrentWeekEnd tz now).
Proof.
  unfold GlobalSummary.getWeekDays, dayRange. cbn [fmap list_fmap fst snd sumZ foldr].
  rewrite !calculateSessionTimeInRange_days.
  rewrite !toLocaleDateString_setHours0, !toLocaleDateString_endOfLocalDay.
  rewrite week_end_sunday.
  rewrite !toLocaleDateString_addDays.
  replace (getCurrentWeekStart tz now + 7 * MS_PER_DAY - 1)
    with (endOfLocalDay tz (addDays (getCurrentWeekStart tz now) 6)).
  2:{ destruct (week_start_monday tz now) as (_ & Hmid & _).
      unfold endOfLocalDay. rewrite setHours0_addDays, Hmid. unfold addDays. lia. }
  rewrite toLocaleDateString_endOfLocalDay, toLocaleDateString_addDays.
  repeat case_bool_decide; lia.
Qed.

Lemma sumZ_exchange {A} (w : Z → A → Z) (days : list Z) (l : list A) :
  sumZ ((λ day, sumZ (w day <$> l)) <$> days)
  = sumZ ((λ x, sumZ ((λ day, w day x) <$> days)) <$> l).
Proof.
  induction days as [|d days IH].
  - rewrite fmap_nil. symmetry. apply sumZ_fmap_zero.
  - rewrite fmap_cons, sumZ_cons, IH, <- sumZ_fmap_add.
    apply sumZ_fmap_ext. intros x _. by rewrite fmap_cons, sumZ_cons.
Qed.

(** X5: the total of the current week is the sum of the totals of its seven
    days, each taken over the range from 00:00:00.000 to 23:59:59.999 of a day
    of [getWeekDays]: every counted session falls into exactly one of them. *)
Theorem X5_week_total_is_sum_of_days (tz now : Z) (data : CrossWorkspace.AggregatedData) :
  GlobalSummary.getWeekTotalTime tz now data
  = sumZ ((λ day, GlobalSummary.getTimeInDateRange tz data
                    (dayRange tz day).1 (dayRange tz day).2)
          <$> GlobalSummary.getWeekDays tz now).
Proof.
  unfold GlobalSummary.getWeekTotalTime. cbv zeta.
  rewrite getTimeInDateRange_sum.
  rewrite (sumZ_fmap_ext _ (λ day, sumZ ((λ s, calculateSessionTimeInRange tz (startTime s)
             (totalTime s) (dayRange tz day).1 (dayRange tz day).2) <$> countedSessions data)))
    by (intros day _; apply getTimeInDateRange_sum).
  rewrite (sumZ_exchange (λ day s, calculateSessionTimeInRange tz (startTime s) (totalTime s)
             (dayRange tz day).1 (dayRange tz day).2)).
  apply sumZ_fmap_ext. intros s _. symmetry. apply week_is_seven_days.
Qed.

Lemma sumZ_fmap_if {A} (P : A → Prop) `{!∀ x, Decision (P x)} (f : A → Z) (l : list A) :
  sumZ ((λ x, if bool_decide (P x) then f x else 0) <$> l) = sumZ (f <$> filter P l).
Proof.
  induction l as [|x l IH]; [done|].
  rewrite fmap_cons, sumZ_cons, IH, filter_cons.
  destruct (decide (P x)) as [HP|HP];
    [rewrite bool_decide_eq_true_2 by done|rewrite bool_decide_eq_false_2 by done];
    rewrite ?fmap_cons, ?sumZ_cons; lia.
Qed.

(** X26: today's total of the global summary is the sum of the total times
    of the counted sessions that started on the local day of the present
    moment: of every workspace, its listed sessions that have an end time and
    its current session.  Each such session counts in full, also when it ran
    past midnight. *)
Theorem X26_today_total_of_all_workspaces (tz now : Z) (data : CrossWorkspace.AggregatedData) :
  GlobalSummary.getTodayTotalTime tz now data
  = sumZ (totalTime
          <$> filter (λ s, toLocaleDateString tz (startTime s) = toLocaleDateString tz now)
                (countedSessions data)).
Proof.
  unfold GlobalSummary.getTodayTotalTime. cbv zeta.
  rewrite getTimeInDateRange_sum.
  rewrite <- (sumZ_fmap_if
                (λ s, toLocaleDateString tz (startTime s) = toLocaleDateString tz now)
                totalTime).
  apply sumZ_fmap_ext. intros s _.
  rewrite calculateSessionTimeInRange_days. unfold getTodayStart, getTodayEnd.
  rewrite toLocaleDateString_setHours0, toLocaleDateString_endOfLocalDay.
  repeat case_bool_decide; try done; lia.
Qed.

(** *** Sleep detection and the classifier *)

(** X6: sleep detection only ever takes activity away.  Without a heartbeat
    gap of more than 30 s the classifier with sleep detection gives the state
    the classifier without it gives on the same last activity and focus; with
    such a gap it never reports an active state; so whenever it reports
    activity, the classifier without sleep detection does too. *)
Theorem X6_sleep_detection_only_removes_activity (cfg : ExtensionConfig)
    (m : ActivityMonitor) (now : Z) :
  let basic := BasicMonitor.mkMonitor (mon_lastActivity m) (isWindowFocused m) in
  (now - lastHeartbeat m ≤ SLEEP_THRESHOLD →
   getCurrentState cfg m now = BasicMonitor.getCurrentState cfg basic now)
  ∧ (SLEEP_THRESHOLD < now - lastHeartbeat m → monitorIsActive cfg m now = false)
  ∧ (monitorIsActive cfg m now = true → BasicMonitor.isActive cfg basic now = true).
Proof.
  cbv zeta. unfold monitorIsActive, BasicMonitor.isActive, getCurrentState,
    BasicMonitor.getCurrentState. cbn.
  destruct (Z.ltb_spec SLEEP_THRESHOLD (now - lastHeartbeat m)) as [Hgap|Hgap];
    destruct (isWindowFocused m), (trackBackground cfg),
      (idleThreshold cfg * 60 * 1000 <? now - mon_lastActivity m);
    cbn; repeat split; intros; try done; lia.
Qed.

(** *** The storage directory of a workspace *)

Lemma toInt32_range x : - 2 ^ 31 ≤ toInt32 x < 2 ^ 31.
Proof.
  unfold toInt32. pose proof (Z.mod_pos_bound (x + 2 ^ 31) (2 ^ 32) ltac:(lia)). lia.
Qed.

Lemma toInt32_congruent x y : (x - y) mod 2 ^ 32 = 0 → toInt32 x = toInt32 y.
Proof.
  intros Hxy. unfold toInt32. f_equal.
  apply Z.mod_divide in Hxy as [k Hk]; [|lia].
  replace (x + 2 ^ 31) with (y + 2 ^ 31 + k * 2 ^ 32) by lia.
  by rewrite Z.mod_add.
Qed.

Lemma toInt32_difference x : ∃ k, toInt32 x = x + k * 2 ^ 32.
Proof.
  unfold toInt32. exists (- ((x + 2 ^ 31) / 2 ^ 32)).
  pose proof (Z.div_mod (x + 2 ^ 31) (2 ^ 32) ltac:(lia)). lia.
Qed.

Lemma hashStep_horner hash c : hashStep hash c = toInt32 (31 * hash + charCode c).
Proof.
  unfold hashStep, bitAnd32, shiftLeft32. cbv zeta.
  rewrite Z.land_diag.
  change (Z.land 5 31) with 5. rewrite Z.shiftl_mul_pow2 by lia.
  destruct (toInt32_difference hash) as [k1 Hk1].
  destruct (toInt32_difference (toInt32 hash * 2 ^ 5)) as [k2 Hk2].
  set (x := toInt32 (toInt32 hash * 2 ^ 5) - hash + charCode c) in *.
  destruct (toInt32_difference x) as [k3 Hk3].
  apply toInt32_congruent.
  replace (toInt32 x - (31 * hash + charCode c)) with ((32 * k1 + k2 + k3) * 2 ^ 32)
    by (rewrite Hk3; subst x; rewrite Hk2, Hk1; lia).
  apply Z.mod_mul. lia.
Qed.

Lemma foldl_hashStep (l : list Ascii.ascii) :
  foldl hashStep 0 l = toInt32 (polynomial31 l).
Proof.
  unfold polynomial31. induction l as [|c l IH] using rev_ind; [done|].
  rewrite !foldl_app. cbn [foldl]. rewrite IH, hashStep_horner.
  apply toInt32_congruent.
  destruct (toInt32_difference (foldl (λ acc c0, 31 * acc + charCode c0) 0 l)) as [k Hk].
  rewrite Hk.
  match goal with |- (?a - ?b) mod _ = 0 => replace (a - b) with (31 * k * 2 ^ 32) by lia end.
  apply Z.mod_mul. lia.
Qed.

(** X7: the hash of a workspace path is the polynomial
    [c_1 * 31^(n-1) + ... + c_n] in the code units of the path, reduced to a
    signed 32-bit integer; the directory name is the base-36 numeral of its
    absolute value, which is at most 2^31. *)
Theorem X7_workspace_hash_is_polynomial (workspacePath : string) :
  workspaceHashCode workspacePath
  = toInt32 (polynomial31 (String.list_ascii_of_string workspacePath))
  ∧ - 2 ^ 31 ≤ workspaceHashCode workspacePath < 2 ^ 31
  ∧ generateWorkspaceHash workspacePath
    = toString36 (Z.abs (toInt32 (polynomial31 (String.list_ascii_of_string workspacePath)))).
Proof.
  unfold generateWorkspaceHash, workspaceHashCode. rewrite foldl_hashStep.
  split; [done|]. split; [apply toInt32_range|done].
Qed.

Lemma list_ascii_of_string_app (s1 s2 : string) :
  String.list_ascii_of_string (s1 +:+ s2)
  = String.list_ascii_of_string s1 ++ String.list_ascii_of_string s2.
Proof.
  induction s1 as [|c s1 IH]; [done|].
  change (String c s1 +:+ s2) with (String c (s1 +:+ s2)).
  cbn [String.list_ascii_of_string]. by rewrite IH.
Qed.

Lemma append_inj_l (p s1 s2 : string) : p +:+ s1 = p +:+ s2 → s1 = s2.
Proof.
  induction p as [|c p IH]; [done|].
  change (String c p +:+ s1) with (String c (p +:+ s1)).
  change (String c p +:+ s2) with (String c (p +:+ s2)).
  intros [= H]. by apply IH.
Qed.

(** X8: workspace paths that differ only in having "Aa" where the other has
    "BB" are different paths with the same hash, so the two workspaces are
    given the same storage directory. *)
Theorem X8_distinct_workspaces_share_a_directory (before after name1 name2 : string) :
  let path1 := before +:+ "Aa" +:+ after in
  let path2 := before +:+ "BB" +:+ after in
  path1 ≠ path2
  ∧ workspaceHashCode path1 = workspaceHashCode path2
  ∧ storageDir (Some (path1, name1)) = storageDir (Some (path2, name2)).
Proof.
  cbv zeta.
  assert (Hhash : workspaceHashCode (before +:+ "Aa" +:+ after)
                  = workspaceHashCode (before +:+ "BB" +:+ after)).
  { unfold workspaceHashCode. rewrite !foldl_hashStep. f_equal.
    unfold polynomial31. rewrite !list_ascii_of_string_app, !foldl_app.
    f_equal. cbn [foldl String.list_ascii_of_string].
    repeat match goal with
           | |- context [charCode ?c] =>
             let v := eval vm_compute in (charCode c) in change (charCode c) with v
           end.
    lia. }
  split.
  - intros Heq. apply append_inj_l in Heq. discriminate.
  - split; [done|]. unfold storageDir, generateWorkspaceHash. by rewrite Hhash.
Qed.



(** ** The persistence gateway *)

(** X9: with a workspace folder open, whatever [load] takes from the data
    file, or makes up when there is none, belongs to that workspace: unless
    the directory cannot be made or the data file cannot be parsed (the cases
    that fall back to the backup), the result carries the path of the open
    workspace. *)
Theorem X9_load_keeps_to_the_workspace (fsPath name : string) (now : Z)
    (disk : Storage.Disk) :
  Storage.directoryAvailable disk = true →
  Storage.dataFile disk ≠ Storage.Corrupt →
  Storage.workspacePath (Storage.load (Some (fsPath, name)) now disk) = Some fsPath.
Proof.
  intros Hdir Hfile. unfold Storage.load, Storage.exists_. rewrite Hdir. cbn [negb].
  destruct (Storage.dataFile disk) as [| |trackingData]; [done|done|]. cbn [negb].
  destruct (Storage.truthy (Storage.workspacePath trackingData)) eqn:Htruthy; cbn; [|done].
  case_bool_decide as Hsame; cbn; [done|]. done.
Qed.

(** *** What is written is read back *)

Lemma deserializeProject_serializeProject value :
  Storage.jsonNumber (Storage.averageSessionDuration value)
  = Some (Storage.averageSessionDuration value) →
  Storage.deserializeProject (Storage.serializeProject value) = value.
Proof.
  intros Haverage. unfold Storage.deserializeProject, Storage.serializeProject. cbn.
  rewrite Haverage. cbn. rewrite <- list_fmap_compose.
  rewrite (list_fmap_ext _ id (Storage.sessions value));
    [|intros i session _; apply deserializeSession_serializeSession].
  rewrite list_fmap_id. by destruct value.
Qed.

Lemma deserialized_projects (entries : list (string * Storage.ProjectStats))
    (acc : gmap string Storage.ProjectStats) :
  NoDup entries.*1 →
  Forall (λ entry, Storage.jsonNumber (Storage.averageSessionDuration entry.2)
                   = Some (Storage.averageSessionDuration entry.2)) entries →
  foldl (λ projects entry, <[entry.1 := Storage.deserializeProject entry.2]> projects) acc
    ((λ entry, (entry.1, Storage.serializeProject entry.2)) <$> entries)
  = list_to_map entries ∪ acc.
Proof.
  revert acc. induction entries as [|[key value] entries IH]; intros acc Hkeys Hplain.
  - cbn. by rewrite (left_id_L ∅ (∪)).
  - rewrite fmap_cons in Hkeys. apply NoDup_cons in Hkeys as [Hkey Hkeys].
    apply Forall_cons in Hplain as [Hvalue Hplain].
    rewrite fmap_cons. cbn [foldl fst snd]. rewrite IH by done. cbn [fst snd] in *.
    rewrite deserializeProject_serializeProject by done.
    rewrite list_to_map_cons. cbn [fst snd].
    rewrite <- insert_union_l. symmetry.
    apply insert_union_r. by apply not_elem_of_list_to_map_1.
Qed.

Lemma deserializeData_serializeData (n : Z) (data : Storage.TrackingData) :
  Storage.version data ≠ "" →
  Storage.workspacePath data ≠ Some "" →
  Storage.workspaceName data ≠ Some "" →
  Storage.plainAverages data →
  Storage.deserializeData n (Storage.serializeData data) = data.
Proof.
  intros Hversion Hpath Hname Hplain.
  unfold Storage.deserializeData, Storage.serializeData. cbn.
  rewrite deserialized_projects.
  - rewrite (right_id_L ∅ (∪)), list_to_map_to_list.
    rewrite bool_decide_eq_false_2 by done.
    assert (Hcurrent : deserializeSession <$> (serializeSession <$> Storage.currentSession data)
                       = Storage.currentSession data).
    { destruct (Storage.currentSession data) as [session|]; [|done]. cbn.
      by rewrite deserializeSession_serializeSession. }
    rewrite Hcurrent.
    assert (Hkept : ∀ o : option string,
              o ≠ Some "" → (if Storage.truthy o then o else None) = o).
    { intros [v|] Hv; [|done]. cbn. by rewrite bool_decide_eq_false_2 by congruence. }
    rewrite !Hkept by done. by destruct data.
  - apply NoDup_fst_map_to_list.
  - apply Forall_forall. intros [key value] Hentry%elem_of_map_to_list.
    by apply (Hplain key value).
Qed.

(** X10: what [save] writes, [load] reads back: after a save of data that
    belongs to the open workspace (or with no workspace folder open), [load]
    returns that data, with [lastSaved] set to the time of the save.  The
    data passes through [serializeData], [JSON] and [deserializeData], which
    hand it back as it was under these conditions: the version and the
    workspace name and path are not empty strings, which [deserializeData]
    replaces or drops, and the average of each project is a finite number
    other than negative zero, which [JSON] writes as it is. *)
Theorem X10_save_then_load (ws : Storage.Workspace) (now now' : Z)
    (data : Storage.TrackingData) (disk : Storage.Disk) :
  Storage.directoryAvailable disk = true →
  Storage.version data ≠ "" →
  Storage.workspacePath data ≠ Some "" →
  Storage.workspaceName data ≠ Some "" →
  Storage.plainAverages data →
  (∀ fsPath name, ws = Some (fsPath, name) → Storage.workspacePath data = Some fsPath) →
  Storage.load ws now' (Storage.save data now disk)
  = Storage.mkTrackingData (Storage.projects data) (Storage.currentSession data)
      (Storage.data_lastActivity data) (Storage.totalTimeTracked data)
      (Storage.version data) now (Storage.workspacePath data) (Storage.workspaceName data).
Proof.
  intros Hdir Hversion Hpath Hname Hplain Hws.
  unfold Storage.load, Storage.save, Storage.exists_.
  cbn [Storage.directoryAvailable Storage.dataFile]. rewrite Hdir. cbn [negb].
  rewrite deserializeData_serializeData by done.
  destruct ws as [[fsPath name]|]; [|done].
  cbn [Storage.workspacePath]. rewrite (Hws fsPath name eq_refl) in *. cbn.
  rewrite (bool_decide_eq_false_2 (fsPath = "")) by congruence. cbn.
  by rewrite bool_decide_eq_true_2.
Qed.

(** X11: a save keeps the file it replaces as the backup, and a data file
    that cannot be parsed makes [load] return that backup: after two saves, if
    the data file is then found corrupt, [load] returns the data of the first
    save, whatever workspace is open.  The version and the workspace name and
    path of that data are not empty strings, which [deserializeData] would
    replace, and the average of each of its projects is a finite number other
    than negative zero, which [JSON] writes as it is. *)
Theorem X11_corrupt_file_recovers_previous_save (ws : Storage.Workspace) (now1 now2 now : Z)
    (data1 data2 : Storage.TrackingData) (disk : Storage.Disk) :
  Storage.directoryAvailable disk = true →
  Storage.version data1 ≠ "" →
  Storage.workspacePath data1 ≠ Some "" →
  Storage.workspaceName data1 ≠ Some "" →
  Storage.plainAverages data1 →
  let saved := Storage.save data2 now2 (Storage.save data1 now1 disk) in
  let damaged :=
    Storage.mkDisk (Storage.directoryAvailable saved) Storage.Corrupt
      (Storage.backupFile saved) in
  Storage.backupFile saved = Storage.dataFile (Storage.save data1 now1 disk)
  ∧ Storage.load ws now damaged
    = Storage.mkTrackingData (Storage.projects data1) (Storage.currentSession data1)
        (Storage.data_lastActivity data1) (Storage.totalTimeTracked data1)
        (Storage.version data1) now1 (Storage.workspacePath data1)
        (Storage.workspaceName data1).
Proof.
  intros Hdir Hversion Hpath Hname Hplain. cbv zeta. split; [done|].
  unfold Storage.load, Storage.loadBackup, Storage.exists_. cbn. rewrite Hdir. cbn.
  by rewrite deserializeData_serializeData.
Qed.

(** X12: [clear] keeps what it removes as the backup, yet a [load] that
    follows finds no data file and returns the empty default: the backup is
    read only when the data file is there and cannot be parsed. *)
Theorem X12_clear_then_load (ws : Storage.Workspace) (now : Z) (disk : Storage.Disk) :
  Storage.directoryAvailable disk = true →
  Storage.load ws now (Storage.clear disk) = Storage.createDefaultData ws now
  ∧ (Storage.exists_ disk = true →
     Storage.backupFile (Storage.clear disk) = Storage.dataFile disk).
Proof.
  intros Hdir. unfold Storage.clear, Storage.backup, Storage.load, Storage.exists_.
  destruct disk as [dir file bak]. cbn in *. subst dir.
  destruct file; cbn; by split.
Qed.


(** ** Aggregation over all workspaces *)

(** X13: the aggregate is cached for 30 seconds.  After [refreshCache] at
    time [now], a call of [getAggregatedData] less than 30000 ms later
    returns the data read at [now] and leaves the manager alone, whatever the
    directory holds by then; a call from 30000 ms on reads the directory
    again. *)
Theorem X13_aggregate_cached_for_thirty_seconds
    (workspacesDir later : CrossWorkspace.WorkspacesDir) (now now' : Z)
    (mgr : CrossWorkspace.CrossWorkspaceManager) :
  let refreshed := CrossWorkspace.refreshCache workspacesDir now mgr in
  (now' - now < CrossWorkspace.CACHE_DURATION →
   CrossWorkspace.getAggregatedData later now' refreshed
   = (CrossWorkspace.loadAllWorkspaceData workspacesDir now, refreshed))
  ∧ (CrossWorkspace.CACHE_DURATION ≤ now' - now →
     (CrossWorkspace.getAggregatedData later now' refreshed).1
     = CrossWorkspace.loadAllWorkspaceData later now').
Proof.
  cbv zeta. unfold CrossWorkspace.refreshCache, CrossWorkspace.getAggregatedData. cbn.
  destruct (Z.ltb_spec (now' - now) CrossWorkspace.CACHE_DURATION); split; intros; try done; lia.
Qed.

Lemma foldl_mergeProject trackingData workspaceHash entries acc :
  (foldl (CrossWorkspace.mergeProject trackingData workspaceHash) acc entries).2
  = acc.2 + foldr Z.add 0 ((λ entry, Storage.totalTime entry.2) <$> entries).
Proof.
  revert acc. induction entries as [|e entries IH]; intros acc; cbn; [lia|].
  rewrite IH. cbn. lia.
Qed.

Lemma foldl_loadWorkspace workspaceDirs acc :
  let loaded := foldl CrossWorkspace.loadWorkspace acc workspaceDirs in
  loaded = foldl CrossWorkspace.loadWorkspace acc
             (filter (λ entry, readable entry.2 = true) workspaceDirs)
  ∧ CrossWorkspace.data <$> loaded.2
    = (CrossWorkspace.data <$> acc.2) ++ readableData workspaceDirs
  ∧ loaded.1.2 = acc.1.2 + sumZ (projectTotals <$> readableData workspaceDirs).
Proof.
  cbv zeta. revert acc. induction workspaceDirs as [|[workspaceHash file] dirs IH]; intros acc.
  { cbn. rewrite app_nil_r. repeat split. unfold sumZ. cbn. lia. }
  rewrite filter_cons. cbn [foldl].
  destruct (IH (CrossWorkspace.loadWorkspace acc (workspaceHash, file))) as (IH1 & IH2 & IH3).
  unfold readableData. cbn [omap list_omap snd]. fold (readableData dirs).
  destruct file as [| |trackingData]; cbn [readable];
    destruct (decide _) as [Hr|Hr]; try done.
  cbn [foldl]. split; [exact IH1|]. split.
  - rewrite IH2. unfold CrossWorkspace.loadWorkspace. cbn.
    by rewrite fmap_app, <- app_assoc.
  - rewrite IH3. unfold CrossWorkspace.loadWorkspace. cbn [snd fst].
    rewrite foldl_mergeProject, fmap_cons.
    rewrite sumZ_cons. unfold projectTotals. lia.
Qed.

(** X14: a workspace directory whose data file is missing or cannot be
    parsed is passed over without disturbing the others: the aggregate is the
    one of the readable directories alone, it lists their data in directory
    order, [workspaceCount] is their number, and [totalTime] is the sum of
    the total times of all their projects. *)
Theorem X14_unreadable_workspaces_are_skipped
    (workspaceDirs : list (string * Storage.File)) (now : Z) :
  let aggregated := CrossWorkspace.loadAllWorkspaceData (Some workspaceDirs) now in
  aggregated
  = CrossWorkspace.loadAllWorkspaceData
      (Some (filter (λ entry, readable entry.2 = true) workspaceDirs)) now
  ∧ CrossWorkspace.data <$> CrossWorkspace.workspaces aggregated = readableData workspaceDirs
  ∧ CrossWorkspace.workspaceCount aggregated = length (readableData workspaceDirs)
  ∧ CrossWorkspace.totalTime aggregated = sumZ (projectTotals <$> readableData workspaceDirs).
Proof.
  cbv zeta. unfold CrossWorkspace.loadAllWorkspaceData. cbn.
  destruct (foldl_loadWorkspace workspaceDirs (∅, 0, [])) as (H1 & H2 & H3).
  cbn in H2, H3. split; [by rewrite <- H1|]. split; [done|]. split; [|lia].
  by rewrite <- H2, length_fmap.
Qed.

(** ** Instances of the further properties *)

Lemma X2_witness_under_a_minute :
  0 ≤ 59000 ∧ 0 ≤ 1000 ∧ 59000 / 60000 = 1000 / 60000
  ∧ formatDetailedTime 59000 = formatDetailedTime 1000
  ∧ formatDetailedTime 59000 = "0 minutes".
Proof.
  assert (Ha : 0 ≤ 59000) by lia.
  assert (Hb : 0 ≤ 1000) by lia.
  assert (Hab : 59000 / 60000 = 1000 / 60000) by reflexivity.
  destruct (X2_formatDetailedTime_whole_minutes 59000 1000 Ha Hb Hab) as [Hsame Hzero].
  split; [exact Ha|]. split; [exact Hb|]. split; [exact Hab|].
  split; [exact Hsame|]. apply Hzero. lia.
Defined.

Lemma X9_witness_data_of_another_workspace :
  Storage.directoryAvailable diskWithForeignData = true
  ∧ Storage.dataFile diskWithForeignData ≠ Storage.Corrupt
  ∧ Storage.workspacePath (Storage.load (Some ("/work/demo", "demo")) 1000 diskWithForeignData)
    = Some "/work/demo".
Proof.
  assert (Hdir : Storage.directoryAvailable diskWithForeignData = true) by reflexivity.
  assert (Hfile : Storage.dataFile diskWithForeignData ≠ Storage.Corrupt) by discriminate.
  split; [exact Hdir|]. split; [exact Hfile|].
  exact (X9_load_keeps_to_the_workspace "/work/demo" "demo" 1000 diskWithForeignData
           Hdir Hfile).
Defined.

Lemma X10_witness_save_after_work :
  let data :=
    snapshot (tracker (run 0 safeTimeDifference_clamped workThenStop
                         (started 0 defaultConfig (monitorAt 0) demoWorkspace emptyDisk
                            (at_time 0)))) in
  Storage.directoryAvailable emptyDisk = true
  ∧ Storage.version data ≠ ""
  ∧ Storage.workspacePath data ≠ Some ""
  ∧ Storage.workspaceName data ≠ Some ""
  ∧ Storage.plainAverages data
  ∧ (∀ fsPath name, demoWorkspace = Some (fsPath, name) →
                    Storage.workspacePath data = Some fsPath)
  ∧ ((λ value, length (Storage.sessions value)) <$> Storage.projects data)
    = {[ "/work/demo" := 1%nat ]}
  ∧ Storage.load demoWorkspace 30000 (Storage.save data 22000 emptyDisk)
    = Storage.mkTrackingData (Storage.projects data) (Storage.currentSession data)
        (Storage.data_lastActivity data) (Storage.totalTimeTracked data)
        (Storage.version data) 22000 (Storage.workspacePath data)
        (Storage.workspaceName data).
Proof.
  intros data.
  assert (Hdir : Storage.directoryAvailable emptyDisk = true) by reflexivity.
  assert (Hversion : Storage.version data ≠ "") by (vm_compute; discriminate).
  assert (Hpath : Storage.workspacePath data ≠ Some "") by (vm_compute; discriminate).
  assert (Hname : Storage.workspaceName data ≠ Some "") by (vm_compute; discriminate).
  assert (Hplain : Storage.plainAverages data).
  { apply map_Forall_to_list. vm_compute. repeat constructor. }
  assert (Hws : ∀ fsPath name, demoWorkspace = Some (fsPath, name) →
                               Storage.workspacePath data = Some fsPath)
    by (intros fsPath name [= <- <-]; reflexivity).
  split; [exact Hdir|]. split; [exact Hversion|]. split; [exact Hpath|].
  split; [exact Hname|]. split; [exact Hplain|]. split; [exact Hws|].
  split; [vm_compute; reflexivity|].
  exact (X10_save_then_load demoWorkspace 22000 30000 data emptyDisk
           Hdir Hversion Hpath Hname Hplain Hws).
Defined.

Lemma X11_witness_two_saves :
  let data2 := Storage.createDefaultData demoWorkspace 700 in
  let saved := Storage.save data2 900 (Storage.save foreignData 800 emptyDisk) in
  let damaged := Storage.mkDisk true Storage.Corrupt (Storage.backupFile saved) in
  Storage.directoryAvailable emptyDisk = true
  ∧ Storage.version foreignData ≠ ""
  ∧ Storage.workspacePath foreignData ≠ Some ""
  ∧ Storage.workspaceName foreignData ≠ Some ""
  ∧ Storage.plainAverages foreignData
  ∧ Storage.load demoWorkspace 1000 damaged
    = Storage.mkTrackingData ∅ None 500 0 "1.0.0" 800 (Some "/work/other") (Some "other").
Proof.
  intros data2 saved damaged.
  assert (Hdir : Storage.directoryAvailable emptyDisk = true) by reflexivity.
  assert (Hversion : Storage.version foreignData ≠ "") by discriminate.
  assert (Hpath : Storage.workspacePath foreignData ≠ Some "") by discriminate.
  assert (Hname : Storage.workspaceName foreignData ≠ Some "") by discriminate.
  assert (Hplain : Storage.plainAverages foreignData) by apply map_Forall_empty.
  split; [exact Hdir|]. split; [exact Hversion|]. split; [exact Hpath|].
  split; [exact Hname|]. split; [exact Hplain|].
  exact (proj2 (X11_corrupt_file_recovers_previous_save demoWorkspace 800 900 1000
                  foreignData data2 emptyDisk Hdir Hversion Hpath Hname Hplain)).
Defined.

Lemma X12_witness_cleared_data :
  Storage.directoryAvailable diskWithForeignData = true
  ∧ Storage.exists_ diskWithForeignData = true
  ∧ Storage.load demoWorkspace 1000 (Storage.clear diskWithForeignData)
    = Storage.createDefaultData demoWorkspace 1000
  ∧ Storage.backupFile (Storage.clear diskWithForeignData) = Storage.Holds foreignData.
Proof.
  assert (Hdir : Storage.directoryAvailable diskWithForeignData = true) by reflexivity.
  assert (Hexists : Storage.exists_ diskWithForeignData = true) by reflexivity.
  destruct (X12_clear_then_load demoWorkspace 1000 diskWithForeignData Hdir)
    as [Hload Hbackup].
  split; [exact Hdir|]. split; [exact Hexists|]. split; [exact Hload|].
  exact (Hbackup Hexists).
Defined.

Lemma X16_witness_tick_while_paused :
  let s := run 0 safeTimeDifference_clamped [ (Pause, at_time 2000) ]
             (started 0 defaultConfig (monitorAt 0) demoWorkspace emptyDisk (at_time 0)) in
  isPaused (tracker s) = true
  ∧ ordinary Tick
  ∧ tracker (handle 0 safeTimeDifference_clamped Tick (at_time 7200000) s) = tracker s.
Proof.
  intros s.
  assert (Hpaused : isPaused (tracker s) = true) by (vm_compute; reflexivity).
  assert (Hsig : ordinary Tick) by (by left).
  split; [exact Hpaused|]. split; [exact Hsig|].
  exact (X16_paused_tracker_is_frozen 0 safeTimeDifference_clamped Tick (at_time 7200000) s
           Hpaused Hsig).
Defined.

Lemma X17_witness_sleep_while_paused :
  let s := run 0 safeTimeDifference_clamped [ (Pause, at_time 2000) ]
             (started 0 defaultConfig (monitorAt 0) demoWorkspace emptyDisk (at_time 0)) in
  let t' := tracker (handle 0 safeTimeDifference_clamped Heartbeat (at_time 60000) s) in
  isRunning (tracker s) = true
  ∧ isPaused (tracker s) = true
  ∧ currentSession (tracker s) = Some 0%nat
  ∧ wakes Heartbeat (at_time 60000) (monitor s)
  ∧ isPaused t' = false
  ∧ currentSession t' = Some 0%nat.
Proof.
  intros s t'.
  assert (Hrunning : isRunning (tracker s) = true) by (vm_compute; reflexivity).
  assert (Hpaused : isPaused (tracker s) = true) by (vm_compute; reflexivity).
  assert (Hcur : currentSession (tracker s) = Some 0%nat) by (vm_compute; reflexivity).
  assert (Hs : ∃ session, heap (tracker s) !! 0%nat = Some session)
    by (eexists; vm_compute; reflexivity).
  destruct Hs as [session Hs].
  assert (Hwakes : wakes Heartbeat (at_time 60000) (monitor s))
    by (left; split; [done|vm_compute; reflexivity]).
  destruct (X17_wake_ends_a_pause 0 safeTimeDifference_clamped Heartbeat (at_time 60000) s
              0%nat session Hrunning Hpaused Hcur Hs Hwakes) as (Hresumed & Hsame & _).
  split; [exact Hrunning|]. split; [exact Hpaused|]. split; [exact Hcur|].
  split; [exact Hwakes|]. split; [exact Hresumed|exact Hsame].
Defined.

Lemma X18_witness_tick_after_an_hour :
  let t := tracker (started 0 defaultConfig (monitorAt 0) demoWorkspace emptyDisk
                      (at_time 0)) in
  let env := at_time 3600000 in
  autoEndSessionAfterIdle (config t) = true
  ∧ isPaused t = false
  ∧ 0 ≤ autoEndIdleThreshold (config t)
  ∧ current_satisfies
      (λ s, now env - lastActiveTime s ≤ autoEndIdleThreshold (config t) * 60 * 1000)
      (tick 0 safeTimeDifference_clamped (monitorAt 0) env t).
Proof.
  intros t env.
  assert (Hauto : autoEndSessionAfterIdle (config t) = true) by (vm_compute; reflexivity).
  assert (Hpaused : isPaused t = false) by (vm_compute; reflexivity).
  assert (Hthreshold : 0 ≤ autoEndIdleThreshold (config t)) by (vm_compute; discriminate).
  split; [exact Hauto|]. split; [exact Hpaused|]. split; [exact Hthreshold|].
  exact (X18_tick_leaves_no_idle_session 0 safeTimeDifference_clamped (monitorAt 0) env t
           Hauto Hpaused Hthreshold).
Defined.

Lemma X19_witness_switch_after_restart :
  let first := tracker (started 0 defaultConfig (monitorAt 0) demoWorkspace emptyDisk
                          (at_time 0)) in
  let disk := autoSave (at_time 30000) first emptyDisk in
  let t := start 0 demoWorkspace disk (at_time 3600000) (newTracker defaultConfig 3600000) in
  let env := mkEnv 3601000 (Some ("other", "/work/other")) (λ _, "p0o9i8u7y") in
  let t' := tick 0 safeTimeDifference_clamped (monitorAt 3600000) env t in
  filed t
  ∧ autoEndSessionOnProjectChange (config t) = true
  ∧ isPaused t = false
  ∧ current_satisfies (λ s, ∃ name, currentProject env = Some (name, projectPath s)) t'
  ∧ (projectPath <$> currentSessionObject t) = Some "/work/demo"
  ∧ (projectPath <$> currentSessionObject t') = Some "/work/other".
Proof.
  intros first disk t env t'.
  assert (Hfiled : filed t).
  { apply filed_start.
    - apply (bool_decide_unpack _). vm_compute. exact I.
    - by apply structure_filed, structure_empty. }
  assert (Hauto : autoEndSessionOnProjectChange (config t) = true)
    by (vm_compute; reflexivity).
  assert (Hpaused : isPaused t = false) by (vm_compute; reflexivity).
  split; [exact Hfiled|]. split; [exact Hauto|]. split; [exact Hpaused|].
  split; [|vm_compute; by split].
  exact (proj1 (X19_tick_follows_the_open_project 0 safeTimeDifference_clamped
                  (monitorAt 3600000) env t Hfiled Hauto Hpaused)).
Defined.

Lemma X20_witness_wake_before_midnight :
  let s := started 0 defaultConfig (monitorAt 0) demoWorkspace emptyDisk (at_time 0) in
  let env := at_time 86390000 in
  let s' := handle 0 safeTimeDifference_clamped Heartbeat env s in
  let t2 := tick 0 safeTimeDifference_clamped (monitor s') (at_time 86400005) (tracker s') in
  SLEEP_THRESHOLD < now env - lastHeartbeat (monitor s)
  ∧ isRunning (tracker s) = true
  ∧ isPaused (tracker s) = false
  ∧ autoEndSessionAfterIdle (config (tracker s)) = true
  ∧ autoStart (config (tracker s)) = true
  ∧ currentSession (tracker s) = Some 0%nat
  ∧ currentProject env = Some ("demo", "/work/demo")
  ∧ lastSessionDay (tracker s') = None
  ∧ checkAndHandleMidnightCrossing 0 (monitor s') (at_time 86400005) (tracker s') = tracker s'
  ∧ currentSession t2 = Some 1%nat
  ∧ (startTime <$> heap t2 !! 1%nat) = Some 86390000
  ∧ length (heap t2) = 2%nat
  ∧ toLocaleDateString 0 86390000 ≠ toLocaleDateString 0 86400005.
Proof.
  intros s env s' t2.
  assert (Hgap : SLEEP_THRESHOLD < now env - lastHeartbeat (monitor s)) by reflexivity.
  assert (Hrun : isRunning (tracker s) = true) by reflexivity.
  assert (Hpaused : isPaused (tracker s) = false) by reflexivity.
  assert (Hauto : autoEndSessionAfterIdle (config (tracker s)) = true) by reflexivity.
  assert (Hstart : autoStart (config (tracker s)) = true) by reflexivity.
  assert (Hcur : currentSession (tracker s) = Some 0%nat) by reflexivity.
  assert (Hs : ∃ session, heap (tracker s) !! 0%nat = Some session)
    by (eexists; vm_compute; reflexivity).
  destruct Hs as [session Hs].
  assert (Hproj : currentProject env = Some ("demo", "/work/demo")) by reflexivity.
  destruct (X20_day_unset_after_sleep_and_wake 0 safeTimeDifference_clamped s env
              "demo" "/work/demo" 0%nat session Hgap Hrun Hpaused Hauto Hstart Hcur Hs Hproj)
    as (_ & _ & _ & Hday & Hcheck).
  split; [exact Hgap|]. split; [exact Hrun|]. split; [exact Hpaused|].
  split; [exact Hauto|]. split; [exact Hstart|]. split; [exact Hcur|].
  split; [exact Hproj|]. split; [exact Hday|].
  split; [exact (Hcheck (monitor s') (at_time 86400005))|].
  vm_compute. repeat split. discriminate.
Defined.

Lemma X21_witness_stop_after_work :
  let trace := [ (Heartbeat, at_time 10000); (Tick, at_time 20000) ] in
  let later := [ (Tick, at_time 30000); (TextChange, at_time 31000) ] in
  let s := run 0 safeTimeDifference_clamped trace
             (started 0 defaultConfig (monitorAt 0) demoWorkspace emptyDisk (at_time 0)) in
  let stopped := handle 0 safeTimeDifference_clamped Stop (at_time 21000) s in
  let begun := stop_begin safeTimeDifference_clamped (monitor s) (at_time 21000) (tracker s) in
  let interrupted :=
    stop_end
      (stop_saved (ending (tracker s))
         (tracker (handle 0 safeTimeDifference_clamped TextChange (at_time 21001)
                     (mkSystem (monitor s) begun)))) in
  empty_storage emptyDisk
  ∧ currentSession (tracker stopped) = None
  ∧ all_closed (tracker stopped)
  ∧ heap (tracker (run 0 safeTimeDifference_clamped later stopped)) = heap (tracker stopped)
  ∧ stopped_with_open_session interrupted
  ∧ currentSession interrupted = Some 1%nat.
Proof.
  intros trace later s stopped begun interrupted.
  assert (Hempty : empty_storage emptyDisk) by (by split).
  destruct (X21_stop_alone_and_interrupted 0 safeTimeDifference_clamped defaultConfig
              (monitorAt 0) demoWorkspace emptyDisk (at_time 0) (at_time 21000) trace later
              Hempty) as (_ & _ & Hnone & Hclosed & Hheap & _ & Hrace).
  destruct (Hrace (at_time 21001) "demo" "/work/demo" eq_refl eq_refl eq_refl eq_refl)
    as [Hfirst _].
  split; [exact Hempty|]. split; [exact Hnone|]. split; [exact Hclosed|].
  split; [exact Hheap|]. split; [exact Hfirst|]. vm_compute. reflexivity.
Defined.

Lemma X22_witness_session_at_work :
  let trace := [ (Heartbeat, at_time 10000); (Tick, at_time 12000) ] in
  let s := run 0 safeTimeDifference_clamped trace
             (started 0 defaultConfig (monitorAt 0) demoWorkspace emptyDisk (at_time 0)) in
  empty_storage emptyDisk
  ∧ clock_ordered 0 trace
  ∧ ∃ session,
      heap (tracker s) !! 0%nat = Some session
      ∧ endTime session = None
      ∧ totalTime session = 12000
      ∧ 0 ≤ totalTime session
      ∧ startTime session ≤ lastActiveTime session ≤ clock_after 0 trace
      ∧ totalTime session ≤ lastActiveTime session - startTime session.
Proof.
  intros trace s.
  assert (Hempty : empty_storage emptyDisk) by (by split).
  assert (Hclock : clock_ordered 0 trace) by (cbn; lia).
  assert (Hs : ∃ session, heap (tracker s) !! 0%nat = Some session
                          ∧ endTime session = None ∧ totalTime session = 12000)
    by (eexists; split; [vm_compute; reflexivity|by split]).
  destruct Hs as (session & Hs & Hopen & Htotal).
  destruct (X22_credit_of_an_open_session 0 safeTimeDifference_clamped
              safeTimeDifference_clamped_bound defaultConfig (monitorAt 0) demoWorkspace
              emptyDisk (at_time 0) trace Hempty Hclock 0%nat session Hs)
    as (Hnonneg & Hspan & Hcredit).
  split; [exact Hempty|]. split; [exact Hclock|].
  exists session. split; [exact Hs|]. split; [exact Hopen|]. split; [exact Htotal|].
  split; [exact Hnonneg|]. split; [exact Hspan|exact (Hcredit Hopen)].
Defined.

Lemma X23_witness_twenty_seconds_today :
  let trace := [ (Heartbeat, at_time 10000); (Tick, at_time 20000) ] in
  let t := tracker (run 0 safeTimeDifference_clamped trace
                      (started 0 defaultConfig (monitorAt 0) demoWorkspace emptyDisk
                         (at_time 0))) in
  empty_storage emptyDisk
  ∧ getTodayProjectTime 0 "/work/demo" (at_time 21000) t
    = sumZ (totalTime <$> listedToday 0 "/work/demo" 21000 t)
  ∧ getTodayProjectTime 0 "/work/demo" (at_time 21000) t = 20000.
Proof.
  intros trace t.
  assert (Hempty : empty_storage emptyDisk) by (by split).
  split; [exact Hempty|]. split; [|vm_compute; reflexivity].
  exact (X23_today_counts_each_listed_session_once 0 safeTimeDifference_clamped defaultConfig
           (monitorAt 0) demoWorkspace emptyDisk (at_time 0) trace "/work/demo"
           (at_time 21000) Hempty).
Defined.

Lemma X24_witness_twenty_seconds_shown_as_forty :
  let trace := [ (Heartbeat, at_time 10000); (Tick, at_time 20000) ] in
  let t := tracker (run 0 safeTimeDifference_clamped trace
                      (started 0 defaultConfig (monitorAt 0) demoWorkspace emptyDisk
                         (at_time 0))) in
  empty_storage emptyDisk
  ∧ showTodaysSessions_total 0 (at_time 21000) t
    = showStatistics_total 0 (at_time 21000) t + currentToday 0 21000 t
  ∧ showStatistics_total 0 (at_time 21000) t = 20000
  ∧ showTodaysSessions_total 0 (at_time 21000) t = 40000.
Proof.
  intros trace t.
  assert (Hempty : empty_storage emptyDisk) by (by split).
  split; [exact Hempty|]. split; [|vm_compute; by split].
  exact (X24_sessions_view_counts_the_current_session_twice 0 safeTimeDifference_clamped
           defaultConfig (monitorAt 0) demoWorkspace emptyDisk (at_time 0) trace
           (at_time 21000) Hempty).
Defined.

Lemma X25_witness_an_edit :
  let t := tracker (started 0 defaultConfig (monitorAt 0) demoWorkspace emptyDisk
                      (at_time 0)) in
  let event := mkEvent text_change 5000 in
  ev_type event ≠ sleep
  ∧ totals_same (heap t)
      (heap (onActivity 0 safeTimeDifference_clamped event (monitorAt 5000) (at_time 5000) t)).
Proof.
  intros t event.
  assert (Hkind : ev_type event ≠ sleep) by discriminate.
  split; [exact Hkind|].
  exact (proj1 (X25_activity_credits_no_time 0 safeTimeDifference_clamped event
                  (monitorAt 5000) (at_time 5000) t Hkind)).
Defined.
